(** * Field validation pipeline of [rest_framework/fields.py]

    A shallow embedding of the serializer fields: the attribute path
    resolver [get_attribute], the base class [Field] (construction,
    binding, [run_validation], [run_validators], [fail]) and the concrete
    fields [CharField], [IntegerField], [DecimalField], [ChoiceField],
    [ListField], [DateTimeField], [DateField] and [TimeField].

    Python exceptions are results of an error monad; calls whose order or
    absence matters ([to_internal_value], validators, [validate]) are
    recorded in a trace that the monad threads through. *)

From Stdlib Require Import ZArith List String Ascii Bool Lia.
From stdpp Require Import base gmap strings pretty.
Import ListNotations.

#[local] Set Warnings "-register-all".

(** ** The attribute path resolver *)

Module Attr.

(** The exceptions [get_attribute] distinguishes, each with its message;
    any other exception is [OtherException]. *)
Inductive py_exception :=
| ObjectDoesNotExist (msg : string)
| AttributeError (msg : string)
| KeyError (msg : string)
| TypeError (msg : string)
| OtherException (name msg : string).

(** Result of a lookup, and of the resolver itself: a value is returned or
    an exception is raised. *)
Inductive lookup (object : Type) :=
| Found (o : object)
| Raised (e : py_exception).
Arguments Found {object} o.
Arguments Raised {object} e.

Section Resolver.
(** Python objects with the builtin [getattr(instance, attr)] and the
    subscription [instance[attr]]; both are dynamic in Python, so the
    resolver is embedded over any interpretation of them. *)
Variable object : Type.
Variable py_None : object.
Variable getattr : object -> string -> lookup object.
Variable getitem : object -> string -> lookup object.

(** [get_attribute(instance, attrs)]: the [for] loop over [attrs] is the
    recursion on the list, [instance] being rebound at each step. *)
Fixpoint get_attribute (instance : object) (attrs : list string)
  : lookup object :=
  match attrs with
  | [] => Found instance
  | attr :: rest =>
      match getattr instance attr with
      | Found v => get_attribute v rest
      | Raised (ObjectDoesNotExist _) => Found py_None
      | Raised (AttributeError m) =>
          match getitem instance attr with
          | Found v => Found v
          | Raised (KeyError _) | Raised (TypeError _)
          | Raised (AttributeError _) => Raised (AttributeError m)
          | Raised e => Raised e
          end
      | Raised e => Raised e
      end
  end.

(** The resolver as the specification words it, for comparison with
    [get_attribute]: a successful key lookup rebinds [instance] and the
    walk goes on with the remaining steps. *)
Fixpoint get_attribute_walking (instance : object) (attrs : list string)
  : lookup object :=
  match attrs with
  | [] => Found instance
  | attr :: rest =>
      match getattr instance attr with
      | Found v => get_attribute_walking v rest
      | Raised (ObjectDoesNotExist _) => Found py_None
      | Raised (AttributeError m) =>
          match getitem instance attr with
          | Found v => get_attribute_walking v rest
          | Raised (KeyError _) | Raised (TypeError _)
          | Raised (AttributeError _) => Raised (AttributeError m)
          | Raised e => Raised e
          end
      | Raised e => Raised e
      end
  end.
End Resolver.

Arguments get_attribute {object}.
Arguments get_attribute_walking {object}.

(** A small universe of Python objects to run the resolver on:
    [None], integers, dictionaries with string keys, and instances whose
    attributes either hold a value or are relations whose target row is
    missing (reading them raises [ObjectDoesNotExist]). *)
Inductive pyobj :=
| ONone
| OInt (z : Z)
| ODict (items : list (string * pyobj))
| OInstance (cls : string) (attributes : list (string * option pyobj)).

Fixpoint assoc {A : Type} (k : string) (l : list (string * A)) : option A :=
  match l with
  | [] => None
  | (k', v) :: l' => if String.eqb k k' then Some v else assoc k l'
  end.

Definition type_name (o : pyobj) : string :=
  match o with
  | ONone => "NoneType"
  | OInt _ => "int"
  | ODict _ => "dict"
  | OInstance cls _ => cls
  end.

Definition no_attribute (o : pyobj) (attr : string) : py_exception :=
  AttributeError ("'" +:+ type_name o +:+ "' object has no attribute '"
                  +:+ attr +:+ "'").

(** [getattr]: instances look the name up among their attributes; the
    other objects carry no data attributes. *)
Definition pyobj_getattr (o : pyobj) (attr : string) : lookup pyobj :=
  match o with
  | OInstance _ attributes =>
      match assoc attr attributes with
      | Some (Some v) => Found v
      | Some None => Raised (ObjectDoesNotExist attr)
      | None => Raised (no_attribute o attr)
      end
  | _ => Raised (no_attribute o attr)
  end.

(** [o[attr]]: dictionaries look the key up; nothing else is
    subscriptable. *)
Definition pyobj_getitem (o : pyobj) (attr : string) : lookup pyobj :=
  match o with
  | ODict items =>
      match assoc attr items with
      | Some v => Found v
      | None => Raised (KeyError attr)
      end
  | _ => Raised (TypeError ("'" +:+ type_name o
                            +:+ "' object is not subscriptable"))
  end.

Definition resolve : pyobj -> list string -> lookup pyobj :=
  get_attribute ONone pyobj_getattr pyobj_getitem.

(** [{'a': {'b': 1}}] *)
Definition nested_dict : pyobj :=
  ODict [("a", ODict [("b", OInt 1)])].

End Attr.

(** ** Python values *)

Module Py.

(** [decimal.Decimal]: a finite number is a sign, a non-empty tuple of
    digits without leading zeros (zero is the tuple [(0,)]) and an
    exponent, as [as_tuple()] returns them; an infinity has a sign; a NaN
    has a sign, may be signaling and carries diagnostic digits. *)
Inductive Decimal :=
| Finite (sign : bool) (digittuple : list nat) (exponent : Z)
| Infinity (sign : bool)
| NaN (sign : bool) (signaling : bool) (diag : list nat).

(** The values fields receive and return: the class [empty] (no data was
    provided), [None], booleans, integers, strings, lists, dictionaries
    with string keys, and decimals. *)
Inductive value :=
| VEmpty
| VNone
| VBool (b : bool)
| VInt (z : Z)
| VStr (s : string)
| VList (items : list value)
| VDict (entries : list (string * value))
| VDecimal (d : Decimal).

(** *** Strings *)

Definition is_space (c : ascii) : bool :=
  let n := nat_of_ascii c in
  ((9 <=? n) && (n <=? 13) || (28 <=? n) && (n <=? 32))%nat.

Definition is_digit (c : ascii) : bool :=
  let n := nat_of_ascii c in ((48 <=? n) && (n <=? 57))%nat.

Definition digit_value (c : ascii) : nat := (nat_of_ascii c - 48)%nat.

Definition digit_char (d : nat) : ascii := ascii_of_nat (48 + d).

Definition lower_char (c : ascii) : ascii :=
  let n := nat_of_ascii c in
  if ((65 <=? n) && (n <=? 90))%nat then ascii_of_nat (n + 32) else c.

Definition upper_char (c : ascii) : ascii :=
  let n := nat_of_ascii c in
  if ((97 <=? n) && (n <=? 122))%nat then ascii_of_nat (n - 32) else c.

Fixpoint map_string (f : ascii -> ascii) (s : string) : string :=
  match s with
  | EmptyString => EmptyString
  | String c s' => String (f c) (map_string f s')
  end.

(** [s.lower()] *)
Definition lower (s : string) : string := map_string lower_char s.

(** [s.capitalize()] *)
Definition capitalize (s : string) : string :=
  match s with
  | EmptyString => EmptyString
  | String c s' => String (upper_char c) (lower s')
  end.

(** [s.replace(a, b)] for single characters [a] and [b]. *)
Definition replace_char (a b : ascii) (s : string) : string :=
  map_string (fun c => if Ascii.eqb c a then b else c) s.

Fixpoint lstrip (s : string) : string :=
  match s with
  | String c s' => if is_space c then lstrip s' else s
  | EmptyString => EmptyString
  end.

Fixpoint rstrip (s : string) : string :=
  match s with
  | EmptyString => EmptyString
  | String c s' =>
      match rstrip s' with
      | EmptyString => if is_space c then EmptyString
                       else String c EmptyString
      | r => String c r
      end
  end.

(** [s.strip()] *)
Definition strip (s : string) : string := rstrip (lstrip s).

(** [s.split(sep)] for a single character [sep]: never the empty list. *)
Fixpoint split (sep : ascii) (s : string) : list string :=
  match s with
  | EmptyString => [EmptyString]
  | String c s' =>
      if Ascii.eqb c sep then EmptyString :: split sep s'
      else match split sep s' with
           | [] => [String c EmptyString]
           | w :: ws => String c w :: ws
           end
  end.

Fixpoint join (sep : string) (l : list string) : string :=
  match l with
  | [] => ""
  | [x] => x
  | x :: l' => x +:+ sep +:+ join sep l'
  end.

Definition digits_string (ds : list nat) : string :=
  string_of_list_ascii (map digit_char ds).

(** *** Conversion to text *)

(** [str(d)] for a decimal (scientific notation with a capital [E]). *)
Definition Decimal_str (d : Decimal) : string :=
  let sign_str (s : bool) := if s then "-" else "" in
  match d with
  | Infinity s => sign_str s +:+ "Infinity"
  | NaN s sig diag =>
      sign_str s +:+ (if sig then "sNaN" else "NaN") +:+ digits_string diag
  | Finite s ds e =>
      let len := Z.of_nat (length ds) in
      let leftdigits := (e + len)%Z in
      let dotplace :=
        if ((e <=? 0) && (-6 <? leftdigits))%Z then leftdigits else 1%Z in
      let zeros (n : Z) := digits_string (repeat 0%nat (Z.to_nat n)) in
      let '(intpart, fracpart) :=
        if (dotplace <=? 0)%Z
        then ("0", "." +:+ zeros (- dotplace)%Z +:+ digits_string ds)
        else if (len <=? dotplace)%Z
        then (digits_string ds +:+ zeros (dotplace - len)%Z, "")
        else (digits_string (firstn (Z.to_nat dotplace) ds),
              "." +:+ digits_string (skipn (Z.to_nat dotplace) ds)) in
      let exp :=
        if (leftdigits =? dotplace)%Z then ""
        else "E" +:+ (if (0 <=? leftdigits - dotplace)%Z then "+" else "")
                 +:+ pretty (leftdigits - dotplace)%Z in
      sign_str s +:+ intpart +:+ fracpart +:+ exp
  end.

(** [repr(v)]; quotes inside strings are not escaped. *)
Fixpoint repr (v : value) : string :=
  match v with
  | VEmpty => "<class 'rest_framework.fields.empty'>"
  | VNone => "None"
  | VBool b => if b then "True" else "False"
  | VInt z => pretty z
  | VStr s => "'" +:+ s +:+ "'"
  | VList items => "[" +:+ join ", " (map repr items) +:+ "]"
  | VDict entries =>
      "{" +:+ join ", "
                (map (fun kv => "'" +:+ fst kv +:+ "': " +:+ repr (snd kv))
                     entries)
          +:+ "}"
  | VDecimal d => "Decimal('" +:+ Decimal_str d +:+ "')"
  end.

(** [six.text_type(v)]: a string is itself, a decimal prints as [str]
    does, everything else as [repr]. *)
Definition text_type (v : value) : string :=
  match v with
  | VStr s => s
  | VDecimal d => Decimal_str d
  | _ => repr v
  end.

(** [smart_text] of [rest_framework.compat] is Django's: the text of the
    value. *)
Definition smart_text (v : value) : string := text_type v.

(** [type(v).__name__] *)
Definition type_name (v : value) : string :=
  match v with
  | VEmpty => "type"
  | VNone => "NoneType"
  | VBool _ => "bool"
  | VInt _ => "int"
  | VStr _ => "str"
  | VList _ => "list"
  | VDict _ => "dict"
  | VDecimal _ => "Decimal"
  end.

(** [data == ''] *)
Definition is_blank (v : value) : bool :=
  match v with
  | VStr EmptyString => true
  | _ => false
  end.

(** [isinstance(data, type('')) or not hasattr(data, '__iter__')] holds
    exactly when this is [None]; otherwise the elements [for item in data]
    visits (a dictionary yields its keys). *)
Definition iterate (v : value) : option (list value) :=
  match v with
  | VList items => Some items
  | VDict entries => Some (map (fun kv => VStr (fst kv)) entries)
  | _ => None
  end.

(** *** Parsing numbers *)

Fixpoint span_digits (s : string) : list nat * string :=
  match s with
  | String c s' =>
      if is_digit c
      then let '(ds, rest) := span_digits s' in (digit_value c :: ds, rest)
      else ([], s)
  | EmptyString => ([], EmptyString)
  end.

Definition split_sign (s : string) : bool * string :=
  match s with
  | String "-" s' => (true, s')
  | String "+" s' => (false, s')
  | _ => (false, s)
  end.

Definition digits_to_Z (ds : list nat) : Z :=
  fold_left (fun acc d => (10 * acc + Z.of_nat d)%Z) ds 0%Z.

(** The whitespace [int] skips around an ASCII string: tab to carriage
    return, and space. *)
Definition is_int_space (c : ascii) : bool :=
  let n := nat_of_ascii c in ((9 <=? n) && (n <=? 13) || (n =? 32))%nat.

Fixpoint int_lstrip (s : string) : string :=
  match s with
  | String c s' => if is_int_space c then int_lstrip s' else s
  | EmptyString => EmptyString
  end.

Fixpoint int_rstrip (s : string) : string :=
  match s with
  | EmptyString => EmptyString
  | String c s' =>
      match int_rstrip s' with
      | EmptyString => if is_int_space c then EmptyString
                       else String c EmptyString
      | r => String c r
      end
  end.

(** [int(s)] for an ASCII string: surrounding whitespace, an optional sign
    and at least one decimal digit; [None] is [ValueError]. *)
Definition int_of_string (s : string) : option Z :=
  let '(neg, body) := split_sign (int_rstrip (int_lstrip s)) in
  match span_digits body with
  | (d :: ds, EmptyString) =>
      let n := digits_to_Z (d :: ds) in Some (if neg then (- n)%Z else n)
  | _ => None
  end.

Fixpoint strip_leading_zeros (ds : list nat) : list nat :=
  match ds with
  | O :: ds' => strip_leading_zeros ds'
  | _ => ds
  end.

(** The coefficient [str(int(intpart + fracpart))] as a digit tuple. *)
Definition coefficient (ds : list nat) : list nat :=
  match strip_leading_zeros ds with
  | [] => [0%nat]
  | ds' => ds'
  end.

(** The exponent part [E[-+]?\d+] at the end of a numeric string; an
    absent exponent is 0. *)
Definition parse_exponent (s : string) : option Z :=
  match s with
  | EmptyString => Some 0%Z
  | String c s' =>
      if Ascii.eqb (lower_char c) "e"
      then let '(neg, body) := split_sign s' in
           match span_digits body with
           | (d :: ds, EmptyString) =>
               let n := digits_to_Z (d :: ds) in
               Some (if neg then (- n)%Z else n)
           | _ => None
           end
      else None
  end.

(** [decimal.Decimal(s)] for an ASCII string: the constructor strips the string
    and matches a sign followed by a number with an optional fraction and
    exponent, an infinity, or a NaN with diagnostic digits, all
    case-insensitively; [None] is [decimal.InvalidOperation]. *)
Definition Decimal_of_string (s : string) : option Decimal :=
  let '(neg, body) := split_sign (strip s) in
  let low := lower body in
  if String.eqb low "inf" || String.eqb low "infinity"
  then Some (Infinity neg)
  else
    match low with
    | String "n" (String "a" (String "n" rest)) =>
        match span_digits rest with
        | (ds, EmptyString) => Some (NaN neg false (strip_leading_zeros ds))
        | _ => None
        end
    | String "s" (String "n" (String "a" (String "n" rest))) =>
        match span_digits rest with
        | (ds, EmptyString) => Some (NaN neg true (strip_leading_zeros ds))
        | _ => None
        end
    | _ =>
        let '(intpart, after_int) := span_digits body in
        let '(fracpart, after_frac) :=
          match after_int with
          | String "." s' => span_digits s'
          | _ => ([], after_int)
          end in
        match intpart ++ fracpart with
        | [] => None
        | ds =>
            match parse_exponent after_frac with
            | Some exp =>
                Some (Finite neg (coefficient ds)
                        (exp - Z.of_nat (length fracpart))%Z)
            | None => None
            end
        end
    end.

End Py.

(** ** Exceptions, traces and the data of a field *)

Module Core.
Import Py.

(** The field classes of the module that are embedded here. *)
Inductive field_class :=
| Field_ | CharField_ | IntegerField_ | DecimalField_ | ChoiceField_
| ListField_ | DateTimeField_ | DateField_ | TimeField_.

(** [cls.__name__] *)
Definition class_name (cls : field_class) : string :=
  match cls with
  | Field_ => "Field"
  | CharField_ => "CharField"
  | IntegerField_ => "IntegerField"
  | DecimalField_ => "DecimalField"
  | ChoiceField_ => "ChoiceField"
  | ListField_ => "ListField"
  | DateTimeField_ => "DateTimeField"
  | DateField_ => "DateField"
  | TimeField_ => "TimeField"
  end.

Definition is_Field (cls : field_class) : bool :=
  match cls with Field_ => true | _ => false end.

(** An error message: the template found in [error_messages] and the
    keyword arguments [kwargs] of [msg.format]; the interpolation itself
    is Python's and is left unevaluated. *)
Record message := Msg { template : string; kwargs : list (string * value) }.

Inductive exn :=
| ValidationError (messages : list message)
| SkipField
| AssertionError (msg : string)
| NotImplementedError (msg : string)
| KeyError (key : string)
| TypeError (msg : string)
| InvalidOperation
| OtherError (name : string).

Inductive outcome (A : Type) :=
| Returns (a : A)
| Raises (e : exn).
Arguments Returns {A} a.
Arguments Raises {A} e.

(** The calls a validation run makes, in order. [RunValidation] is the
    entry of [Field.run_validation], [ToInternalValue] the call of
    [self.to_internal_value] it makes. [ValidatorCalled] records
    the validator, the [serializer_field] it was handed when it requires
    context (the field's [field_name]) and the value; [FormatTried] is one
    turn of the loop over [input_formats]. *)
Inductive event :=
| RunValidation (cls : field_class) (data : value)
| ToInternalValue (cls : field_class) (data : value)
| ValidatorCalled (name : string) (serializer_field : option (option string))
    (v : value)
| ValidateCalled (cls : field_class) (v : value)
| DefaultCalled
| FormatTried (format : string).

(** A computation: the trace of calls made, and how it ended. *)
Definition M (A : Type) : Type := (list event * outcome A)%type.

Definition ret {A : Type} (a : A) : M A := ([], Returns a).
Definition raise {A : Type} (e : exn) : M A := ([], Raises e).
Definition emit (ev : event) : M unit := ([ev], Returns tt).
Definition bind {A B : Type} (m : M A) (k : A -> M B) : M B :=
  match m with
  | (t, Returns a) => let '(t', r) := k a in (t ++ t', r)
  | (t, Raises e) => (t, Raises e)
  end.

(** The value a computation returns ([d] when it raises). *)
Definition returned {A : Type} (d : A) (m : M A) : A :=
  match snd m with
  | Returns a => a
  | Raises _ => d
  end.

Notation "'let*' x ':=' m 'in' k" := (bind m (fun x => k))
  (at level 10, x pattern, m at level 100, k at level 200).

(** A validator is a callable: it returns, or raises [ValidationError]
    with its messages, or raises something else. When [requires_context]
    is set the field is stored on it before the call. *)
Record validator := Validator {
  validator_name : string;
  requires_context : bool;
  call : option (option string) -> value -> outcome unit
}.

(** The objects above a field (its [parent], the parent's [parent], ...):
    the class name, the [partial] attribute when the object has one, and
    the object's own parent. *)
Inductive ancestor :=
| Ancestor (anc_class : string) (anc_partial : option bool)
    (anc_parent : option ancestor).

(** The [default] argument: the class [empty], a plain value, or a
    callable without arguments together with what calling it returns. *)
Inductive default_spec :=
| NoDefault
| DefaultValue (v : value)
| DefaultCallable (returns : value).

Definition is_empty_default (d : default_spec) : bool :=
  match d with NoDefault => true | _ => false end.

(** The attributes [Field.__init__] and [Field.bind] set on [self]. *)
Record base := Base {
  read_only : bool;
  write_only : bool;
  required : bool;
  default : default_spec;
  source : option string;
  initial : value;
  label : option string;
  help_text : option string;
  style : list (string * value);
  validators : list validator;
  allow_null : bool;
  field_name : option string;
  parent : option ancestor;
  error_messages : gmap string string;
  source_attrs : option (list string)
}.

(** [default_error_messages] of each class. *)
Definition default_error_messages (cls : field_class)
  : list (string * string) :=
  match cls with
  | Field_ =>
      [("required", "This field is required.");
       ("null", "This field may not be null.")]
  | CharField_ => [("blank", "This field may not be blank.")]
  | IntegerField_ =>
      [("invalid", "A valid integer is required.");
       ("max_value",
        "Ensure this value is less than or equal to {max_value}.");
       ("min_value",
        "Ensure this value is greater than or equal to {min_value}.")]
  | DecimalField_ =>
      [("invalid", "A valid number is required.");
       ("max_value",
        "Ensure this value is less than or equal to {max_value}.");
       ("min_value",
        "Ensure this value is greater than or equal to {min_value}.");
       ("max_digits",
        "Ensure that there are no more than {max_digits} digits in total.");
       ("max_decimal_places",
        "Ensure that there are no more than {max_decimal_places} decimal places.");
       ("max_whole_digits",
        "Ensure that there are no more than {max_whole_digits} digits before the decimal point.")]
  | ChoiceField_ => [("invalid_choice", "`{input}` is not a valid choice.")]
  | ListField_ =>
      [("not_a_list",
        "Expected a list of items but got type `{input_type}`")]
  | DateTimeField_ =>
      [("invalid",
        "Datetime has wrong format. Use one of these formats instead: {format}");
       ("date", "Expected a datetime but got a date.")]
  | DateField_ =>
      [("invalid",
        "Date has wrong format. Use one of these formats instead: {format}");
       ("datetime", "Expected a date but got a datetime.")]
  | TimeField_ =>
      [("invalid",
        "Time has wrong format. Use one of these formats instead: {format}")]
  end.

(** [cls.__mro__] without [object]: every class here derives from [Field]
    directly. *)
Definition mro (cls : field_class) : list field_class :=
  match cls with
  | Field_ => [Field_]
  | _ => [cls; Field_]
  end.

(** The class attributes [initial] and [coerce_blank_to_null]. *)
Definition class_initial (cls : field_class) : value :=
  match cls with
  | CharField_ => VStr ""
  | ListField_ => VList []
  | _ => VNone
  end.

Definition coerce_blank_to_null (cls : field_class) : bool :=
  match cls with
  | CharField_ => false
  | _ => true
  end.

(** [d.update(entries)] *)
Definition update {V : Type} (d : gmap string V) (entries : list (string * V))
  : gmap string V :=
  fold_left (fun m kv => <[fst kv := snd kv]> m) entries d.

Definition NOT_READ_ONLY_WRITE_ONLY : string :=
  "May not set both `read_only` and `write_only`".
Definition NOT_READ_ONLY_REQUIRED : string :=
  "May not set both `read_only` and `required`".
Definition NOT_READ_ONLY_DEFAULT : string :=
  "May not set both `read_only` and `default`".
Definition NOT_REQUIRED_DEFAULT : string :=
  "May not set both `required` and `default`".
Definition USE_READONLYFIELD : string :=
  "Field(read_only=True) should be ReadOnlyField".

(** [MISSING_ERROR_MESSAGE.format(class_name=class_name, key=key)] *)
Definition MISSING_ERROR_MESSAGE (class_name key : string) : string :=
  "ValidationError raised by `" +:+ class_name +:+ "`, but error key `"
  +:+ key +:+ "` does not exist in the `error_messages` dictionary.".

End Core.

(** ** The base class [Field] *)

Module Field.
Import Py Core.

(** The keyword arguments of [__init__]; [None] stands for an argument
    left at [None] (or, for [initial], at [empty]). *)
Record init_args := InitArgs {
  kw_read_only : bool;
  kw_write_only : bool;
  kw_required : option bool;
  kw_default : default_spec;
  kw_initial : option value;
  kw_source : option string;
  kw_label : option string;
  kw_help_text : option string;
  kw_style : option (list (string * value));
  kw_error_messages : option (list (string * string));
  kw_validators : list validator;
  kw_allow_null : bool
}.

(** The signature's defaults: [Field()]. *)
Definition no_kwargs : init_args :=
  {| kw_read_only := false; kw_write_only := false; kw_required := None;
     kw_default := NoDefault; kw_initial := None; kw_source := None;
     kw_label := None; kw_help_text := None; kw_style := None;
     kw_error_messages := None; kw_validators := [];
     kw_allow_null := false |}.

(** The value [required] has after the first statement of [__init__]. *)
Definition derived_required (kw : init_args) : bool :=
  match kw_required kw with
  | None => is_empty_default (kw_default kw) && negb (kw_read_only kw)
  | Some r => r
  end.

(** The merged error messages: the class hierarchy from [Field] down to
    the class itself, then the [error_messages] argument. *)
Definition collect_error_messages (cls : field_class)
    (given : option (list (string * string))) : gmap string string :=
  let messages :=
    fold_left (fun m c => update m (default_error_messages c))
      (rev (mro cls)) ∅ in
  update messages (from_option id [] given).

(** [Field.__init__], run for an instance of class [cls]. Every class has
    an empty [default_validators]. *)
Definition __init__ (cls : field_class) (kw : init_args) : outcome base :=
  let read_only := kw_read_only kw in
  let write_only := kw_write_only kw in
  let default := kw_default kw in
  let required := derived_required kw in
  if read_only && write_only
  then Raises (AssertionError NOT_READ_ONLY_WRITE_ONLY)
  else if read_only && required
  then Raises (AssertionError NOT_READ_ONLY_REQUIRED)
  else if read_only && negb (is_empty_default default)
  then Raises (AssertionError NOT_READ_ONLY_DEFAULT)
  else if required && negb (is_empty_default default)
  then Raises (AssertionError NOT_REQUIRED_DEFAULT)
  else if read_only && is_Field cls
  then Raises (AssertionError USE_READONLYFIELD)
  else Returns
    {| read_only := read_only;
       write_only := write_only;
       required := required;
       default := default;
       source := kw_source kw;
       initial := from_option id (class_initial cls) (kw_initial kw);
       label := kw_label kw;
       help_text := kw_help_text kw;
       style := from_option id [] (kw_style kw);
       validators := kw_validators kw;
       allow_null := kw_allow_null kw;
       field_name := None;
       parent := None;
       error_messages := collect_error_messages cls (kw_error_messages kw);
       source_attrs := None |}.

Definition redundant_source (field_name cls parent_cls : string) : string :=
  "It is redundant to specify `source='" +:+ field_name +:+ "'` on field '"
  +:+ cls +:+ "' in serializer '" +:+ parent_cls
  +:+ "', because it is the same as the field name. Remove the `source` keyword argument.".

Definition option_string_eqb (o : option string) (s : string) : bool :=
  match o with
  | Some s' => String.eqb s' s
  | None => false
  end.

(** [Field.bind(self, field_name, parent)]: the attributes of [self] after
    the call, or the failed assertion. *)
Definition bind (cls : field_class) (self : base) (name : string)
    (parent_obj : ancestor) : outcome base :=
  if option_string_eqb (source self) name
  then Raises (AssertionError
                 (redundant_source name (class_name cls)
                    (match parent_obj with Ancestor c _ _ => c end)))
  else
    let label' :=
      match label self with
      | None => Some (capitalize (replace_char "_" " " name))
      | Some l => Some l
      end in
    let source' := from_option id name (source self) in
    Returns
      {| read_only := read_only self;
         write_only := write_only self;
         required := required self;
         default := default self;
         source := Some source';
         initial := initial self;
         label := label';
         help_text := help_text self;
         style := style self;
         validators := validators self;
         allow_null := allow_null self;
         field_name := Some name;
         parent := Some parent_obj;
         error_messages := error_messages self;
         source_attrs :=
           Some (if String.eqb source' "*" then [] else split "." source') |}.

(** [self.fail(key, **kwargs)] *)
Definition fail {A : Type} (cls : field_class) (self : base) (key : string)
    (kwargs : list (string * value)) : M A :=
  match error_messages self !! key with
  | Some msg => raise (ValidationError [Msg msg kwargs])
  | None =>
      raise (AssertionError (MISSING_ERROR_MESSAGE (class_name cls) key))
  end.

(** [self.get_default()] *)
Definition get_default (self : base) : M value :=
  match default self with
  | NoDefault => raise SkipField
  | DefaultCallable v => let* _ := emit DefaultCalled in ret v
  | DefaultValue v => ret v
  end.

(** The property [root] walks the [parent] links up to the object without
    a parent; [up] is the [parent] of the field. *)
Fixpoint root_of (a : ancestor) : ancestor :=
  match a with
  | Ancestor _ _ None => a
  | Ancestor _ _ (Some p) => root_of p
  end.

(** [getattr(self.root, 'partial', False)]: a field that is its own root
    has no [partial] attribute. *)
Definition root_partial (up : option ancestor) : bool :=
  match up with
  | None => false
  | Some a =>
      match root_of a with
      | Ancestor _ partial _ => from_option id false partial
      end
  end.

(** What [validator.serializer_field] is set to before the call: the
    field, for a validator that requires context. *)
Definition serializer_field (self : base) (validator : validator)
  : option (option string) :=
  if requires_context validator then Some (field_name self) else None.

(** The loop of [run_validators]: [errors] is the list built so far. *)
Fixpoint run_validators_loop (self : base) (vs : list validator)
    (v : value) (errors : list message) : M (list message) :=
  match vs with
  | [] => ret errors
  | validator :: vs' =>
      let* _ :=
        emit (ValidatorCalled (validator_name validator)
                (serializer_field self validator) v)
      in
      match call validator (serializer_field self validator) v with
      | Returns _ => run_validators_loop self vs' v errors
      | Raises (ValidationError messages) =>
          run_validators_loop self vs' v (errors ++ messages)
      | Raises e => raise e
      end
  end.

(** [self.run_validators(value)] *)
Definition run_validators (self : base) (v : value) : M unit :=
  let* errors := run_validators_loop self (validators self) v [] in
  match errors with
  | [] => ret tt
  | _ => raise (ValidationError errors)
  end.

(** [self.validate(value)]: no class overrides the empty hook. *)
Definition validate (cls : field_class) (v : value) : M unit :=
  emit (ValidateCalled cls v).

(** [Field.to_internal_value] and [Field.to_representation] *)
Definition to_internal_value (data : value) : M value :=
  raise (NotImplementedError "to_internal_value() must be implemented.").

Definition to_representation (v : value) : M value :=
  raise (NotImplementedError "to_representation() must be implemented.").

(** ** Vocabulary of the statements *)

(** Every key of the class's [default_error_messages] and of its base
    classes' has an entry in [self.error_messages]. *)
Definition messages_complete (cls : field_class) (self : base) : Prop :=
  forall c key msg,
    In c (mro cls) -> In (key, msg) (default_error_messages c) ->
    is_Some (error_messages self !! key).

(** The computation ends in the validation error [self.fail(key, ...)]
    raises: the one message registered under [key], with [args]. *)
Definition fails_with {A : Type} (self : base) (key : string)
    (args : list (string * value)) (m : M A) : Prop :=
  exists msg, error_messages self !! key = Some msg /\
              snd m = Raises (ValidationError [Msg msg args]).

(** The messages a validator raises on [v] ([[]] when it passes). *)
Definition messages_of (self : base) (v : value) (validator : validator)
  : list message :=
  match call validator (serializer_field self validator) v with
  | Raises (ValidationError messages) => messages
  | _ => []
  end.

(** The validator passes on [v] or raises a [ValidationError]. *)
Definition passes_or_invalidates (self : base) (v : value)
    (validator : validator) : Prop :=
  match call validator (serializer_field self validator) v with
  | Returns _ | Raises (ValidationError _) => True
  | Raises _ => False
  end.

(** The entry of the trace for the call of a validator. *)
Definition validator_call (self : base) (v : value) (validator : validator)
  : event :=
  ValidatorCalled (validator_name validator)
    (serializer_field self validator) v.


Definition is_empty (data : value) : bool :=
  match data with VEmpty => true | _ => false end.

Definition is_None (data : value) : bool :=
  match data with VNone => true | _ => false end.

(** The input is null for an instance of [cls]: [None], or the empty
    string when the class coerces blank to null. *)
Definition null_input (cls : field_class) (data : value) : bool :=
  is_None data || is_blank data && coerce_blank_to_null cls.

(** [Field.run_validation(self, data)] for an instance of class [cls]
    whose parent is [up] and whose [to_internal_value] method is the
    argument of that name. *)
Definition run_validation (cls : field_class) (up : option ancestor)
    (self : base) (to_internal_value : value -> M value) (data : value)
  : M value :=
  let* _ := emit (RunValidation cls data) in
  if is_empty data then
    if root_partial up then raise SkipField
    else if required self then fail cls self "required" []
    else get_default self
  else
    let data := if is_blank data && coerce_blank_to_null cls
                then VNone else data in
    if is_None data then
      if negb (allow_null self) then fail cls self "null" []
      else ret VNone
    else
      let* v := (let* _ := emit (ToInternalValue cls data) in
                 to_internal_value data) in
      let* _ := run_validators self v in
      let* _ := validate cls v in
      ret v.

End Field.

(** ** Concrete fields *)

Module CharField.
Import Py Core.

Record options := Options {
  allow_blank : bool;
  max_length : option Z;
  min_length : option Z
}.

(** [CharField.run_validation]; [super_run_validation] is
    [super(CharField, self).run_validation]. *)
Definition run_validation (o : options) (self : base)
    (super_run_validation : value -> M value) (data : value) : M value :=
  if is_blank data then
    if negb (allow_blank o) then Field.fail CharField_ self "blank" []
    else ret (VStr "")
  else super_run_validation data.

Definition to_internal_value (data : value) : M value :=
  ret (VStr (text_type data)).

Definition to_representation (v : value) : M value :=
  ret (VStr (text_type v)).

End CharField.

Module IntegerField.
Import Py Core.

(** [int(six.text_type(data))], failing with [invalid] on [ValueError]. *)
Definition to_internal_value (self : base) (data : value) : M value :=
  match int_of_string (text_type data) with
  | Some z => ret (VInt z)
  | None => Field.fail IntegerField_ self "invalid" []
  end.

End IntegerField.

Module DecimalField.
Import Py Core.

Record options := Options {
  max_digits : option Z;
  decimal_places : option Z;
  coerce_to_string : bool
}.

(** [value != value]: true of a quiet NaN and of nothing else; comparing
    a signaling NaN raises [decimal.InvalidOperation]. *)
Definition ne_self (d : Decimal) : outcome bool :=
  match d with
  | NaN _ false _ => Returns true
  | NaN _ true _ => Raises InvalidOperation
  | _ => Returns false
  end.

(** [value in (decimal.Decimal('Inf'), decimal.Decimal('-Inf'))] *)
Definition is_infinite (d : Decimal) : bool :=
  match d with Infinity _ => true | _ => false end.

(** [x is not None and n > x] *)
Definition exceeds (limit : option Z) (n : Z) : bool :=
  match limit with
  | Some x => (x <? n)%Z
  | None => false
  end.

(** The checks on [sign, digittuple, exponent = value.as_tuple()]. *)
Definition check_digits (o : options) (self : base) (d : Decimal)
    (digittuple : list nat) (exponent : Z) : M value :=
  let decimals := Z.abs exponent in
  let digits := Z.of_nat (length digittuple) in
  let digits := if (digits <? decimals)%Z then decimals else digits in
  let whole_digits := (digits - decimals)%Z in
  if exceeds (max_digits o) digits
  then Field.fail DecimalField_ self "max_digits"
         [("max_digits", from_option VInt VNone (max_digits o))]
  else if exceeds (decimal_places o) decimals
  then Field.fail DecimalField_ self "max_decimal_places"
         [("max_decimal_places", from_option VInt VNone (decimal_places o))]
  else
    match max_digits o, decimal_places o with
    | Some md, Some dp =>
        if (md - dp <? whole_digits)%Z
        then Field.fail DecimalField_ self "max_whole_digits"
               [("max_whole_digits", VInt (md - dp))]
        else ret (VDecimal d)
    | _, _ => ret (VDecimal d)
    end.

Definition to_internal_value (o : options) (self : base) (data : value)
  : M value :=
  let text := strip (smart_text data) in
  match Decimal_of_string text with
  | None => Field.fail DecimalField_ self "invalid" []
  | Some d =>
      match ne_self d with
      | Raises e => raise e
      | Returns true => Field.fail DecimalField_ self "invalid" []
      | Returns false =>
          if is_infinite d then Field.fail DecimalField_ self "invalid" []
          else
            match d with
            | Finite _ digittuple exponent =>
                check_digits o self d digittuple exponent
            | _ => Field.fail DecimalField_ self "invalid" []
            end
      end
  end.

End DecimalField.

Module ChoiceField.
Import Py Core.

(** The exact rational value [m * 10^e] of a number: booleans and
    integers have exponent 0. *)
Definition numeric (v : value) : option (Z * Z) :=
  match v with
  | VBool b => Some (if b then 1%Z else 0%Z, 0%Z)
  | VInt z => Some (z, 0%Z)
  | VDecimal (Finite s ds e) =>
      Some (if s then (- digits_to_Z ds)%Z else digits_to_Z ds, e)
  | _ => None
  end.

(** [a == b] for dictionary keys: numbers compare by value across
    [bool], [int] and [Decimal]; otherwise equal values of one type. *)
Definition key_eqb (a b : value) : bool :=
  match numeric a, numeric b with
  | Some (m1, e1), Some (m2, e2) =>
      let e := Z.min e1 e2 in
      (m1 * 10 ^ (e1 - e) =? m2 * 10 ^ (e2 - e))%Z
  | _, _ =>
      match a, b with
      | VEmpty, VEmpty => true
      | VNone, VNone => true
      | VStr s, VStr t => String.eqb s t
      | VDecimal (Infinity s), VDecimal (Infinity t) => Bool.eqb s t
      | _, _ => false
      end
  end.

(** Lists and dictionaries cannot be dictionary keys, and neither can a
    signaling NaN. *)
Definition hashable (v : value) : bool :=
  match v with
  | VList _ | VDict _ | VDecimal (NaN _ true _) => false
  | _ => true
  end.

(** [d[key] = v] on an ordered dictionary: an existing key keeps its
    place (and its key object) and takes the new value. *)
Fixpoint sorted_dict_set (d : list (value * value)) (key v : value)
  : list (value * value) :=
  match d with
  | [] => [(key, v)]
  | (k, x) :: d' =>
      if key_eqb k key then (k, v) :: d'
      else (k, x) :: sorted_dict_set d' key v
  end.

(** [SortedDict(pairs)]; an unhashable key is a [TypeError]. *)
Fixpoint SortedDict_from (d : list (value * value))
    (pairs : list (value * value)) : outcome (list (value * value)) :=
  match pairs with
  | [] => Returns d
  | (k, v) :: pairs' =>
      if hashable k then SortedDict_from (sorted_dict_set d k v) pairs'
      else Raises (TypeError ("unhashable type: '" +:+ type_name k +:+ "'"))
  end.

Definition SortedDict := SortedDict_from [].

(** [isinstance(item, (list, tuple)) and len(item) == 2]; sequences are
    [VList]. *)
Definition as_pair (item : value) : option (value * value) :=
  match item with
  | VList [k; d] => Some (k, d)
  | _ => None
  end.

(** [dict([(six.text_type(key), key) for key in keys])]: a later key with
    the same text replaces an earlier one. *)
Definition strings_to_values (keys : list value) : gmap string value :=
  fold_left (fun m key => <[text_type key := key]> m) keys ∅.

Record options := Options {
  choices : list (value * value);
  choice_strings_to_values : gmap string value
}.

(** The part of [ChoiceField.__init__] before the call of
    [Field.__init__]. *)
Definition init_choices (items : list value) : outcome options :=
  let pairs := map as_pair items in
  let entries :=
    if forallb (fun p => match p with Some _ => true | None => false end)
         pairs
    then omap id pairs
    else map (fun item => (item, item)) items in
  match SortedDict entries with
  | Returns d =>
      Returns {| choices := d;
                 choice_strings_to_values := strings_to_values (map fst d) |}
  | Raises e => Raises e
  end.

(** [ChoiceField(choices, **kwargs)] *)
Definition __init__ (items : list value) (kw : Field.init_args)
  : outcome (base * options) :=
  match init_choices items with
  | Returns o =>
      match Field.__init__ ChoiceField_ kw with
      | Returns b => Returns (b, o)
      | Raises e => Raises e
      end
  | Raises e => Raises e
  end.

Definition to_internal_value (o : options) (self : base) (data : value)
  : M value :=
  match choice_strings_to_values o !! text_type data with
  | Some v => ret v
  | None => Field.fail ChoiceField_ self "invalid_choice" [("input", data)]
  end.

(** The subscription is not guarded: a missing key is Python's
    [KeyError]. *)
Definition to_representation (o : options) (v : value) : M value :=
  match choice_strings_to_values o !! text_type v with
  | Some x => ret x
  | None => raise (KeyError (text_type v))
  end.

End ChoiceField.

Module ListField.
Import Py Core.

Section Html.
(** [html.is_html_input] and [html.parse_html_list] of
    [rest_framework.utils.html]. *)
Variable is_html_input : value -> bool.
Variable parse_html_list : value -> value.

(** [[child.run_validation(item) for item in items]]: the elements in
    order; an exception leaves the comprehension. *)
Fixpoint run_children (child_run_validation : value -> M value)
    (items : list value) : M (list value) :=
  match items with
  | [] => ret []
  | item :: rest =>
      let* v := child_run_validation item in
      let* vs := run_children child_run_validation rest in
      ret (v :: vs)
  end.

(** [ListField.to_internal_value]; [child_run_validation] is
    [self.child.run_validation]. *)
Definition to_internal_value (self : base)
    (child_run_validation : value -> M value) (data : value) : M value :=
  let data := if is_html_input data then parse_html_list data else data in
  match iterate data with
  | None =>
      Field.fail ListField_ self "not_a_list"
        [("input_type", VStr (type_name data))]
  | Some items =>
      let* vs := run_children child_run_validation items in
      ret (VList vs)
  end.
End Html.

End ListField.

(** ** Fields as objects: method dispatch *)

Module Fields.
Import Py Core.

(** A field instance: its class, the attributes of the base class and
    those of its own class. *)
Inductive field :=
| IsField (b : base)
| IsCharField (b : base) (o : CharField.options)
| IsIntegerField (b : base)
| IsDecimalField (b : base) (o : DecimalField.options)
| IsChoiceField (b : base) (o : ChoiceField.options)
| IsListField (b : base) (child : field).

Definition class_of (f : field) : field_class :=
  match f with
  | IsField _ => Field_
  | IsCharField _ _ => CharField_
  | IsIntegerField _ => IntegerField_
  | IsDecimalField _ _ => DecimalField_
  | IsChoiceField _ _ => ChoiceField_
  | IsListField _ _ => ListField_
  end.

Definition base_of (f : field) : base :=
  match f with
  | IsField b | IsCharField b _ | IsIntegerField b | IsDecimalField b _
  | IsChoiceField b _ | IsListField b _ => b
  end.

Definition with_base (f : field) (b : base) : field :=
  match f with
  | IsField _ => IsField b
  | IsCharField _ o => IsCharField b o
  | IsIntegerField _ => IsIntegerField b
  | IsDecimalField _ o => IsDecimalField b o
  | IsChoiceField _ o => IsChoiceField b o
  | IsListField _ child => IsListField b child
  end.

(** [f.bind(field_name, parent)] *)
Definition bind (f : field) (name : string) (parent_obj : ancestor)
  : outcome field :=
  match Field.bind (class_of f) (base_of f) name parent_obj with
  | Returns b => Returns (with_base f b)
  | Raises e => Raises e
  end.

(** [ListField(child=child, **kwargs)]: [child] is [None] when the
    argument is missing, the class attribute being [None]. The child is
    bound to the new list field, which has no parent yet. *)
Definition ListField__init__ (child : option field) (kw : Field.init_args)
  : outcome field :=
  match child with
  | None => Raises (AssertionError "`child` is a required argument.")
  | Some c =>
      match Field.__init__ ListField_ kw with
      | Raises e => Raises e
      | Returns b =>
          match bind c "" (Ancestor "ListField" None (parent b)) with
          | Returns c' => Returns (IsListField b c')
          | Raises e => Raises e
          end
      end
  end.

Section Html.
Variable is_html_input : value -> bool.
Variable parse_html_list : value -> value.

(** [self.run_validation(data)] for a field whose [parent] is [up]. The
    child of a list field has the list field as its parent: an object
    without a [partial] attribute whose own parent is [up]. *)
Fixpoint run_validation_in (up : option ancestor) (self : field)
    (data : value) {struct self} : M value :=
  match self with
  | IsField b =>
      Field.run_validation Field_ up b Field.to_internal_value data
  | IsCharField b o =>
      CharField.run_validation o b
        (Field.run_validation CharField_ up b CharField.to_internal_value)
        data
  | IsIntegerField b =>
      Field.run_validation IntegerField_ up b
        (IntegerField.to_internal_value b) data
  | IsDecimalField b o =>
      Field.run_validation DecimalField_ up b
        (DecimalField.to_internal_value o b) data
  | IsChoiceField b o =>
      Field.run_validation ChoiceField_ up b
        (ChoiceField.to_internal_value o b) data
  | IsListField b child =>
      Field.run_validation ListField_ up b
        (ListField.to_internal_value is_html_input parse_html_list b
           (run_validation_in (Some (Ancestor "ListField" None up)) child))
        data
  end.

(** [self.run_validation(data)] *)
Definition run_validation (self : field) (data : value) : M value :=
  run_validation_in (parent (base_of self)) self data.

(** [self.to_internal_value(data)] for a field whose [parent] is [up]. *)
Definition to_internal_value_in (up : option ancestor) (self : field)
    (data : value) : M value :=
  match self with
  | IsField _ => Field.to_internal_value data
  | IsCharField _ _ => CharField.to_internal_value data
  | IsIntegerField b => IntegerField.to_internal_value b data
  | IsDecimalField b o => DecimalField.to_internal_value o b data
  | IsChoiceField b o => ChoiceField.to_internal_value o b data
  | IsListField b child =>
      ListField.to_internal_value is_html_input parse_html_list b
        (run_validation_in (Some (Ancestor "ListField" None up)) child) data
  end.

(** [self.to_internal_value(data)] *)
Definition to_internal_value (self : field) (data : value) : M value :=
  to_internal_value_in (parent (base_of self)) self data.
End Html.

End Fields.

(** ** Date and time fields *)

Module Temporal.
Import Py Core.

(** How a call of a parser ends: it returns, or raises [ValueError] or
    [TypeError] (which the fields swallow), or raises something else. *)
Inductive attempt (A : Type) :=
| Parsed (a : A)
| ValueErrorRaised
| TypeErrorRaised
| OtherRaised (e : exn).
Arguments Parsed {A} a.
Arguments ValueErrorRaised {A}.
Arguments TypeErrorRaised {A}.
Arguments OtherRaised {A} e.

Section Parsers.
(** [datetime.date], [datetime.time], [datetime.datetime] and time
    zones. *)
Variables date time datetime tzinfo : Type.

(** The input of a temporal field, by the [isinstance] tests made on it:
    a [datetime] (which is also a [date]), a [date] that is not a
    [datetime], a [time], or any other value. *)
Inductive input :=
| ADateTime (dt : datetime)
| ADate (d : date)
| ATime (t : time)
| Other (v : value).

(** Django's [parse_datetime], [parse_date] and [parse_time], which
    return [None] when the text is not in ISO format, and
    [datetime.datetime.strptime]. *)
Variable parse_datetime : input -> attempt (option datetime).
Variable parse_date : input -> attempt (option date).
Variable parse_time : input -> attempt (option time).
Variable strptime : input -> string -> attempt datetime.

(** [parsed.date()] and [parsed.time()] *)
Variable date_of : datetime -> date.
Variable time_of : datetime -> time.

(** [timezone.is_aware], [timezone.make_aware] and
    [timezone.make_naive(value, timezone.UTC())] *)
Variable is_aware : datetime -> bool.
Variable make_aware : datetime -> tzinfo -> datetime.
Variable make_naive_utc : datetime -> datetime.

(** The constant [ISO_8601] of the package and the renderings of
    [rest_framework.utils.humanize_datetime]. *)
Variable ISO_8601 : string.
Variable datetime_formats : list string -> string.
Variable date_formats : list string -> string.
Variable time_formats : list string -> string.

(** One turn of the loop over [input_formats]: it returns from the
    method, falls through to the next format, or lets an exception
    out. *)
Inductive turn (A : Type) :=
| Done (a : A)
| NextFormat
| Propagated (e : exn).
Arguments Done {A} a.
Arguments NextFormat {A}.
Arguments Propagated {A} e.

(** The body of the loop: the ISO parser for the ISO marker, [strptime]
    for any other format; [of_parsed] is what is made of the result of
    [strptime]. *)
Definition try_format {A : Type} (iso_parser : input -> attempt (option A))
    (of_parsed : datetime -> A) (v : input) (format : string) : turn A :=
  if String.eqb (lower format) ISO_8601 then
    match iso_parser v with
    | Parsed (Some parsed) => Done parsed
    | Parsed None | ValueErrorRaised | TypeErrorRaised => NextFormat
    | OtherRaised e => Propagated e
    end
  else
    match strptime v format with
    | Parsed parsed => Done (of_parsed parsed)
    | ValueErrorRaised | TypeErrorRaised => NextFormat
    | OtherRaised e => Propagated e
    end.

(** [for format in formats]: the result of the first turn that parsed;
    [None] when the loop runs to its end. *)
Fixpoint first_format {A : Type} (iso_parser : input -> attempt (option A))
    (of_parsed : datetime -> A) (formats : list string) (v : input)
  : M (option A) :=
  match formats with
  | [] => ret None
  | format :: rest =>
      let* _ := emit (FormatTried format) in
      match try_format iso_parser of_parsed v format with
      | Done parsed => ret (Some parsed)
      | NextFormat => first_format iso_parser of_parsed rest v
      | Propagated e => raise e
      end
  end.

Record DateTimeField := {
  dt_base : base;
  dt_input_formats : list string;
  default_timezone : option tzinfo
}.

Definition enforce_timezone (self : DateTimeField) (v : datetime)
  : datetime :=
  match default_timezone self with
  | Some tz => if negb (is_aware v) then make_aware v tz else v
  | None => if is_aware v then make_naive_utc v else v
  end.

Definition DateTimeField_to_internal_value (self : DateTimeField)
    (v : input) : M datetime :=
  match v with
  | ADate _ => Field.fail DateTimeField_ (dt_base self) "date" []
  | ADateTime dt => ret (enforce_timezone self dt)
  | _ =>
      let* found :=
        first_format parse_datetime (fun parsed => parsed)
          (dt_input_formats self) v in
      match found with
      | Some parsed => ret (enforce_timezone self parsed)
      | None =>
          Field.fail DateTimeField_ (dt_base self) "invalid"
            [("format", VStr (datetime_formats (dt_input_formats self)))]
      end
  end.

Record DateField := {
  d_base : base;
  d_input_formats : list string
}.

Definition DateField_to_internal_value (self : DateField) (v : input)
  : M date :=
  match v with
  | ADateTime _ => Field.fail DateField_ (d_base self) "datetime" []
  | ADate d => ret d
  | _ =>
      let* found :=
        first_format parse_date date_of (d_input_formats self) v in
      match found with
      | Some parsed => ret parsed
      | None =>
          Field.fail DateField_ (d_base self) "invalid"
            [("format", VStr (date_formats (d_input_formats self)))]
      end
  end.

Record TimeField := {
  t_base : base;
  t_input_formats : list string
}.

Definition TimeField_to_internal_value (self : TimeField) (v : input)
  : M time :=
  match v with
  | ATime t => ret t
  | _ =>
      let* found :=
        first_format parse_time time_of (t_input_formats self) v in
      match found with
      | Some parsed => ret parsed
      | None =>
          Field.fail TimeField_ (t_base self) "invalid"
            [("format", VStr (time_formats (t_input_formats self)))]
      end
  end.
(** The inputs on which each field reaches its loop over the formats:
    not already a value of its own kind, nor one it refuses. *)
Definition is_date (v : input) : bool :=
  match v with ADateTime _ | ADate _ => true | _ => false end.

Definition is_time (v : input) : bool :=
  match v with ATime _ => true | _ => false end.

(** The computation [m] tries [formats] in order, [attempt] being one
    turn of the loop: it stops at the first format whose turn is done and
    returns what [finish] makes of the result; when every turn falls
    through it fails with [invalid], the message carrying [humanized]. *)
Definition tries_in_order {A B : Type} (formats : list string)
    (attempt : string -> turn A) (finish : A -> B) (self : base)
    (humanized : string) (m : M B) : Prop :=
  (forall before format after parsed,
     formats = before ++ format :: after ->
     Forall (fun f => attempt f = NextFormat) before ->
     attempt format = Done parsed ->
     m = (map FormatTried (before ++ [format]), Returns (finish parsed))) /\
  (Forall (fun f => attempt f = NextFormat) formats ->
   fst m = map FormatTried formats /\
   Field.fails_with self "invalid" [("format", VStr humanized)] m).
End Parsers.

Arguments ADateTime {date time datetime} dt.
Arguments ADate {date time datetime} d.
Arguments ATime {date time datetime} t.
Arguments Other {date time datetime} v.
Arguments is_date {date time datetime} v.
Arguments is_time {date time datetime} v.
Arguments dt_base {tzinfo} d.
Arguments dt_input_formats {tzinfo} d.
Arguments default_timezone {tzinfo} d.
Arguments Done {A} a.
Arguments NextFormat {A}.
Arguments Propagated {A} e.

End Temporal.

(** ** Objects used in the examples *)

Module Examples.
Import Py Core.

(** A serializer, in full and in partial-update mode. *)
Definition serializer : ancestor := Ancestor "Serializer" (Some false) None.
Definition partial_serializer : ancestor :=
  Ancestor "Serializer" (Some true) None.

(** The attributes of [cls()], constructed without arguments. *)
Definition fresh (cls : field_class) : base :=
  {| read_only := false; write_only := false; required := true;
     default := NoDefault; source := None; initial := class_initial cls;
     label := None; help_text := None; style := []; validators := [];
     allow_null := false; field_name := None; parent := None;
     error_messages := Field.collect_error_messages cls None;
     source_attrs := None |}.

(** Two validators on integers, in the manner of [MaxValueValidator] and
    [MinValueValidator]: at most 10, at least 20. *)
Definition at_most_10 : validator :=
  {| validator_name := "MaxValueValidator(10)";
     requires_context := false;
     call := fun _ v =>
       match v with
       | VInt z =>
           if (z <=? 10)%Z then Returns tt
           else Raises (ValidationError
                          [Msg "Ensure this value is less than or equal to 10." []])
       | _ => Raises (TypeError "unorderable types")
       end |}.

Definition at_least_20 : validator :=
  {| validator_name := "MinValueValidator(20)";
     requires_context := true;
     call := fun _ v =>
       match v with
       | VInt z =>
           if (20 <=? z)%Z then Returns tt
           else Raises (ValidationError
                          [Msg "Ensure this value is greater than or equal to 20." []])
       | _ => Raises (TypeError "unorderable types")
       end |}.

(** The attributes of [IntegerField(validators=[at_most_10, at_least_20])]. *)
Definition two_validators : base :=
  {| read_only := false; write_only := false; required := true;
     default := NoDefault; source := None; initial := VNone;
     label := None; help_text := None; style := [];
     validators := [at_most_10; at_least_20];
     allow_null := false; field_name := None; parent := None;
     error_messages := Field.collect_error_messages IntegerField_ None;
     source_attrs := None |}.

(** [b] after [b.bind(name, serializer)] (unchanged when the bind
    fails). *)
Definition bound (cls : field_class) (b : base) (name : string) : base :=
  match Field.bind cls b name serializer with
  | Returns b' => b'
  | Raises _ => b
  end.

(** [ListField(child=IntegerField())]: the child is bound, under the
    empty name, to the list field. *)
Definition integer_child : base :=
  match Field.bind IntegerField_ (fresh IntegerField_) ""
          (Ancestor "ListField" None None) with
  | Returns b' => b'
  | Raises _ => fresh IntegerField_
  end.

Definition integer_list : Fields.field :=
  Fields.IsListField (fresh ListField_) (Fields.IsIntegerField integer_child).

(** [['1', 'abc', '3']] *)
Definition one_abc_three : value := VList [VStr "1"; VStr "abc"; VStr "3"].

(** Input that is never an HTML form. *)
Definition never_html (data : value) : bool := false.
Definition no_html_list (data : value) : value := data.

(** [ChoiceField(choices=[(1, 'One'), (2, 'Two')])] *)
Definition one_two : list value :=
  [VList [VInt 1; VStr "One"]; VList [VInt 2; VStr "Two"]].

Definition one_two_options : ChoiceField.options :=
  {| ChoiceField.choices := [(VInt 1, VStr "One"); (VInt 2, VStr "Two")];
     ChoiceField.choice_strings_to_values :=
       <["2" := VInt 2]> (<["1" := VInt 1]> ∅) |}.

(** [DecimalField(max_digits=6, decimal_places=2)] and
    [DecimalField(max_digits=2, decimal_places=2)] *)
Definition six_two : DecimalField.options :=
  {| DecimalField.max_digits := Some 6%Z;
     DecimalField.decimal_places := Some 2%Z;
     DecimalField.coerce_to_string := true |}.

Definition two_two : DecimalField.options :=
  {| DecimalField.max_digits := Some 2%Z;
     DecimalField.decimal_places := Some 2%Z;
     DecimalField.coerce_to_string := true |}.

(** [CharField(allow_null=True)] with a validator. *)
Definition nullable_char : base :=
  {| read_only := false; write_only := false; required := true;
     default := NoDefault; source := None; initial := VStr "";
     label := None; help_text := None; style := [];
     validators := [at_most_10];
     allow_null := true; field_name := None; parent := None;
     error_messages := Field.collect_error_messages CharField_ None;
     source_attrs := None |}.

(** A small calendar to run the temporal fields on: moments, days and
    times of day are written as their ISO text, and there is one zone.
    The parsers know one ISO date-time and one date-time in the pattern
    ['%Y-%m-%d %H:%M']. *)
Definition moment : Type := string.
Definition input : Type := Temporal.input string string moment.

Definition parse_datetime (v : input) : Temporal.attempt (option moment) :=
  match v with
  | Temporal.Other (VStr s) =>
      if String.eqb s "2021-05-01T10:00:00Z"
      then Temporal.Parsed (Some "2021-05-01T10:00:00+00:00")
      else Temporal.Parsed None
  | _ => Temporal.TypeErrorRaised
  end.

Definition strptime (v : input) (format : string) : Temporal.attempt moment :=
  match v with
  | Temporal.Other (VStr s) =>
      if String.eqb s "2021-05-01 10:00"
         && String.eqb format "%Y-%m-%d %H:%M"
      then Temporal.Parsed "2021-05-01T10:00:00"
      else Temporal.ValueErrorRaised
  | _ => Temporal.TypeErrorRaised
  end.

Definition is_aware (m : moment) : bool :=
  String.eqb (substring (String.length m - 6) 6 m) "+00:00".

Definition make_aware (m : moment) (tz : unit) : moment := m +:+ "+00:00".

Definition make_naive_utc (m : moment) : moment :=
  substring 0 (String.length m - 6) m.

Definition humanize (formats : list string) : string := join ", " formats.

(** [DateTimeField(input_formats=['iso-8601', '%Y-%m-%d %H:%M'])]
    without a default time zone. *)
Definition iso_then_pattern : Temporal.DateTimeField unit :=
  {| Temporal.dt_base := fresh DateTimeField_;
     Temporal.dt_input_formats := ["iso-8601"; "%Y-%m-%d %H:%M"];
     Temporal.default_timezone := None |}.

Definition DateTimeField_to_internal_value
  : Temporal.DateTimeField unit -> input -> M moment :=
  Temporal.DateTimeField_to_internal_value string string moment unit
    parse_datetime strptime is_aware make_aware make_naive_utc
    "iso-8601" humanize.

End Examples.

(** ** Resolving a field's attribute *)

Module Representation.
Import Attr.

Section Resolver.
Variable object : Type.
Variable py_None : object.
Variable getattr : object -> string -> lookup object.
Variable getitem : object -> string -> lookup object.

(** The object reached by a path every step of which is an attribute
    lookup that succeeds; [None] when some step is not. *)
Fixpoint attr_walk (instance : object) (attrs : list string)
  : option object :=
  match attrs with
  | [] => Some instance
  | attr :: rest =>
      match getattr instance attr with
      | Found v => attr_walk v rest
      | Raised _ => None
      end
  end.

(** [attribute is None] and the field's [to_representation]. *)
Variable is_None : object -> bool.
Variable to_representation : object -> lookup object.

(** [Field.get_field_representation(self, instance)] for a field whose
    [source_attrs] are given. *)
Definition get_field_representation (source_attrs : list string)
    (instance : object) : lookup object :=
  match get_attribute py_None getattr getitem instance source_attrs with
  | Found attribute =>
      if is_None attribute then Found py_None
      else to_representation attribute
  | Raised e => Raised e
  end.
End Resolver.

Arguments attr_walk {object}.
Arguments get_field_representation {object}.

Definition pyobj_is_None (o : pyobj) : bool :=
  match o with ONone => true | _ => false end.

(** An author whose [publisher] relation is broken, inside a book. *)
Definition orphan_author : pyobj :=
  OInstance "Author" [("name", Some (OInt 7)); ("publisher", None)].

Definition book : pyobj :=
  OInstance "Book" [("author", Some orphan_author)].

End Representation.

(** ** Storing a validated value *)

Module SetValue.
Import Py Core.

(** [d[k]] on the entries of a dictionary. *)
Fixpoint dict_get (d : list (string * value)) (k : string) : option value :=
  match d with
  | [] => None
  | (k', v) :: d' => if String.eqb k' k then Some v else dict_get d' k
  end.

(** [d[k] = v]: an existing key takes the new value, a new key is
    added. *)
Fixpoint dict_set (d : list (string * value)) (k : string) (v : value)
  : list (string * value) :=
  match d with
  | [] => [(k, v)]
  | (k', x) :: d' =>
      if String.eqb k' k then (k', v) :: d'
      else (k', x) :: dict_set d' k v
  end.

(** [d.update(entries)] for the entries of another dictionary. *)
Definition dict_update (d entries : list (string * value))
  : list (string * value) :=
  fold_left (fun d kv => dict_set d (fst kv) (snd kv)) entries d.

(** [d.update(pairs)] for a list: every element has to be a
    [[key, value]] list; keys that are not strings are outside the
    model. *)
Fixpoint update_from_pairs (d : list (string * value)) (items : list value)
  : outcome (list (string * value)) :=
  match items with
  | [] => Returns d
  | VList [VStr k; v] :: items' => update_from_pairs (dict_set d k v) items'
  | _ :: _ => Raises (OtherError "dictionary update sequence")
  end.

(** [dictionary.update(value)]: a dictionary is merged in; the empty
    string and the empty list add nothing; any other string is a
    [ValueError]; a value that cannot be iterated is a [TypeError] (the
    wording of Python's message varies; recorded is the type of the
    value). *)
Definition update_from (d : list (string * value)) (v : value)
  : outcome (list (string * value)) :=
  match v with
  | VDict entries => Returns (dict_update d entries)
  | VList items => update_from_pairs d items
  | VStr EmptyString => Returns d
  | VStr _ => Raises (OtherError "ValueError")
  | _ => Raises (TypeError (type_name v))
  end.

(** The loop over [keys[:-1]] and the final assignment, for a non-empty
    list of keys: a missing key gets a new dictionary, and an object on
    the way that is not a dictionary is a [TypeError] (recorded with the
    type of that object), raised before anything is changed. The
    dictionary is changed in place; the result is its new content. *)
Fixpoint set_path (d : list (string * value)) (key : string)
    (keys : list string) (v : value) : outcome (list (string * value)) :=
  match keys with
  | [] => Returns (dict_set d key v)
  | key' :: keys' =>
      match from_option id (VDict []) (dict_get d key) with
      | VDict inner =>
          match set_path inner key' keys' v with
          | Returns inner' => Returns (dict_set d key (VDict inner'))
          | Raises e => Raises e
          end
      | other => Raises (TypeError (type_name other))
      end
  end.

(** [set_value(dictionary, keys, value)] *)
Definition set_value (dictionary : list (string * value))
    (keys : list string) (v : value) : outcome (list (string * value)) :=
  match keys with
  | [] => update_from dictionary v
  | key :: keys' => set_path dictionary key keys' v
  end.

(** Reading a nested key back: [d[k1][k2]...[kn]]. *)
Fixpoint get_path (d : list (string * value)) (key : string)
    (keys : list string) : option value :=
  match keys with
  | [] => dict_get d key
  | key' :: keys' =>
      match dict_get d key with
      | Some (VDict inner) => get_path inner key' keys'
      | _ => None
      end
  end.

End SetValue.

(** ** Classes outside the enumeration *)

Module Classes.
Import Py Core.

(** What [Field.__init__] and [Field.fail] read of the class of [self]:
    its name, the [default_error_messages] of the classes of its
    [__mro__] (most specific first), the class attribute [initial], and
    whether it is [Field] itself. *)
Record class_info := ClassInfo {
  name : string;
  mro_messages : list (list (string * string));
  class_initial : value;
  is_Field : bool
}.

(** The description of an enumerated class. *)
Definition info_of (cls : field_class) : class_info :=
  {| name := class_name cls;
     mro_messages := map default_error_messages (mro cls);
     class_initial := Core.class_initial cls;
     is_Field := Core.is_Field cls |}.

(** The merged error messages, as in [Field.collect_error_messages]. *)
Definition collect_error_messages (info : class_info)
    (given : option (list (string * string))) : gmap string string :=
  let messages :=
    fold_left (fun m entries => update m entries)
      (rev (mro_messages info)) ∅ in
  update messages (from_option id [] given).

(** [Field.__init__] for an instance of the class [info] describes. *)
Definition __init__ (info : class_info) (kw : Field.init_args)
  : outcome base :=
  let read_only := Field.kw_read_only kw in
  let write_only := Field.kw_write_only kw in
  let default := Field.kw_default kw in
  let required := Field.derived_required kw in
  if read_only && write_only
  then Raises (AssertionError NOT_READ_ONLY_WRITE_ONLY)
  else if read_only && required
  then Raises (AssertionError NOT_READ_ONLY_REQUIRED)
  else if read_only && negb (is_empty_default default)
  then Raises (AssertionError NOT_READ_ONLY_DEFAULT)
  else if required && negb (is_empty_default default)
  then Raises (AssertionError NOT_REQUIRED_DEFAULT)
  else if read_only && is_Field info
  then Raises (AssertionError USE_READONLYFIELD)
  else Returns
    {| read_only := read_only;
       write_only := write_only;
       required := required;
       default := default;
       source := Field.kw_source kw;
       initial := from_option id (class_initial info) (Field.kw_initial kw);
       label := Field.kw_label kw;
       help_text := Field.kw_help_text kw;
       style := from_option id [] (Field.kw_style kw);
       validators := Field.kw_validators kw;
       allow_null := Field.kw_allow_null kw;
       field_name := None;
       parent := None;
       error_messages :=
         collect_error_messages info (Field.kw_error_messages kw);
       source_attrs := None |}.

(** [self.fail(key, **kwargs)] for an instance of the class named
    [class_name]. *)
Definition fail {A : Type} (class_name : string) (self : base)
    (key : string) (kwargs : list (string * value)) : M A :=
  match error_messages self !! key with
  | Some msg => raise (ValidationError [Msg msg kwargs])
  | None => raise (AssertionError (MISSING_ERROR_MESSAGE class_name key))
  end.

(** The keyword arguments with [source] and [read_only] replaced. *)
Definition with_read_only (kw : Field.init_args) (source : option string)
  : Field.init_args :=
  {| Field.kw_read_only := true;
     Field.kw_write_only := Field.kw_write_only kw;
     Field.kw_required := Field.kw_required kw;
     Field.kw_default := Field.kw_default kw;
     Field.kw_initial := Field.kw_initial kw;
     Field.kw_source := source;
     Field.kw_label := Field.kw_label kw;
     Field.kw_help_text := Field.kw_help_text kw;
     Field.kw_style := Field.kw_style kw;
     Field.kw_error_messages := Field.kw_error_messages kw;
     Field.kw_validators := Field.kw_validators kw;
     Field.kw_allow_null := Field.kw_allow_null kw |}.

Definition ReadOnlyField_info : class_info :=
  {| name := "ReadOnlyField";
     mro_messages := [[]; default_error_messages Field_];
     class_initial := VNone;
     is_Field := false |}.

(** [ReadOnlyField.__init__]: [kwargs['read_only'] = True]. *)
Definition ReadOnlyField__init__ (kw : Field.init_args) : outcome base :=
  __init__ ReadOnlyField_info (with_read_only kw (Field.kw_source kw)).

Definition SerializerMethodField_info : class_info :=
  {| name := "SerializerMethodField";
     mro_messages := [[]; default_error_messages Field_];
     class_initial := VNone;
     is_Field := false |}.

(** A [SerializerMethodField]: the attributes of the base class and
    [method_name]. *)
Record SerializerMethodField := {
  smf_base : base;
  method_name : option string
}.

(** [SerializerMethodField(method_name, **kwargs)]:
    [kwargs['source'] = '*'] and [kwargs['read_only'] = True]. *)
Definition SerializerMethodField__init__ (method_name : option string)
    (kw : Field.init_args) : outcome SerializerMethodField :=
  match __init__ SerializerMethodField_info (with_read_only kw (Some "*")) with
  | Returns b => Returns {| smf_base := b; method_name := method_name |}
  | Raises e => Raises e
  end.

Definition redundant_method_name (method_name : option string)
    (field_name parent_cls : string) : string :=
  "It is redundant to specify `" +:+ from_option id "None" method_name
  +:+ "` on SerializerMethodField '" +:+ field_name +:+ "' in serializer '"
  +:+ parent_cls
  +:+ "', because it is the same as the default method name. Remove the `method_name` argument.".

(** [Field.bind] for an instance of the class named [cls_name]. *)
Definition bind (cls_name : string) (self : base) (field_name : string)
    (parent_obj : ancestor) : outcome base :=
  if Field.option_string_eqb (source self) field_name
  then Raises (AssertionError
                 (Field.redundant_source field_name cls_name
                    (match parent_obj with Ancestor c _ _ => c end)))
  else
    let label' :=
      match label self with
      | None => Some (capitalize (replace_char "_" " " field_name))
      | Some l => Some l
      end in
    let source' := from_option id field_name (source self) in
    Returns
      {| read_only := read_only self;
         write_only := write_only self;
         required := required self;
         default := default self;
         source := Some source';
         initial := initial self;
         label := label';
         help_text := help_text self;
         style := style self;
         validators := validators self;
         allow_null := allow_null self;
         field_name := Some field_name;
         parent := Some parent_obj;
         error_messages := error_messages self;
         source_attrs :=
           Some (if String.eqb source' "*" then [] else split "." source') |}.

(** [SerializerMethodField.bind(self, field_name, parent)] *)
Definition SerializerMethodField_bind (self : SerializerMethodField)
    (field_name : string) (parent_obj : ancestor)
  : outcome SerializerMethodField :=
  let default_method_name := "get_" +:+ field_name in
  if Field.option_string_eqb (method_name self) default_method_name
  then Raises (AssertionError
                 (redundant_method_name (method_name self) field_name
                    (match parent_obj with Ancestor c _ _ => c end)))
  else
    let method_name' :=
      match method_name self with
      | None => default_method_name
      | Some m => m
      end in
    match bind "SerializerMethodField" (smf_base self) field_name
            parent_obj with
    | Returns b => Returns {| smf_base := b; method_name := Some method_name' |}
    | Raises e => Raises e
    end.

End Classes.

(** ** Reading a field's input *)

Module GetValue.
Import Py Core.

Section Html.
(** [html.is_html_input] and [html.parse_html_list] of
    [rest_framework.utils.html], on the submitted data; the second
    argument of [parse_html_list] is its [prefix]. *)
Variable is_html_input : list (string * value) -> bool.
Variable parse_html_list : list (string * value) -> option string -> value.

(** The class attribute [default_empty_html]: every enumerated class
    inherits [empty] from [Field]. *)
Definition default_empty_html (cls : field_class) : value := VEmpty.

(** [dictionary.get(self.field_name, default)]; the field name of an
    unbound field is [None], which is no key of the data. *)
Definition get (dictionary : list (string * value))
    (field_name : option string) (default : value) : value :=
  match field_name with
  | Some k => from_option id default (SetValue.dict_get dictionary k)
  | None => default
  end.

(** [Field.get_value(self, dictionary)] *)
Definition Field_get_value (cls : field_class) (self : base)
    (dictionary : list (string * value)) : value :=
  if is_html_input dictionary then
    let ret := get dictionary (field_name self) (VStr "") in
    if is_blank ret then default_empty_html cls else ret
  else get dictionary (field_name self) VEmpty.

(** [ListField.get_value(self, dictionary)], which overrides it. *)
Definition ListField_get_value (self : base)
    (dictionary : list (string * value)) : value :=
  if is_html_input dictionary
  then parse_html_list dictionary (field_name self)
  else get dictionary (field_name self) VEmpty.

(** [self.get_value(dictionary)] on an instance of [cls]: the method of
    [ListField] for a list field, that of [Field] for the other
    classes, none of which overrides it. *)
Definition get_value (cls : field_class) (self : base)
    (dictionary : list (string * value)) : value :=
  match cls with
  | ListField_ => ListField_get_value self dictionary
  | _ => Field_get_value cls self dictionary
  end.
End Html.

End GetValue.

(** ** Integer fields: construction and output *)

Module IntegerFieldMore.
Import Py Core.

(** [a > b] on numbers ([bool], [int] and finite [Decimal] compare by
    value); [None] when the operands are not both numbers. *)
Definition py_gt (a b : value) : option bool :=
  match ChoiceField.numeric a, ChoiceField.numeric b with
  | Some (m1, e1), Some (m2, e2) =>
      let e := Z.min e1 e2 in
      Some (m2 * 10 ^ (e2 - e) <? m1 * 10 ^ (e1 - e))%Z
  | _, _ => None
  end.

(** [MaxValueValidator(limit, message=message)] of Django, through
    [rest_framework.compat]: the call raises a validation error with the
    message when [value > limit]. *)
Definition MaxValueValidator (limit : Z) (msg : message) : validator :=
  {| validator_name := "MaxValueValidator";
     requires_context := false;
     call := fun _ v =>
       match py_gt v (VInt limit) with
       | Some true => Raises (ValidationError [msg])
       | Some false => Returns tt
       | None => Raises (TypeError "unorderable types")
       end |}.

(** [MinValueValidator(limit, message=message)]: raises when
    [value < limit]. *)
Definition MinValueValidator (limit : Z) (msg : message) : validator :=
  {| validator_name := "MinValueValidator";
     requires_context := false;
     call := fun _ v =>
       match py_gt (VInt limit) v with
       | Some true => Raises (ValidationError [msg])
       | Some false => Returns tt
       | None => Raises (TypeError "unorderable types")
       end |}.

(** [self.validators.append(validator)] *)
Definition append_validator (self : base) (validator : validator) : base :=
  {| read_only := read_only self;
     write_only := write_only self;
     required := required self;
     default := default self;
     source := source self;
     initial := initial self;
     label := label self;
     help_text := help_text self;
     style := style self;
     validators := validators self ++ [validator];
     allow_null := allow_null self;
     field_name := field_name self;
     parent := parent self;
     error_messages := error_messages self;
     source_attrs := source_attrs self |}.

(** One of the two [if ... is not None] blocks of [__init__]: the message
    is [self.error_messages[key].format(key=limit)]. *)
Definition add_limit (make : Z -> message -> validator) (key : string)
    (limit : option Z) (self : base) : outcome base :=
  match limit with
  | None => Returns self
  | Some x =>
      match error_messages self !! key with
      | Some template =>
          Returns (append_validator self
                     (make x (Msg template [(key, VInt x)])))
      | None => Raises (KeyError key)
      end
  end.

(** [IntegerField(max_value=..., min_value=..., **kwargs)] *)
Definition __init__ (max_value min_value : option Z) (kw : Field.init_args)
  : outcome base :=
  match Field.__init__ IntegerField_ kw with
  | Raises e => Raises e
  | Returns b =>
      match add_limit MaxValueValidator "max_value" max_value b with
      | Raises e => Raises e
      | Returns b' => add_limit MinValueValidator "min_value" min_value b'
      end
  end.

(** [int(v)]: an integer is itself, a boolean is 0 or 1, a string is
    parsed, a finite decimal is truncated towards zero; a value of
    another type is a [TypeError], recorded with that type. *)
Definition py_int (v : value) : outcome value :=
  match v with
  | VInt z => Returns (VInt z)
  | VBool b => Returns (VInt (if b then 1 else 0))
  | VStr s =>
      match int_of_string s with
      | Some z => Returns (VInt z)
      | None => Raises (OtherError "ValueError")
      end
  | VDecimal (Finite s ds e) =>
      let m := digits_to_Z ds in
      let n := if (0 <=? e)%Z then (m * 10 ^ e)%Z else (m / 10 ^ (- e))%Z in
      Returns (VInt (if s then (- n)%Z else n))
  | VDecimal (Infinity _) => Raises (OtherError "OverflowError")
  | VDecimal (NaN _ _ _) => Raises (OtherError "ValueError")
  | _ => Raises (TypeError (type_name v))
  end.

(** [IntegerField.to_representation] *)
Definition to_representation (v : value) : M value :=
  match py_int v with
  | Returns z => ret z
  | Raises e => raise e
  end.

End IntegerFieldMore.

(** ** Multiple choice fields *)

Module MultipleChoiceField.
Import Py Core.

(** [set(values)]: equal values are kept once. *)
Fixpoint py_set (values : list value) : list value :=
  match values with
  | [] => []
  | v :: values' =>
      if existsb (ChoiceField.key_eqb v) values' then py_set values'
      else v :: py_set values'
  end.

(** [x in s] for a set [s]. *)
Definition set_mem (x : value) (s : list value) : bool :=
  existsb (ChoiceField.key_eqb x) s.

(** [ChoiceField.to_internal_value] run on an instance of the class named
    [cls_name]. *)
Definition choose (cls_name : string) (o : ChoiceField.options)
    (self : base) (data : value) : M value :=
  match ChoiceField.choice_strings_to_values o !! text_type data with
  | Some v => ret v
  | None => Classes.fail cls_name self "invalid_choice" [("input", data)]
  end.

(** The list comprehension over the items. *)
Fixpoint choose_all (o : ChoiceField.options) (self : base)
    (items : list value) : M (list value) :=
  match items with
  | [] => ret []
  | item :: rest =>
      let* v := choose "MultipleChoiceField" o self item in
      let* vs := choose_all o self rest in
      ret (v :: vs)
  end.

(** [MultipleChoiceField.to_internal_value]: the result is the set, as
    the list of its elements. *)
Definition to_internal_value (o : ChoiceField.options) (self : base)
    (data : value) : M (list value) :=
  match iterate data with
  | None =>
      Classes.fail "MultipleChoiceField" self "not_a_list"
        [("input_type", VStr (type_name data))]
  | Some items =>
      let* vs := choose_all o self items in
      ret (py_set vs)
  end.

Definition info : Classes.class_info :=
  {| Classes.name := "MultipleChoiceField";
     Classes.mro_messages :=
       [[("invalid_choice", "`{input}` is not a valid choice.");
         ("not_a_list",
          "Expected a list of items but got type `{input_type}`")];
        default_error_messages ChoiceField_;
        default_error_messages Field_];
     Classes.class_initial := VNone;
     Classes.is_Field := false |}.

(** [MultipleChoiceField(choices, **kwargs)]: the constructor is
    [ChoiceField]'s. *)
Definition __init__ (items : list value) (kw : Field.init_args)
  : outcome (base * ChoiceField.options) :=
  match ChoiceField.init_choices items with
  | Returns o =>
      match Classes.__init__ info kw with
      | Returns b => Returns (b, o)
      | Raises e => Raises e
      end
  | Raises e => Raises e
  end.

End MultipleChoiceField.

(** ** Boolean fields *)

Module BooleanField.
Import Py Core.

(** [TRUE_VALUES], [FALSE_VALUES] and [NULL_VALUES]; the float [0.0]
    of [FALSE_VALUES] is equal to the integer [0]. *)
Definition TRUE_VALUES : list value :=
  [VStr "t"; VStr "T"; VStr "true"; VStr "True"; VStr "TRUE"; VStr "1";
   VInt 1; VBool true].

Definition FALSE_VALUES : list value :=
  [VStr "f"; VStr "F"; VStr "false"; VStr "False"; VStr "FALSE"; VStr "0";
   VInt 0; VBool false].

Definition NULL_VALUES : list value :=
  [VStr "n"; VStr "N"; VStr "null"; VStr "Null"; VStr "NULL"; VStr ""; VNone].

(** [data in values] for a set: hashing a list, a dictionary or a
    signaling NaN is a [TypeError], recorded with the type of [data]. *)
Definition py_in (data : value) (values : list value) : outcome bool :=
  if ChoiceField.hashable data
  then Returns (existsb (ChoiceField.key_eqb data) values)
  else Raises (TypeError (type_name data)).

(** [bool(v)] *)
Definition py_bool (v : value) : bool :=
  match v with
  | VEmpty => true
  | VNone => false
  | VBool b => b
  | VInt z => negb (z =? 0)%Z
  | VStr s => negb (String.eqb s "")
  | VList items => match items with [] => false | _ => true end
  | VDict entries => match entries with [] => false | _ => true end
  | VDecimal (Finite _ ds _) => existsb (fun d => negb (d =? 0)%nat) ds
  | VDecimal _ => true
  end.

(** [BooleanField.to_internal_value] *)
Definition to_internal_value (self : base) (data : value) : M value :=
  match py_in data TRUE_VALUES with
  | Raises e => raise e
  | Returns true => ret (VBool true)
  | Returns false =>
      match py_in data FALSE_VALUES with
      | Raises e => raise e
      | Returns true => ret (VBool false)
      | Returns false =>
          Classes.fail "BooleanField" self "invalid" [("input", data)]
      end
  end.

(** [BooleanField.to_representation] *)
Definition to_representation (v : value) : M value :=
  match py_in v TRUE_VALUES with
  | Raises e => raise e
  | Returns true => ret (VBool true)
  | Returns false =>
      match py_in v FALSE_VALUES with
      | Raises e => raise e
      | Returns true => ret (VBool false)
      | Returns false => ret (VBool (py_bool v))
      end
  end.

(** [NullBooleanField.to_internal_value] *)
Definition Null_to_internal_value (self : base) (data : value) : M value :=
  match py_in data TRUE_VALUES with
  | Raises e => raise e
  | Returns true => ret (VBool true)
  | Returns false =>
      match py_in data FALSE_VALUES with
      | Raises e => raise e
      | Returns true => ret (VBool false)
      | Returns false =>
          match py_in data NULL_VALUES with
          | Raises e => raise e
          | Returns true => ret VNone
          | Returns false =>
              Classes.fail "NullBooleanField" self "invalid"
                [("input", data)]
          end
      end
  end.

(** [NullBooleanField.to_representation] *)
Definition Null_to_representation (v : value) : M value :=
  match py_in v NULL_VALUES with
  | Raises e => raise e
  | Returns true => ret VNone
  | Returns false => to_representation v
  end.

Definition info : Classes.class_info :=
  {| Classes.name := "BooleanField";
     Classes.mro_messages :=
       [[("invalid", "`{input}` is not a valid boolean.")];
        default_error_messages Field_];
     Classes.class_initial := VBool false;
     Classes.is_Field := false |}.

(** The keyword arguments with [allow_null] set. *)
Definition with_allow_null (kw : Field.init_args) (allow_null : bool)
  : Field.init_args :=
  {| Field.kw_read_only := Field.kw_read_only kw;
     Field.kw_write_only := Field.kw_write_only kw;
     Field.kw_required := Field.kw_required kw;
     Field.kw_default := Field.kw_default kw;
     Field.kw_initial := Field.kw_initial kw;
     Field.kw_source := Field.kw_source kw;
     Field.kw_label := Field.kw_label kw;
     Field.kw_help_text := Field.kw_help_text kw;
     Field.kw_style := Field.kw_style kw;
     Field.kw_error_messages := Field.kw_error_messages kw;
     Field.kw_validators := Field.kw_validators kw;
     Field.kw_allow_null := allow_null |}.

(** [BooleanField.__init__]: [allow_null] is what the caller gave for
    that keyword, if anything; the other keywords are in [kw]. *)
Definition __init__ (allow_null : option bool) (kw : Field.init_args)
  : outcome base :=
  match allow_null with
  | Some _ =>
      Raises (AssertionError
        "`allow_null` is not a valid option. Use `NullBooleanField` instead.")
  | None => Classes.__init__ info (with_allow_null kw false)
  end.

Definition Null_info : Classes.class_info :=
  {| Classes.name := "NullBooleanField";
     Classes.mro_messages :=
       [[("invalid", "`{input}` is not a valid boolean.")];
        default_error_messages Field_];
     Classes.class_initial := VNone;
     Classes.is_Field := false |}.

(** [NullBooleanField.__init__]: [kwargs['allow_null'] = True]. *)
Definition Null__init__ (allow_null : option bool) (kw : Field.init_args)
  : outcome base :=
  match allow_null with
  | Some _ => Raises (AssertionError "`allow_null` is not a valid option.")
  | None => Classes.__init__ Null_info (with_allow_null kw true)
  end.

End BooleanField.

(** ** File fields *)

Module FileField.
Import Py Core.

(** The data handed to a file field: an object with the attributes
    [name] and [size] (each may be [None]), or a value without them. *)
Inductive upload :=
| UploadedFile (name : option string) (size : option Z)
| NotAFile (v : value).

Record options := Options {
  max_length : option Z;
  allow_empty_file : bool
}.

Definition info : Classes.class_info :=
  {| Classes.name := "FileField";
     Classes.mro_messages :=
       [[("required", "No file was submitted.");
         ("invalid",
          "The submitted data was not a file. Check the encoding type on the form.");
         ("no_name", "No filename could be determined.");
         ("empty", "The submitted file is empty.");
         ("max_length",
          "Ensure this filename has at most {max_length} characters (it has {length}).")];
        default_error_messages Field_];
     Classes.class_initial := VNone;
     Classes.is_Field := false |}.

(** [not file_name] and [not file_size] *)
Definition no_name (name : option string) : bool :=
  match name with
  | None | Some EmptyString => true
  | Some _ => false
  end.

Definition no_size (size : option Z) : bool :=
  match size with
  | None => true
  | Some z => (z =? 0)%Z
  end.

(** [self.max_length and len(file_name) > self.max_length] *)
Definition too_long (max_length : option Z) (file_name : string) : bool :=
  match max_length with
  | None => false
  | Some m =>
      negb (m =? 0)%Z && (m <? Z.of_nat (String.length file_name))%Z
  end.

(** [FileField.to_internal_value] *)
Definition to_internal_value (o : options) (self : base) (data : upload)
  : M upload :=
  match data with
  | NotAFile _ => Classes.fail "FileField" self "invalid" []
  | UploadedFile file_name file_size =>
      if no_name file_name
      then Classes.fail "FileField" self "no_name" []
      else if negb (allow_empty_file o) && no_size file_size
      then Classes.fail "FileField" self "empty" []
      else if too_long (max_length o) (from_option id "" file_name)
      then Classes.fail "FileField" self "max_length"
             [("max_length", from_option VInt VNone (max_length o));
              ("length",
               VInt (Z.of_nat (String.length (from_option id "" file_name))))]
      else ret data
  end.

(** [FileField.__init__]: [max_length] and [allow_empty_file] are
    popped from the keywords, the rest goes to [Field.__init__]. *)
Definition __init__ (max_length : option Z) (allow_empty_file : option bool)
    (kw : Field.init_args) : outcome (base * options) :=
  match Classes.__init__ info kw with
  | Returns b =>
      Returns (b, {| max_length := max_length;
                     allow_empty_file :=
                       from_option id false allow_empty_file |})
  | Raises e => Raises e
  end.

End FileField.

(** ** Vocabulary of the further statements, and their examples *)

Module Statements.
Import Py Core.


(** No element of the list is equal, as Python compares, to a later
    one. *)
Fixpoint distinct (values : list value) : Prop :=
  match values with
  | [] => True
  | v :: values' =>
      existsb (ChoiceField.key_eqb v) values' = false /\ distinct values'
  end.

(** The trace and the result of running the validators on [v], for
    validators that pass or raise validation errors. *)
Definition validators_trace (self : base) (v : value) : list event :=
  map (Field.validator_call self v) (validators self).

Definition validators_errors (self : base) (v : value) : list message :=
  flat_map (Field.messages_of self v) (validators self).

(** The arguments with which a read-only field can be constructed. *)
Definition read_only_allowed (kw : Field.init_args) : bool :=
  negb (Field.kw_write_only kw)
  && match Field.kw_required kw with Some true => false | _ => true end
  && is_empty_default (Field.kw_default kw).

End Statements.

Module Samples.
Import Py Core.

(** [{'user': {'name': 'ann'}, 'age': 3}] *)
Definition record : list (string * value) :=
  [("user", VDict [("name", VStr "ann")]); ("age", VInt 3)].

(** [IntegerField(min_value=1, max_value=10)] *)
Definition one_to_ten : base :=
  match IntegerFieldMore.__init__ (Some 10%Z) (Some 1%Z) Field.no_kwargs with
  | Returns b => b
  | Raises _ => Examples.fresh IntegerField_
  end.

(** [IntegerField(default=5)] *)
Definition with_default_5 : Field.init_args :=
  {| Field.kw_read_only := false; Field.kw_write_only := false;
     Field.kw_required := None; Field.kw_default := DefaultValue (VInt 5);
     Field.kw_initial := None; Field.kw_source := None;
     Field.kw_label := None; Field.kw_help_text := None;
     Field.kw_style := None; Field.kw_error_messages := None;
     Field.kw_validators := [Examples.at_most_10];
     Field.kw_allow_null := false |}.

Definition default_5 : base :=
  match Field.__init__ IntegerField_ with_default_5 with
  | Returns b => b
  | Raises _ => Examples.fresh IntegerField_
  end.

(** The attributes of [BooleanField()], [FileField()] and of
    [MultipleChoiceField(choices=[(1, 'One'), (2, 'Two')])]. *)
Definition fresh_as (info : Classes.class_info) : base :=
  match Classes.__init__ info Field.no_kwargs with
  | Returns b => b
  | Raises _ => Examples.fresh Field_
  end.

(** [FileField(max_length=8)] options, and an upload. *)
Definition short_names : FileField.options :=
  {| FileField.max_length := Some 8%Z; FileField.allow_empty_file := false |}.

Definition report : FileField.upload :=
  FileField.UploadedFile (Some "a.txt") (Some 12%Z).

(** A bound [SerializerMethodField()]. *)
Definition method_field : Classes.SerializerMethodField :=
  match Classes.SerializerMethodField__init__ None Field.no_kwargs with
  | Returns f => f
  | Raises _ =>
      {| Classes.smf_base := Examples.fresh Field_;
         Classes.method_name := None |}
  end.


(** [DateTimeField] of the example calendar with a default time zone. *)
Definition zoned : Temporal.DateTimeField unit :=
  {| Temporal.dt_base := Examples.fresh DateTimeField_;
     Temporal.dt_input_formats := ["iso-8601"];
     Temporal.default_timezone := Some tt |}.



(** [NullBooleanField()] *)
Definition null_boolean : base :=
  match BooleanField.Null__init__ None Field.no_kwargs with
  | Returns b => b
  | Raises _ => Examples.fresh Field_
  end.

(** [FileField(max_length=8)] *)
Definition short_names_field : base * FileField.options :=
  match FileField.__init__ (Some 8%Z) None Field.no_kwargs with
  | Returns f => f
  | Raises _ => (Examples.fresh Field_, short_names)
  end.

(** An upload without a name and without content. *)
Definition nameless : FileField.upload :=
  FileField.UploadedFile None (Some 0%Z).

End Samples.

(** ** Paths into nested dictionaries *)

Module Paths.
Import Py Core.

(** [d[k1][k2]...[kn]] for a path given as a list; the empty path
    reads nothing. *)
Definition read (d : list (string * value)) (path : list string)
  : option value :=
  match path with
  | [] => None
  | key :: keys => SetValue.get_path d key keys
  end.

(** Two paths part ways: at the first position where they differ, both
    still have a key. *)
Fixpoint diverge (p q : list string) : bool :=
  match p, q with
  | a :: p', b :: q' => if String.eqb a b then diverge p' q' else true
  | _, _ => false
  end.

(** [{k1: {k2: ... {kn: v}}}] as the value stored under the first key of
    a path whose remaining keys are [keys]. *)
Fixpoint nest (keys : list string) (v : value) : value :=
  match keys with
  | [] => v
  | key :: keys' => VDict [(key, nest keys' v)]
  end.

End Paths.

(** ** A clock for the time zone examples *)

Module Clock.
Import Py Core.

(** Date-times are seconds with a flag saying whether they are aware;
    dates and times of day are numbers, and there is one zone. The ISO
    parser knows ['now'] and overflows on integers; [strptime] reads
    ['0']. *)
Definition stamp : Type := (Z * bool)%type.
Definition input : Type := Temporal.input Z Z stamp.

Definition parse_datetime (v : input) : Temporal.attempt (option stamp) :=
  match v with
  | Temporal.Other (VStr s) =>
      if String.eqb s "now" then Temporal.Parsed (Some (0%Z, true))
      else Temporal.Parsed None
  | Temporal.Other (VInt _) => Temporal.OtherRaised (OtherError "OverflowError")
  | _ => Temporal.TypeErrorRaised
  end.

Definition strptime (v : input) (format : string) : Temporal.attempt stamp :=
  match v with
  | Temporal.Other (VStr s) =>
      if String.eqb s "0" then Temporal.Parsed (0%Z, false)
      else Temporal.ValueErrorRaised
  | _ => Temporal.TypeErrorRaised
  end.

Definition is_aware (m : stamp) : bool := snd m.
Definition make_aware (m : stamp) (tz : unit) : stamp := (fst m, true).
Definition make_naive_utc (m : stamp) : stamp := (fst m, false).

(** [DateTimeField(input_formats=['%s', 'iso-8601'])] with a default
    time zone. *)
Definition in_zone : Temporal.DateTimeField unit :=
  {| Temporal.dt_base := Examples.fresh DateTimeField_;
     Temporal.dt_input_formats := ["%s"; "iso-8601"];
     Temporal.default_timezone := Some tt |}.

Definition DateTimeField_to_internal_value
  : Temporal.DateTimeField unit -> input -> M stamp :=
  Temporal.DateTimeField_to_internal_value Z Z stamp unit
    parse_datetime strptime is_aware make_aware make_naive_utc
    "iso-8601" Examples.humanize.

(** Whether a field has a default time zone. *)
Definition has_timezone {tzinfo : Type} (self : Temporal.DateTimeField tzinfo)
  : bool :=
  match Temporal.default_timezone self with Some _ => true | None => false end.

End Clock.

(** * Properties *)

(** ** The attribute path resolver *)

Section ResolverFacts.
Import Attr.
Context {object : Type} (py_None : object).
Context (getattr getitem : object -> string -> lookup object).

Let resolve := get_attribute py_None getattr getitem.

(** A step whose attribute lookup succeeds goes on from the value
    found. *)
Lemma get_attribute_step instance attr rest v :
  getattr instance attr = Found v ->
  resolve instance (attr :: rest) = resolve v rest.
Proof. intros H. unfold resolve. simpl. now rewrite H. Qed.

(** A broken relation makes the resolution return [None]. *)
Lemma get_attribute_does_not_exist instance attr rest msg :
  getattr instance attr = Raised (ObjectDoesNotExist msg) ->
  resolve instance (attr :: rest) = Found py_None.
Proof. intros H. unfold resolve. simpl. now rewrite H. Qed.

(** When the key lookup made after an [AttributeError] fails too, the
    [AttributeError] of the attribute lookup is the one raised. *)
Lemma get_attribute_surfaces_attribute_error instance attr rest msg e :
  getattr instance attr = Raised (AttributeError msg) ->
  getitem instance attr = Raised e ->
  (exists m, e = KeyError m \/ e = TypeError m \/ e = AttributeError m) ->
  resolve instance (attr :: rest) = Raised (AttributeError msg).
Proof.
  intros Ha Hi [m [-> | [-> | ->]]]; unfold resolve; simpl;
    now rewrite Ha, Hi.
Qed.

(** When the key lookup succeeds its value is returned at once, whatever
    steps remain. *)
Lemma get_attribute_key_lookup_returns instance attr rest msg v :
  getattr instance attr = Raised (AttributeError msg) ->
  getitem instance attr = Found v ->
  resolve instance (attr :: rest) = Found v.
Proof. intros Ha Hi. unfold resolve. simpl. now rewrite Ha, Hi. Qed.
End ResolverFacts.

(** C3. The resolver does not continue after a successful key lookup: on
    the dictionary [{'a': {'b': 1}}] and the path [['a', 'b']] the
    attribute lookup of ['a'] fails structurally, the key lookup of ['a']
    succeeds, and [get_attribute] returns the inner dictionary
    [{'b': 1}]; walking the remaining step ['b'] would give [1]. *)
Theorem get_attribute_stops_after_key_lookup :
  Attr.resolve Attr.nested_dict ["a"; "b"]
    = Attr.Found (Attr.ODict [("b", Attr.OInt 1)]) /\
  Attr.get_attribute_walking Attr.ONone Attr.pyobj_getattr Attr.pyobj_getitem
    Attr.nested_dict ["a"; "b"] = Attr.Found (Attr.OInt 1).
Proof. split; reflexivity. Qed.

(** ** Construction and binding *)

Section ConstructionFacts.
Import Py Core.

Lemma lookup_update_in (m : gmap string string) entries key :
  (exists msg, In (key, msg) entries) -> is_Some (update m entries !! key).
Proof.
  unfold update. revert m.
  assert (Hkeep : forall l (m : gmap string string),
             is_Some (m !! key) ->
             is_Some (fold_left (fun m kv => <[fst kv := snd kv]> m) l m
                        !! key)).
  { induction l as [|[k v] l IH]; intros m Hm; simpl; [exact Hm|].
    apply IH. destruct (decide (k = key)) as [->|Hne].
    - rewrite lookup_insert_eq. eauto.
    - rewrite lookup_insert_ne by exact Hne. exact Hm. }
  induction entries as [|[k v] l IH]; intros m [msg Hin]; simpl in *.
  - contradiction.
  - destruct Hin as [Heq | Hin].
    + inversion Heq; subst. apply Hkeep. rewrite lookup_insert_eq. eauto.
    + apply IH. eauto.
Qed.

Lemma lookup_update_keep (m : gmap string string) entries key :
  is_Some (m !! key) -> is_Some (update m entries !! key).
Proof.
  unfold update. revert m.
  induction entries as [|[k v] l IH]; intros m Hm; simpl; [exact Hm|].
  apply IH. destruct (decide (k = key)) as [->|Hne].
  - rewrite lookup_insert_eq. eauto.
  - rewrite lookup_insert_ne by exact Hne. exact Hm.
Qed.

(** The merged table has every default key of the class and of
    [Field]. *)
Lemma collect_error_messages_complete cls given c key msg :
  In c (mro cls) -> In (key, msg) (default_error_messages c) ->
  is_Some (Field.collect_error_messages cls given !! key).
Proof.
  intros Hc Hk. unfold Field.collect_error_messages.
  apply lookup_update_keep.
  assert (Hc' : In c (rev (mro cls))) by (apply in_rev in Hc; exact Hc).
  revert Hc'. generalize (rev (mro cls)). generalize (∅ : gmap string string).
  intros m l. revert m.
  induction l as [|c' l IH]; intros m Hin; simpl in *; [contradiction|].
  destruct Hin as [-> | Hin].
  - assert (Hs : is_Some (update m (default_error_messages c) !! key))
      by (apply lookup_update_in; eauto).
    revert Hs. generalize (update m (default_error_messages c)).
    clear. induction l as [|c' l IH]; intros m Hs; simpl; [exact Hs|].
    apply IH. now apply lookup_update_keep.
  - now apply IH.
Qed.

Lemma init_messages_complete cls kw b :
  Field.__init__ cls kw = Returns b -> Field.messages_complete cls b.
Proof.
  unfold Field.__init__. intros H.
  repeat match type of H with
         | (if ?c then _ else _) = _ => destruct c; [discriminate|]
         end.
  inversion H; subst; clear H. intros c key msg Hc Hk. simpl.
  eapply collect_error_messages_complete; eauto.
Qed.

Lemma bind_messages_complete cls b name p b' :
  Field.bind cls b name p = Returns b' ->
  Field.messages_complete cls b -> Field.messages_complete cls b'.
Proof.
  unfold Field.bind. destruct (Field.option_string_eqb _ _); [discriminate|].
  intros H; inversion H; subst; clear H. intros Hm c key msg Hc Hk.
  simpl. eapply Hm; eauto.
Qed.
End ConstructionFacts.

Section InitFacts.
Import Py Core.


End InitFacts.

Section BindFacts.
Import Py Core.

(** C9, as the claim states it, fails: a [CharField()] bound as ['title']
    is bound a second time as ['name'] without error. *)
Lemma rebinding_under_another_name_succeeds :
  exists b0 b1 b2,
    Field.__init__ CharField_ Field.no_kwargs = Returns b0 /\
    Field.bind CharField_ b0 "title" Examples.serializer = Returns b1 /\
    Field.bind CharField_ b1 "name" Examples.serializer = Returns b2 /\
    field_name b2 = Some "name".
Proof. do 3 eexists. repeat split; reflexivity. Qed.

(** C9 (amended). [bind] has one check, that [source] differs from the
    field name. The first bind fixes [source] (to the field name when it
    was unset); a second bind raises an assertion error exactly when its
    field name equals that source, and otherwise succeeds, replacing
    [field_name] and [parent] and keeping [source], [label] and
    [source_attrs]. *)
Theorem bind_checks_only_the_source (cls : field_class) (b b1 : base)
    (n1 n2 : string) (p1 p2 : ancestor) :
  Field.bind cls b n1 p1 = Returns b1 ->
  source b1 = Some (from_option id n1 (source b)) /\
  (n2 = from_option id n1 (source b) ->
   exists msg, Field.bind cls b1 n2 p2 = Raises (AssertionError msg)) /\
  (n2 <> from_option id n1 (source b) ->
   exists b2, Field.bind cls b1 n2 p2 = Returns b2 /\
              field_name b2 = Some n2 /\ parent b2 = Some p2 /\
              source b2 = source b1 /\ label b2 = label b1 /\
              source_attrs b2 = source_attrs b1).
Proof.
  unfold Field.bind at 1.
  destruct (Field.option_string_eqb (source b) n1); [discriminate|].
  intros H; inversion H; subst; clear H. simpl.
  split; [reflexivity|]. split.
  - intros ->. unfold Field.bind. simpl. rewrite String.eqb_refl. eauto.
  - intros Hne. unfold Field.bind. simpl.
    destruct (String.eqb_spec (from_option id n1 (source b)) n2) as [E|_];
      [congruence|].
    eexists. repeat split. simpl. now destruct (label b).
Qed.

(** A [CharField()] bound as ['title']: binding it again as ['title']
    fails, binding it as ['name'] succeeds. *)
Lemma bind_checks_only_the_source_witness :
  Field.__init__ CharField_ Field.no_kwargs
  = Returns (Examples.fresh CharField_) /\
  (exists msg,
     Field.bind CharField_ (Examples.bound CharField_
                              (Examples.fresh CharField_) "title")
       "title" Examples.partial_serializer
     = Raises (AssertionError msg)) /\
  (exists b2,
     Field.bind CharField_ (Examples.bound CharField_
                              (Examples.fresh CharField_) "title")
       "name" Examples.partial_serializer
     = Returns b2 /\ field_name b2 = Some "name").
Proof.
  split; [reflexivity|].
  pose proof (fun n2 =>
    bind_checks_only_the_source CharField_ (Examples.fresh CharField_)
      (Examples.bound CharField_ (Examples.fresh CharField_) "title")
      "title" n2 Examples.serializer Examples.partial_serializer eq_refl)
    as H.
  split.
  - destruct (H "title") as (_ & Hsame & _). apply Hsame. reflexivity.
  - destruct (H "name") as (_ & _ & Hdiff).
    destruct Hdiff as (b2 & H2 & Hn & _); [discriminate|]. eauto.
Defined.
End BindFacts.

(** ** The validator pipeline *)

Section ValidatorFacts.
Import Py Core.

Lemma bind_emit {A : Type} (ev : event) (k : M A) :
  (let* _ := emit ev in k) = (ev :: fst k, snd k).
Proof. unfold bind, emit. destruct k as [t r]. reflexivity. Qed.

(** The loop calls every validator of the list and appends the messages
    of all of them to the list it started with. *)
Lemma run_validators_loop_all self vs v errors :
  Forall (Field.passes_or_invalidates self v) vs ->
  Field.run_validators_loop self vs v errors
  = (map (Field.validator_call self v) vs,
     Returns (errors ++ flat_map (Field.messages_of self v) vs)).
Proof.
  intros Hall. revert errors.
  induction Hall as [|validator vs Hv Hall IH]; intros errors;
    cbn [Field.run_validators_loop flat_map map].
  - now rewrite app_nil_r.
  - rewrite bind_emit.
    unfold Field.passes_or_invalidates in Hv.
    unfold Field.messages_of at 1. unfold Field.validator_call at 1.
    destruct (call validator (Field.serializer_field self validator) v)
      as [[]|[messages| | | | | | | ]]; try contradiction;
      rewrite IH; simpl; [reflexivity|].
    now rewrite <- app_assoc.
Qed.

(** C5. When every validator of the field passes or raises a validation
    error on the value, [run_validators] calls all of them in declared
    order, also after one has raised, and collects the messages of the
    failing ones in that order: it raises one [ValidationError] with all
    of them, and returns when there is none; in particular it returns
    when no validator raises. *)
Theorem run_validators_runs_all (self : base) (v : value) :
  Forall (Field.passes_or_invalidates self v) (validators self) ->
  fst (Field.run_validators self v)
  = map (Field.validator_call self v) (validators self) /\
  snd (Field.run_validators self v)
  = match flat_map (Field.messages_of self v) (validators self) with
    | [] => Returns tt
    | errors => Raises (ValidationError errors)
    end /\
  (Forall (fun validator =>
             call validator (Field.serializer_field self validator) v
             = Returns tt) (validators self) ->
   snd (Field.run_validators self v) = Returns tt) /\
  (Exists (fun validator => Field.messages_of self v validator <> [])
     (validators self) ->
   snd (Field.run_validators self v)
   = Raises (ValidationError
               (flat_map (Field.messages_of self v) (validators self)))).
Proof.
  intros Hall. unfold Field.run_validators.
  rewrite run_validators_loop_all by exact Hall. simpl.
  set (errors := flat_map (Field.messages_of self v) (validators self)).
  assert (Hsnd :
    snd (let '(t', r) := match errors with
                         | [] => ret tt
                         | _ :: _ => raise (ValidationError errors)
                         end in
         (map (Field.validator_call self v) (validators self) ++ t', r))
    = match errors with
      | [] => Returns tt
      | m :: l => Raises (ValidationError (m :: l))
      end) by (destruct errors; reflexivity).
  split; [|split; [exact Hsnd|split]].
  - destruct errors; simpl; now rewrite app_nil_r.
  - intros Hpass. refine (eq_trans Hsnd _).
    assert (E : errors = []); [|now rewrite E].
    subst errors. clear Hsnd Hall.
    induction Hpass as [|validator vs Hv _ IH]; simpl; [reflexivity|].
    unfold Field.messages_of at 1. now rewrite Hv, IH.
  - intros Hex. refine (eq_trans Hsnd _).
    assert (E : errors <> []); [|now destruct errors].
    subst errors. clear Hsnd Hall.
    induction Hex as [validator vs Hv|validator vs _ IH]; simpl.
    + destruct (Field.messages_of self v validator); [congruence|discriminate].
    + intros E. apply app_eq_nil in E. tauto.
Qed.

(** On 15 both example validators fail; both are called and both messages
    are raised, in order. *)
Lemma run_validators_runs_all_witness :
  Field.run_validators Examples.two_validators (VInt 15)
  = ([ValidatorCalled "MaxValueValidator(10)" None (VInt 15);
      ValidatorCalled "MinValueValidator(20)" (Some None) (VInt 15)],
     Raises (ValidationError
               [Msg "Ensure this value is less than or equal to 10." [];
                Msg "Ensure this value is greater than or equal to 20." []])).
Proof.
  assert (Hall : Forall (Field.passes_or_invalidates Examples.two_validators
                           (VInt 15))
                   (validators Examples.two_validators))
    by (repeat constructor).
  destruct (run_validators_runs_all Examples.two_validators (VInt 15) Hall)
    as (Hfst & Hsnd & _).
  rewrite (surjective_pairing
             (Field.run_validators Examples.two_validators (VInt 15))).
  rewrite Hfst, Hsnd. reflexivity.
Defined.
End ValidatorFacts.

(** ** Validation of a field *)

Section RunValidationFacts.
Import Py Core Fields.
Context (is_html_input : value -> bool) (parse_html_list : value -> value).

Let run_validation_in := Fields.run_validation_in is_html_input parse_html_list.
Let to_internal_value_in :=
  Fields.to_internal_value_in is_html_input parse_html_list.

(** Apart from the blank test of [CharField], every class runs
    [Field.run_validation] with its own [to_internal_value]. *)
Lemma run_validation_in_base up f data :
  is_blank data = false ->
  run_validation_in up f data
  = Field.run_validation (class_of f) up (base_of f)
      (to_internal_value_in up f) data.
Proof.
  intros Hb. destruct f; try reflexivity.
  unfold run_validation_in. simpl. unfold CharField.run_validation.
  now rewrite Hb.
Qed.

Lemma run_validation_in_not_char up f data :
  class_of f <> CharField_ ->
  run_validation_in up f data
  = Field.run_validation (class_of f) up (base_of f)
      (to_internal_value_in up f) data.
Proof. intros Hc. destruct f; try reflexivity. now elim Hc. Qed.

Lemma null_input_base up f data :
  Field.null_input (class_of f) data = true ->
  run_validation_in up f data
  = Field.run_validation (class_of f) up (base_of f)
      (to_internal_value_in up f) data.
Proof.
  intros Hn. destruct (is_blank data) eqn:Hb.
  - apply run_validation_in_not_char. intros Hc.
    unfold Field.null_input in Hn. rewrite Hc, Hb in Hn.
    destruct data; discriminate.
  - now apply run_validation_in_base.
Qed.

Lemma messages_complete_lookup cls b key msg :
  Field.messages_complete cls b ->
  In (key, msg) (default_error_messages Field_) ->
  is_Some (error_messages b !! key).
Proof.
  intros Hm Hin. apply (Hm Field_ key msg); [|exact Hin].
  destruct cls; simpl; auto.
Qed.

(** [Field.run_validation] on null input. *)
Lemma Field_run_validation_null cls up b tiv data :
  Field.null_input cls data = true ->
  Field.run_validation cls up b tiv data
  = (let* _ := emit (RunValidation cls data) in
     if negb (allow_null b) then Field.fail cls b "null" [] else ret VNone).
Proof.
  intros Hn. unfold Field.run_validation, Field.null_input in *.
  destruct data; try discriminate; try reflexivity.
  simpl in *. destruct s; [|discriminate]. simpl in *. now rewrite Hn.
Qed.

(** C2. [run_validation] of any field. Absent data: the field is skipped
    when the root is in partial-update mode; otherwise a required field
    fails with [required] and any other returns [get_default()]. Null
    data ([None], or the empty string for a class that coerces blank to
    null): the field fails with [null] unless [allow_null], and otherwise
    returns [None] with neither [to_internal_value] nor a validator
    called. *)
Theorem run_validation_dispatch (up : option ancestor) (f : field) :
  (Field.root_partial up = true ->
   run_validation_in up f VEmpty
   = ([RunValidation (class_of f) VEmpty], Raises SkipField)) /\
  (Field.root_partial up = false -> required (base_of f) = true ->
   Field.messages_complete (class_of f) (base_of f) ->
   fst (run_validation_in up f VEmpty) = [RunValidation (class_of f) VEmpty] /\
   Field.fails_with (base_of f) "required" [] (run_validation_in up f VEmpty)) /\
  (Field.root_partial up = false -> required (base_of f) = false ->
   run_validation_in up f VEmpty
   = (let* _ := emit (RunValidation (class_of f) VEmpty) in
      Field.get_default (base_of f))) /\
  (forall data,
     Field.null_input (class_of f) data = true ->
     allow_null (base_of f) = false ->
     Field.messages_complete (class_of f) (base_of f) ->
     fst (run_validation_in up f data) = [RunValidation (class_of f) data] /\
     Field.fails_with (base_of f) "null" [] (run_validation_in up f data)) /\
  (forall data,
     Field.null_input (class_of f) data = true ->
     allow_null (base_of f) = true ->
     run_validation_in up f data
     = ([RunValidation (class_of f) data], Returns VNone)).
Proof.
  split; [|split; [|split; [|split]]].
  - intros Hp. rewrite run_validation_in_base by reflexivity.
    unfold Field.run_validation. simpl. now rewrite Hp.
  - intros Hp Hr Hm. rewrite run_validation_in_base by reflexivity.
    unfold Field.run_validation. simpl. rewrite Hp, Hr.
    destruct (messages_complete_lookup _ _ "required" _ Hm
                ltac:(simpl; eauto)) as [msg Hmsg].
    unfold Field.fails_with, Field.fail. rewrite Hmsg. simpl. eauto.
  - intros Hp Hr. rewrite run_validation_in_base by reflexivity.
    unfold Field.run_validation. simpl. now rewrite Hp, Hr.
  - intros data Hn Ha Hm. rewrite null_input_base by exact Hn.
    rewrite Field_run_validation_null by exact Hn. rewrite Ha. simpl.
    destruct (messages_complete_lookup _ _ "null" _ Hm
                ltac:(simpl; eauto)) as [msg Hmsg].
    unfold Field.fails_with, Field.fail. rewrite Hmsg. simpl. eauto.
  - intros data Hn Ha. rewrite null_input_base by exact Hn.
    rewrite Field_run_validation_null by exact Hn. now rewrite Ha.
Qed.

(** C10. A [CharField] given the empty string: with [allow_blank] it
    returns the empty string and calls nothing (no [to_internal_value], no
    validator, no base [run_validation]); without [allow_blank] it fails
    with [blank], again calling nothing, whatever [allow_null] is. *)
Theorem CharField_blank (up : option ancestor) (b : base)
    (o : CharField.options) :
  (CharField.allow_blank o = true ->
   run_validation_in up (IsCharField b o) (VStr "") = ([], Returns (VStr ""))) /\
  (CharField.allow_blank o = false ->
   Field.messages_complete CharField_ b ->
   fst (run_validation_in up (IsCharField b o) (VStr "")) = [] /\
   Field.fails_with b "blank" [] (run_validation_in up (IsCharField b o) (VStr ""))).
Proof.
  unfold run_validation_in. simpl. unfold CharField.run_validation. simpl.
  split.
  - intros ->. reflexivity.
  - intros -> Hm. simpl.
    destruct (Hm CharField_ "blank" _ ltac:(simpl; auto) ltac:(simpl; eauto))
      as [msg Hmsg].
    unfold Field.fails_with, Field.fail. rewrite Hmsg. simpl. eauto.
Qed.
End RunValidationFacts.

(** Absent data on an [IntegerField()]: skipped under a partial
    serializer, [required] otherwise; the empty string is null for it and
    fails with [null]. *)
Lemma run_validation_dispatch_witness :
  Fields.run_validation_in Examples.never_html Examples.no_html_list
    (Some Examples.partial_serializer)
    (Fields.IsIntegerField (Examples.fresh Core.IntegerField_)) Py.VEmpty
  = ([Core.RunValidation Core.IntegerField_ Py.VEmpty],
     Core.Raises Core.SkipField) /\
  Field.fails_with (Examples.fresh Core.IntegerField_) "required" []
    (Fields.run_validation_in Examples.never_html Examples.no_html_list
       (Some Examples.serializer)
       (Fields.IsIntegerField (Examples.fresh Core.IntegerField_)) Py.VEmpty) /\
  Field.fails_with (Examples.fresh Core.IntegerField_) "null" []
    (Fields.run_validation_in Examples.never_html Examples.no_html_list
       (Some Examples.serializer)
       (Fields.IsIntegerField (Examples.fresh Core.IntegerField_))
       (Py.VStr "")).
Proof.
  assert (Hm : Field.messages_complete Core.IntegerField_
                 (Examples.fresh Core.IntegerField_))
    by (apply (init_messages_complete _ Field.no_kwargs); reflexivity).
  destruct (run_validation_dispatch Examples.never_html
              Examples.no_html_list (Some Examples.partial_serializer)
              (Fields.IsIntegerField (Examples.fresh Core.IntegerField_)))
    as (Hskip & _).
  destruct (run_validation_dispatch Examples.never_html
              Examples.no_html_list (Some Examples.serializer)
              (Fields.IsIntegerField (Examples.fresh Core.IntegerField_)))
    as (_ & Hrequired & _ & Hnull & _).
  split; [|split].
  - apply Hskip. reflexivity.
  - apply Hrequired; [reflexivity | reflexivity | exact Hm].
  - apply (Hnull (Py.VStr "")); [reflexivity | reflexivity | exact Hm].
Defined.

(** The empty string on [CharField(allow_null=True)] with a validator
    fails with [blank], and nothing is called. *)
Lemma CharField_blank_witness :
  fst (Fields.run_validation_in Examples.never_html Examples.no_html_list
         (Some Examples.serializer)
         (Fields.IsCharField Examples.nullable_char
            (CharField.Options false None (Some 3%Z))) (Py.VStr "")) = [] /\
  Field.fails_with Examples.nullable_char "blank" []
    (Fields.run_validation_in Examples.never_html Examples.no_html_list
       (Some Examples.serializer)
       (Fields.IsCharField Examples.nullable_char
          (CharField.Options false None (Some 3%Z))) (Py.VStr "")).
Proof.
  apply (CharField_blank Examples.never_html Examples.no_html_list
           (Some Examples.serializer) Examples.nullable_char
           (CharField.Options false None (Some 3%Z))).
  - reflexivity.
  - intros c key msg Hc Hk. simpl.
    eapply collect_error_messages_complete; eauto.
Defined.

(** ** List fields *)

Section ListFieldFacts.
Import Py Core Fields.
Context (is_html_input : value -> bool) (parse_html_list : value -> value).

Let run_validation_in := Fields.run_validation_in is_html_input parse_html_list.
Let to_internal_value_in :=
  Fields.to_internal_value_in is_html_input parse_html_list.

Lemma bind_ret {A B : Type} (m : M A) (f : A -> B) :
  (let* a := m in ret (f a))
  = (fst m, match snd m with
            | Returns a => Returns (f a)
            | Raises e => Raises e
            end).
Proof.
  destruct m as [t [a|e]]; unfold bind, ret; simpl; [|reflexivity].
  now rewrite app_nil_r.
Qed.

(** When every element validates, the comprehension visits all of them
    and returns their values. *)
Lemma run_children_all (rv : value -> M value) items :
  (forall y, In y items -> exists v, snd (rv y) = Returns v) ->
  ListField.run_children rv items
  = (flat_map (fun y => fst (rv y)) items,
     Returns (map (fun y => returned VNone (rv y)) items)).
Proof.
  induction items as [|y items IH]; intros Hall; [reflexivity|].
  cbn [ListField.run_children flat_map map].
  destruct (Hall y (or_introl eq_refl)) as [v Hv].
  rewrite IH by (intros z Hz; apply Hall; now right).
  unfold returned at 1. destruct (rv y) as [t r]. simpl in *. subst r.
  unfold bind, ret. simpl. now rewrite app_nil_r.
Qed.

(** The comprehension ends at the first element whose validation raises:
    the exception is the child's own and the elements after it are not
    visited. *)
Lemma run_children_stops (rv : value -> M value) pre x post e :
  (forall y, In y pre -> exists v, snd (rv y) = Returns v) ->
  snd (rv x) = Raises e ->
  ListField.run_children rv (pre ++ x :: post)
  = (flat_map (fun y => fst (rv y)) (pre ++ [x]), Raises e).
Proof.
  intros Hpre Hx. induction pre as [|y pre IH];
    cbn [ListField.run_children flat_map app].
  - destruct (rv x) as [t r]. simpl in *. subst r.
    unfold bind. simpl. now rewrite app_nil_r.
  - destruct (Hpre y (or_introl eq_refl)) as [v Hv].
    rewrite IH by (intros z Hz; apply Hpre; now right).
    destruct (rv y) as [t r]. simpl in *. subst r.
    unfold bind. reflexivity.
Qed.

(** C1, as the claim states it, fails: on [['1', 'abc', '3']] a list of
    [IntegerField] raises the child's error for ['abc'], a plain message
    without the position, and the element ['3'] is never validated. *)
Lemma ListField_does_not_validate_later_elements :
  snd (Fields.to_internal_value Examples.never_html Examples.no_html_list
         Examples.integer_list Examples.one_abc_three)
  = Raises (ValidationError [Msg "A valid integer is required." []]) /\
  ~ In (RunValidation IntegerField_ (VStr "3"))
      (fst (Fields.to_internal_value Examples.never_html
              Examples.no_html_list Examples.integer_list
              Examples.one_abc_three)).
Proof.
  split; [reflexivity|].
  vm_compute. intros [H|[H|[H|[H|[H|[]]]]]]; discriminate.
Qed.

(** C1 (amended). [ListField.to_internal_value] fails with [not_a_list]
    on input that is a string or not iterable; otherwise it runs the
    child's full [run_validation] on the elements in order. When all
    elements validate it returns the list of their values. At the first
    element whose validation raises, that exception leaves the method
    unchanged, without the element's position, and the elements after it
    are not validated. For a list of [IntegerField] and
    [['1', 'abc', '3']], element 0 validates to 1 and element 1 fails
    with [invalid]. *)
Theorem ListField_stops_at_first_failure (up : option ancestor) (b : base)
    (child : field) (data : value) :
  let data' := if is_html_input data then parse_html_list data else data in
  let child_run_validation :=
    run_validation_in (Some (Ancestor "ListField" None up)) child in
  (iterate data' = None -> Field.messages_complete ListField_ b ->
   fst (to_internal_value_in up (IsListField b child) data) = [] /\
   Field.fails_with b "not_a_list" [("input_type", VStr (type_name data'))]
     (to_internal_value_in up (IsListField b child) data)) /\
  (forall items,
     iterate data' = Some items ->
     (forall y, In y items ->
                exists v, snd (child_run_validation y) = Returns v) ->
     to_internal_value_in up (IsListField b child) data
     = (flat_map (fun y => fst (child_run_validation y)) items,
        Returns (VList (map (fun y => returned VNone (child_run_validation y))
                          items)))) /\
  (forall pre x post e,
     iterate data' = Some (pre ++ x :: post) ->
     (forall y, In y pre ->
                exists v, snd (child_run_validation y) = Returns v) ->
     snd (child_run_validation x) = Raises e ->
     to_internal_value_in up (IsListField b child) data
     = (flat_map (fun y => fst (child_run_validation y)) (pre ++ [x]),
        Raises e)) /\
  (is_html_input Examples.one_abc_three = false ->
   Fields.to_internal_value is_html_input parse_html_list
     Examples.integer_list Examples.one_abc_three
   = ([RunValidation IntegerField_ (VStr "1");
       ToInternalValue IntegerField_ (VStr "1");
       ValidateCalled IntegerField_ (VInt 1);
       RunValidation IntegerField_ (VStr "abc");
       ToInternalValue IntegerField_ (VStr "abc")],
      Raises (ValidationError [Msg "A valid integer is required." []]))).
Proof.
  intros data' rv.
  unfold to_internal_value_in, Fields.to_internal_value_in,
    ListField.to_internal_value.
  fold data'. fold run_validation_in. fold rv.
  split; [|split; [|split]].
  - intros Hit Hm. rewrite Hit.
    destruct (Hm ListField_ "not_a_list" _ ltac:(simpl; auto)
                ltac:(simpl; eauto)) as [msg Hmsg].
    unfold Field.fails_with, Field.fail. rewrite Hmsg. simpl. eauto.
  - intros items Hit Hall. rewrite Hit.
    rewrite (bind_ret (ListField.run_children rv items) VList).
    now rewrite run_children_all by exact Hall.
  - intros pre x post e Hit Hpre Hx. rewrite Hit.
    rewrite (bind_ret (ListField.run_children rv (pre ++ x :: post)) VList).
    now rewrite (run_children_stops rv pre x post e Hpre Hx).
  - intros Hhtml. unfold Fields.to_internal_value,
      Fields.to_internal_value_in, ListField.to_internal_value.
    simpl base_of. cbv beta iota delta [Examples.integer_list].
    rewrite Hhtml. reflexivity.
Qed.
End ListFieldFacts.

(** The list field of the example, with input that is never an HTML
    form. *)
Lemma ListField_stops_at_first_failure_witness :
  Fields.to_internal_value Examples.never_html Examples.no_html_list
    Examples.integer_list Examples.one_abc_three
  = ([Core.RunValidation Core.IntegerField_ (Py.VStr "1");
      Core.ToInternalValue Core.IntegerField_ (Py.VStr "1");
      Core.ValidateCalled Core.IntegerField_ (Py.VInt 1);
      Core.RunValidation Core.IntegerField_ (Py.VStr "abc");
      Core.ToInternalValue Core.IntegerField_ (Py.VStr "abc")],
     Core.Raises
       (Core.ValidationError
          [Core.Msg "A valid integer is required." []])).
Proof.
  apply (ListField_stops_at_first_failure Examples.never_html
           Examples.no_html_list None (Examples.fresh Core.ListField_)
           (Fields.IsIntegerField Examples.integer_child) Py.VNone).
  reflexivity.
Defined.

(** ** The objects of the examples are what the constructors build *)

Section ExamplesFacts.
Import Py Core Fields.

Lemma fresh_is_constructed cls :
  Field.__init__ cls Field.no_kwargs = Returns (Examples.fresh cls).
Proof. destruct cls; reflexivity. Qed.

Lemma fresh_messages_complete cls :
  Field.messages_complete cls (Examples.fresh cls).
Proof. exact (init_messages_complete _ _ _ (fresh_is_constructed cls)). Qed.

Lemma integer_list_is_constructed :
  ListField__init__ (Some (IsIntegerField (Examples.fresh IntegerField_)))
    Field.no_kwargs
  = Returns Examples.integer_list.
Proof. reflexivity. Qed.

Lemma one_two_is_constructed :
  ChoiceField.__init__ Examples.one_two Field.no_kwargs
  = Returns (Examples.fresh ChoiceField_, Examples.one_two_options).
Proof. reflexivity. Qed.
End ExamplesFacts.

(** ** Choice fields *)

Section ChoiceFieldFacts.
Import Py Core.

(** Every entry of the reverse map sends the text of a key to that
    key. *)
Lemma strings_to_values_lookup keys s v :
  ChoiceField.strings_to_values keys !! s = Some v ->
  text_type v = s /\ In v keys.
Proof.
  unfold ChoiceField.strings_to_values.
  assert (H : forall (m : gmap string value),
             (forall s v, m !! s = Some v -> text_type v = s /\ In v keys) ->
             forall l, incl l keys ->
             forall s v,
               fold_left (fun m key => <[text_type key := key]> m) l m !! s
               = Some v ->
               text_type v = s /\ In v keys).
  { intros m Hm l. revert m Hm.
    induction l as [|k l IH]; intros m Hm Hl s' v' Hlook; simpl in *.
    - now apply Hm.
    - eapply IH; [| |exact Hlook].
      + intros s'' v'' Hins.
        destruct (decide (text_type k = s'')) as [<-|Hne].
        * rewrite lookup_insert_eq in Hins. inversion Hins; subst.
          split; [reflexivity|]. apply Hl. now left.
        * rewrite lookup_insert_ne in Hins by exact Hne. now apply Hm.
      + intros z Hz. apply Hl. now right. }
  apply (H ∅); [|apply incl_refl].
  intros s' v' Hlook. rewrite lookup_empty in Hlook. discriminate.
Qed.

Lemma ChoiceField_init_inv items kw b o :
  ChoiceField.__init__ items kw = Returns (b, o) ->
  Field.messages_complete ChoiceField_ b /\
  ChoiceField.choice_strings_to_values o
  = ChoiceField.strings_to_values (map fst (ChoiceField.choices o)).
Proof.
  unfold ChoiceField.__init__, ChoiceField.init_choices.
  destruct (ChoiceField.SortedDict _) as [d|e]; [|discriminate].
  destruct (Field.__init__ ChoiceField_ kw) as [b'|e] eqn:Hinit;
    [|discriminate].
  intros H; inversion H; subst; clear H. split; [|reflexivity].
  eapply init_messages_complete; eauto.
Qed.

(** C4, as the claim states it, fails for [to_representation]: for the
    choices [[(1, 'One'), (2, 'Two')]] and the value ['9'] it raises
    [KeyError], not the [invalid_choice] validation error. *)
Lemma ChoiceField_to_representation_raises_KeyError :
  ChoiceField.__init__ Examples.one_two Field.no_kwargs
  = Returns (Examples.fresh ChoiceField_, Examples.one_two_options) /\
  ChoiceField.to_representation Examples.one_two_options (VStr "9")
  = ([], Raises (KeyError "9")) /\
  ~ Field.fails_with (Examples.fresh ChoiceField_) "invalid_choice"
      [("input", VStr "9")]
      (ChoiceField.to_representation Examples.one_two_options (VStr "9")).
Proof.
  split; [reflexivity|]. split; [reflexivity|].
  intros (msg & _ & H). vm_compute in H. discriminate.
Qed.

(** C4 (amended). In a [ChoiceField] built from choices, the reverse map
    sends the text of each choice value to that value. Both
    [to_internal_value] and [to_representation] look the text of their
    input up in it and return the value found. On a miss
    [to_internal_value] fails with [invalid_choice], and
    [to_representation] raises [KeyError]. For the choices
    [[(1, 'One'), (2, 'Two')]], [to_internal_value('1')] is 1 and
    [to_internal_value('9')] fails with [invalid_choice]. *)
Theorem ChoiceField_lookup (items : list value) (kw : Field.init_args)
    (b : base) (o : ChoiceField.options) (data : value) :
  ChoiceField.__init__ items kw = Returns (b, o) ->
  (forall s v,
     ChoiceField.choice_strings_to_values o !! s = Some v ->
     text_type v = s /\ In v (map fst (ChoiceField.choices o))) /\
  (forall v,
     ChoiceField.choice_strings_to_values o !! text_type data = Some v ->
     ChoiceField.to_internal_value o b data = ([], Returns v) /\
     ChoiceField.to_representation o data = ([], Returns v)) /\
  (ChoiceField.choice_strings_to_values o !! text_type data = None ->
   fst (ChoiceField.to_internal_value o b data) = [] /\
   Field.fails_with b "invalid_choice" [("input", data)]
     (ChoiceField.to_internal_value o b data) /\
   ChoiceField.to_representation o data
   = ([], Raises (KeyError (text_type data)))) /\
  (items = Examples.one_two ->
   ChoiceField.to_internal_value o b (VStr "1") = ([], Returns (VInt 1)) /\
   Field.fails_with b "invalid_choice" [("input", VStr "9")]
     (ChoiceField.to_internal_value o b (VStr "9"))).
Proof.
  intros Hinit. destruct (ChoiceField_init_inv _ _ _ _ Hinit) as [Hm Hmap].
  assert (Hfail : forall d,
            ChoiceField.choice_strings_to_values o !! text_type d = None ->
            fst (ChoiceField.to_internal_value o b d) = [] /\
            Field.fails_with b "invalid_choice" [("input", d)]
              (ChoiceField.to_internal_value o b d)).
  { intros d Hmiss. unfold ChoiceField.to_internal_value. rewrite Hmiss.
    destruct (Hm ChoiceField_ "invalid_choice" _ ltac:(simpl; auto)
                ltac:(simpl; eauto)) as [msg Hmsg].
    unfold Field.fails_with, Field.fail. rewrite Hmsg. simpl. eauto. }
  split; [|split; [|split]].
  - intros s v Hlook. rewrite Hmap in Hlook.
    now apply strings_to_values_lookup.
  - intros v Hhit.
    unfold ChoiceField.to_internal_value, ChoiceField.to_representation.
    now rewrite Hhit.
  - intros Hmiss. destruct (Hfail data Hmiss) as [Ht Hf].
    repeat split; try assumption.
    unfold ChoiceField.to_representation. now rewrite Hmiss.
  - intros ->.
    assert (Ho : ChoiceField.choice_strings_to_values o
                 = ChoiceField.choice_strings_to_values
                     Examples.one_two_options).
    { unfold ChoiceField.__init__ in Hinit. simpl in Hinit.
      destruct (Field.__init__ ChoiceField_ kw); [|discriminate].
      now inversion Hinit. }
    split.
    + unfold ChoiceField.to_internal_value. rewrite Ho. reflexivity.
    + apply Hfail. rewrite Ho. reflexivity.
Qed.

(** The choice field of the example. *)
Lemma ChoiceField_lookup_witness :
  ChoiceField.to_internal_value Examples.one_two_options
    (Examples.fresh ChoiceField_) (VStr "1") = ([], Returns (VInt 1)) /\
  Field.fails_with (Examples.fresh ChoiceField_) "invalid_choice"
    [("input", VStr "9")]
    (ChoiceField.to_internal_value Examples.one_two_options
       (Examples.fresh ChoiceField_) (VStr "9")).
Proof.
  apply (ChoiceField_lookup Examples.one_two Field.no_kwargs
           (Examples.fresh ChoiceField_) Examples.one_two_options VNone
           eq_refl).
  reflexivity.
Defined.
End ChoiceFieldFacts.

(** ** Decimal fields *)

Section DecimalFieldFacts.
Import Py Core.

Lemma DecimalField_fail_registered {A : Type} b key args :
  Field.messages_complete DecimalField_ b ->
  (exists msg, In (key, msg) (default_error_messages DecimalField_)) ->
  fst (Field.fail (A:=A) DecimalField_ b key args) = [] /\
  Field.fails_with b key args (Field.fail (A:=A) DecimalField_ b key args).
Proof.
  intros Hm [msg0 Hin].
  destruct (Hm DecimalField_ key msg0 ltac:(simpl; auto) Hin) as [msg Hmsg].
  unfold Field.fails_with, Field.fail. rewrite Hmsg. simpl. eauto.
Qed.

(** A signaling NaN is not rejected as [invalid]: comparing it with
    itself raises [decimal.InvalidOperation], outside the [try] block. *)
Lemma DecimalField_signaling_nan_raises o b :
  DecimalField.to_internal_value o b (VStr "sNaN")
  = ([], Raises InvalidOperation).
Proof. reflexivity. Qed.

(** C6. A signaling NaN is a NaN that a [DecimalField] does not reject:
    the text ['sNaN'] parses as a decimal inside the [try] block, the
    comparison [value != value] that is meant to identify NaN values
    raises [decimal.InvalidOperation] on it, and that exception, not the
    validation error [invalid], leaves [to_internal_value], whatever the
    limits and the messages of the field. The quiet ['NaN'] is rejected
    with [invalid] by a field that has its class's messages. *)
Theorem DecimalField_signaling_nan_is_not_rejected
    (o : DecimalField.options) (b : base) :
  Decimal_of_string (strip (smart_text (VStr "sNaN")))
  = Some (NaN false true []) /\
  DecimalField.ne_self (NaN false true []) = Raises InvalidOperation /\
  DecimalField.to_internal_value o b (VStr "sNaN")
  = ([], Raises InvalidOperation) /\
  ~ Field.fails_with b "invalid" []
      (DecimalField.to_internal_value o b (VStr "sNaN")) /\
  (Field.messages_complete DecimalField_ b ->
   Field.fails_with b "invalid" []
     (DecimalField.to_internal_value o b (VStr "NaN"))).
Proof.
  split; [reflexivity|]. split; [reflexivity|]. split; [reflexivity|]. split.
  - intros (msg & _ & Hraise). discriminate Hraise.
  - intros Hm.
    apply (DecimalField_fail_registered (A:=value) b "invalid" [] Hm).
    simpl. eauto.
Qed.

(** What holds of the claim on every other input:
    [DecimalField.to_internal_value] on input whose stripped text
    parses as the decimal [d]. A NaN whose comparison with itself
    answers, and an infinity, fail with [invalid].
    For a finite [d] with digit tuple [ds] and exponent [e], the decimal
    places are [|e|] and the digits are the larger of the length of [ds]
    and [|e|]; the field fails with [max_digits] when the digits exceed
    [max_digits], else with [max_decimal_places] when the decimal places
    exceed [decimal_places], else with [max_whole_digits] when the digits
    before the point exceed [max_digits - decimal_places], and else
    returns [d]. So ['3.14159'] with [max_digits=6, decimal_places=2]
    fails with [max_decimal_places], and ['0.01'] is accepted with
    [max_digits=2, decimal_places=2]. *)
Theorem DecimalField_limits (o : DecimalField.options) (b : base)
    (data : value) (d : Decimal) :
  Field.messages_complete DecimalField_ b ->
  Decimal_of_string (strip (smart_text data)) = Some d ->
  (DecimalField.ne_self d = Returns true \/ (exists s, d = Infinity s) ->
   fst (DecimalField.to_internal_value o b data) = [] /\
   Field.fails_with b "invalid" [] (DecimalField.to_internal_value o b data)) /\
  (forall s ds e,
     d = Finite s ds e ->
     let decimals := Z.abs e in
     let digits := Z.max (Z.of_nat (length ds)) decimals in
     let whole_digits := (digits - decimals)%Z in
     fst (DecimalField.to_internal_value o b data) = [] /\
     (forall md,
        DecimalField.max_digits o = Some md -> (md < digits)%Z ->
        Field.fails_with b "max_digits" [("max_digits", VInt md)]
          (DecimalField.to_internal_value o b data)) /\
     (forall dp,
        DecimalField.exceeds (DecimalField.max_digits o) digits = false ->
        DecimalField.decimal_places o = Some dp -> (dp < decimals)%Z ->
        Field.fails_with b "max_decimal_places"
          [("max_decimal_places", VInt dp)]
          (DecimalField.to_internal_value o b data)) /\
     (forall md dp,
        DecimalField.max_digits o = Some md ->
        DecimalField.decimal_places o = Some dp ->
        (digits <= md)%Z -> (decimals <= dp)%Z ->
        (md - dp < whole_digits)%Z ->
        Field.fails_with b "max_whole_digits"
          [("max_whole_digits", VInt (md - dp))]
          (DecimalField.to_internal_value o b data)) /\
     (DecimalField.exceeds (DecimalField.max_digits o) digits = false ->
      DecimalField.exceeds (DecimalField.decimal_places o) decimals = false ->
      (forall md dp,
         DecimalField.max_digits o = Some md ->
         DecimalField.decimal_places o = Some dp ->
         (whole_digits <= md - dp)%Z) ->
      snd (DecimalField.to_internal_value o b data) = Returns (VDecimal d))) /\
  Field.fails_with b "max_decimal_places" [("max_decimal_places", VInt 2)]
    (DecimalField.to_internal_value Examples.six_two b (VStr "3.14159")) /\
  DecimalField.to_internal_value Examples.two_two b (VStr "0.01")
  = ([], Returns (VDecimal (Finite false [1%nat] (-2)))).
Proof.
  intros Hm Hparse.
  assert (Hfail : forall key args,
            (exists msg, In (key, msg) (default_error_messages DecimalField_)) ->
            fst (Field.fail (A:=value) DecimalField_ b key args) = [] /\
            Field.fails_with b key args
              (Field.fail (A:=value) DecimalField_ b key args))
    by (intros; now apply DecimalField_fail_registered).
  split; [|split; [|split]].
  - intros [Hne | (s & ->)];
      unfold DecimalField.to_internal_value; rewrite Hparse;
      [rewrite Hne|]; simpl; apply Hfail; simpl; eauto.
  - intros s ds e -> decimals digits whole_digits.
    unfold DecimalField.to_internal_value. rewrite Hparse. simpl.
    unfold DecimalField.check_digits. fold decimals.
    assert (Hdigits :
      (if (Z.of_nat (length ds) <? decimals)%Z
       then decimals else Z.of_nat (length ds)) = digits).
    { unfold digits. destruct (Z.ltb_spec (Z.of_nat (length ds)) decimals); lia. }
    rewrite Hdigits. clear Hdigits. fold whole_digits.
    assert (Hquiet : forall key args,
              fst (Field.fail (A:=value) DecimalField_ b key args) = [])
      by (intros; unfold Field.fail; now destruct (_ !! _)).
    split; [|split; [|split; [|split]]].
    + destruct (DecimalField.exceeds _ digits); [apply Hquiet|].
      destruct (DecimalField.exceeds _ decimals); [apply Hquiet|].
      destruct (DecimalField.max_digits o) as [md|],
        (DecimalField.decimal_places o) as [dp|]; try reflexivity.
      destruct (md - dp <? whole_digits)%Z; [apply Hquiet|reflexivity].
    + intros md Hmd Hlt. unfold DecimalField.exceeds. rewrite Hmd.
      destruct (Z.ltb_spec md digits); [|lia]. simpl.
      apply Hfail. simpl. eauto 10.
    + intros dp Hno Hdp Hlt. rewrite Hno.
      unfold DecimalField.exceeds at 1. rewrite Hdp.
      destruct (Z.ltb_spec dp decimals); [|lia]. simpl.
      apply Hfail. simpl. eauto 10.
    + intros md dp Hmd Hdp Hle1 Hle2 Hlt.
      unfold DecimalField.exceeds. rewrite Hmd, Hdp.
      destruct (Z.ltb_spec md digits); [lia|].
      destruct (Z.ltb_spec dp decimals); [lia|].
      destruct (Z.ltb_spec (md - dp) whole_digits); [|lia].
      apply Hfail. simpl. eauto 10.
    + intros Hno1 Hno2 Hwhole. rewrite Hno1, Hno2.
      destruct (DecimalField.max_digits o) as [md|],
        (DecimalField.decimal_places o) as [dp|]; try reflexivity.
      specialize (Hwhole md dp eq_refl eq_refl).
      destruct (Z.ltb_spec (md - dp) whole_digits); [lia|reflexivity].
  - apply (Hfail "max_decimal_places"). simpl. eauto 10.
  - reflexivity.
Qed.

(** ['3.14159'] on [DecimalField(max_digits=6, decimal_places=2)]. *)
Lemma DecimalField_limits_witness :
  Field.fails_with (Examples.fresh DecimalField_) "max_decimal_places"
    [("max_decimal_places", VInt 2)]
    (DecimalField.to_internal_value Examples.six_two
       (Examples.fresh DecimalField_) (VStr "3.14159")).
Proof.
  apply (DecimalField_limits Examples.six_two (Examples.fresh DecimalField_)
           (VStr "3.14159") (Finite false [3; 1; 4; 1; 5; 9]%nat (-5))
           (fresh_messages_complete DecimalField_) eq_refl).
Defined.
End DecimalFieldFacts.

(** ** Date and time fields *)

Section TemporalFacts.
Import Py Core Temporal.
Context {date time datetime tzinfo : Type}.
Context (parse_datetime : input date time datetime -> attempt (option datetime)).
Context (parse_date : input date time datetime -> attempt (option date)).
Context (parse_time : input date time datetime -> attempt (option time)).
Context (strptime : input date time datetime -> string -> attempt datetime).
Context (date_of : datetime -> date) (time_of : datetime -> time).
Context (is_aware : datetime -> bool).
Context (make_aware : datetime -> tzinfo -> datetime).
Context (make_naive_utc : datetime -> datetime).
Context (ISO_8601 : string).
Context (datetime_formats date_formats time_formats : list string -> string).

Let try {A : Type} := @try_format date time datetime strptime ISO_8601 A.
Let first {A : Type} := @first_format date time datetime strptime ISO_8601 A.

(** The loop returns from the first format whose turn is done, having
    tried the formats before it, and no format after it. *)
Lemma first_format_first_success {A : Type} iso (post : datetime -> A)
    before format after v parsed :
  Forall (fun f => try iso post v f = NextFormat) before ->
  try iso post v format = Done parsed ->
  first iso post (before ++ format :: after) v
  = (map FormatTried (before ++ [format]), Returns (Some parsed)).
Proof.
  intros Hbefore Hdone. unfold first, try in *.
  induction Hbefore as [|f before Hf _ IH]; cbn [first_format app map].
  - rewrite Hdone. reflexivity.
  - rewrite Hf, IH. reflexivity.
Qed.

(** When every turn falls through, the loop has tried every format and
    ends without a result. *)
Lemma first_format_exhausted {A : Type} iso (post : datetime -> A) formats v :
  Forall (fun f => try iso post v f = NextFormat) formats ->
  first iso post formats v = (map FormatTried formats, Returns None).
Proof.
  intros Hall. unfold first, try in *.
  induction Hall as [|f formats Hf _ IH]; cbn [first_format map].
  - reflexivity.
  - rewrite Hf, IH. reflexivity.
Qed.

(** One turn: the ISO parser for the ISO marker, [strptime] otherwise. *)
Lemma try_format_iso {A : Type} iso (post : datetime -> A) v format :
  lower format = ISO_8601 ->
  try iso post v format
  = match iso v with
    | Parsed (Some parsed) => Done parsed
    | Parsed None | ValueErrorRaised | TypeErrorRaised => NextFormat
    | OtherRaised e => Propagated e
    end.
Proof.
  intros H. unfold try, try_format. now rewrite H, String.eqb_refl.
Qed.

Lemma try_format_pattern {A : Type} iso (post : datetime -> A) v format :
  lower format <> ISO_8601 ->
  try iso post v format
  = match strptime v format with
    | Parsed parsed => Done (post parsed)
    | ValueErrorRaised | TypeErrorRaised => NextFormat
    | OtherRaised e => Propagated e
    end.
Proof.
  intros H. unfold try, try_format.
  destruct (String.eqb_spec (lower format) ISO_8601); [contradiction|].
  reflexivity.
Qed.

Lemma tries_in_order_intro {A B : Type} iso (post : datetime -> A)
    (finish : A -> B) cls self formats humanized v
    (fail_invalid := Field.fail cls self "invalid"
                       [("format", VStr humanized)]) :
  is_Some (error_messages self !! "invalid") ->
  tries_in_order formats (try iso post v) finish self humanized
    (let* found := first iso post formats v in
     match found with
     | Some parsed => ret (finish parsed)
     | None => fail_invalid
     end).
Proof.
  intros [msg Hmsg]. split.
  - intros before format after parsed -> Hbefore Hdone.
    rewrite (first_format_first_success iso post before format after v parsed
               Hbefore Hdone).
    unfold bind, ret. now rewrite app_nil_r.
  - intros Hall. rewrite (first_format_exhausted iso post formats v Hall).
    unfold fail_invalid, Field.fails_with, Field.fail, bind. rewrite Hmsg.
    simpl. rewrite app_nil_r. eauto.
Qed.

(** C7. Each temporal field, on input that is not already a date or time
    object it accepts or refuses, tries its input formats in declared
    order, with the ISO parser for the ISO marker and [strptime] for any
    other format. It returns from the first format that parses (a
    [DateTimeField] after adjusting the time zone) and tries no format
    after it; when no format parses it fails with [invalid], the message
    carrying the rendering of all the input formats. *)
Theorem temporal_fields_try_formats_in_order :
  (forall (self : DateTimeField tzinfo) v,
     is_date v = false ->
     Field.messages_complete DateTimeField_ (dt_base self) ->
     tries_in_order (dt_input_formats self)
       (try parse_datetime (fun parsed => parsed) v)
       (enforce_timezone datetime tzinfo is_aware make_aware make_naive_utc
          self)
       (dt_base self) (datetime_formats (dt_input_formats self))
       (DateTimeField_to_internal_value date time datetime tzinfo
          parse_datetime strptime is_aware make_aware make_naive_utc
          ISO_8601 datetime_formats self v)) /\
  (forall (self : DateField) v,
     is_date v = false ->
     Field.messages_complete DateField_ (d_base self) ->
     tries_in_order (d_input_formats self)
       (try parse_date date_of v) (fun parsed => parsed)
       (d_base self) (date_formats (d_input_formats self))
       (DateField_to_internal_value date time datetime parse_date strptime
          date_of ISO_8601 date_formats self v)) /\
  (forall (self : TimeField) v,
     is_time v = false ->
     Field.messages_complete TimeField_ (t_base self) ->
     tries_in_order (t_input_formats self)
       (try parse_time time_of v) (fun parsed => parsed)
       (t_base self) (time_formats (t_input_formats self))
       (TimeField_to_internal_value date time datetime parse_time strptime
          time_of ISO_8601 time_formats self v)) /\
  (forall (A : Type) (iso : input date time datetime -> attempt (option A))
          (post : datetime -> A) v format,
     (lower format = ISO_8601 ->
      try iso post v format
      = match iso v with
        | Parsed (Some parsed) => Done parsed
        | Parsed None | ValueErrorRaised | TypeErrorRaised => NextFormat
        | OtherRaised e => Propagated e
        end) /\
     (lower format <> ISO_8601 ->
      try iso post v format
      = match strptime v format with
        | Parsed parsed => Done (post parsed)
        | ValueErrorRaised | TypeErrorRaised => NextFormat
        | OtherRaised e => Propagated e
        end)).
Proof.
  split; [|split; [|split]].
  - intros self v Hv Hm.
    assert (Hmsg : is_Some (error_messages (dt_base self) !! "invalid"))
      by (eapply (Hm DateTimeField_ "invalid"); simpl; eauto).
    destruct v; try discriminate;
      apply (tries_in_order_intro parse_datetime (fun parsed => parsed)
               (enforce_timezone datetime tzinfo is_aware make_aware
                  make_naive_utc self) DateTimeField_); exact Hmsg.
  - intros self v Hv Hm.
    assert (Hmsg : is_Some (error_messages (d_base self) !! "invalid"))
      by (eapply (Hm DateField_ "invalid"); simpl; eauto).
    destruct v; try discriminate;
      apply (tries_in_order_intro parse_date date_of (fun parsed => parsed)
               DateField_); exact Hmsg.
  - intros self v Hv Hm.
    assert (Hmsg : is_Some (error_messages (t_base self) !! "invalid"))
      by (eapply (Hm TimeField_ "invalid"); simpl; eauto).
    destruct v; try discriminate;
      apply (tries_in_order_intro parse_time time_of (fun parsed => parsed)
               TimeField_); exact Hmsg.
  - intros A iso post v format. split.
    + apply try_format_iso.
    + apply try_format_pattern.
Qed.
End TemporalFacts.

(** The date-time field of the example: an ISO text is parsed by the
    first format, a text in the pattern by the second after the first
    was tried, and ['not-a-date'] fails with [invalid] after both. *)
Lemma temporal_fields_try_formats_in_order_witness :
  Examples.DateTimeField_to_internal_value Examples.iso_then_pattern
    (Temporal.Other (Py.VStr "2021-05-01T10:00:00Z"))
  = ([Core.FormatTried "iso-8601"], Core.Returns "2021-05-01T10:00:00") /\
  Examples.DateTimeField_to_internal_value Examples.iso_then_pattern
    (Temporal.Other (Py.VStr "2021-05-01 10:00"))
  = ([Core.FormatTried "iso-8601"; Core.FormatTried "%Y-%m-%d %H:%M"],
     Core.Returns "2021-05-01T10:00:00") /\
  fst (Examples.DateTimeField_to_internal_value Examples.iso_then_pattern
         (Temporal.Other (Py.VStr "not-a-date")))
  = [Core.FormatTried "iso-8601"; Core.FormatTried "%Y-%m-%d %H:%M"] /\
  Field.fails_with (Examples.fresh Core.DateTimeField_) "invalid"
    [("format", Py.VStr "iso-8601, %Y-%m-%d %H:%M")]
    (Examples.DateTimeField_to_internal_value Examples.iso_then_pattern
       (Temporal.Other (Py.VStr "not-a-date"))).
Proof.
  destruct (temporal_fields_try_formats_in_order
              Examples.parse_datetime
              (fun _ => Temporal.Parsed None) (fun _ => Temporal.Parsed None)
              Examples.strptime (fun m => m) (fun m => m)
              Examples.is_aware Examples.make_aware Examples.make_naive_utc
              "iso-8601" Examples.humanize Examples.humanize
              Examples.humanize) as (Hdt & _).
  pose proof (fun v => Hdt Examples.iso_then_pattern (Temporal.Other v)
                         eq_refl
                         (fresh_messages_complete Core.DateTimeField_))
    as H.
  split; [|split].
  - destruct (H (Py.VStr "2021-05-01T10:00:00Z")) as [Hfirst _].
    apply (Hfirst [] "iso-8601" ["%Y-%m-%d %H:%M"]
             "2021-05-01T10:00:00+00:00" eq_refl);
      [constructor | reflexivity].
  - destruct (H (Py.VStr "2021-05-01 10:00")) as [Hfirst _].
    apply (Hfirst ["iso-8601"] "%Y-%m-%d %H:%M" [] "2021-05-01T10:00:00"
             eq_refl); [repeat constructor | reflexivity].
  - destruct (H (Py.VStr "not-a-date")) as [_ Hnone].
    apply Hnone. repeat constructor.
Defined.

(** * Further properties *)

(** ** Resolving along a path *)

Section WalkFacts.
Import Attr Representation.
Context {object : Type} (py_None : object).
Context (getattr getitem : object -> string -> lookup object).
Context (is_None : object -> bool).

(** X1. Resolution composes along a path whose first part consists of
    attribute lookups that succeed: resolving the whole path is resolving
    the rest from the object the first part reaches. *)
Theorem get_attribute_after_attributes instance pre rest v :
  attr_walk getattr instance pre = Some v ->
  get_attribute py_None getattr getitem instance (pre ++ rest)
  = get_attribute py_None getattr getitem v rest.
Proof.
  revert instance. induction pre as [|attr pre IH]; intros instance Hwalk.
  - inversion Hwalk. reflexivity.
  - simpl in *. destruct (getattr instance attr) as [w|e]; [|discriminate].
    now apply IH.
Qed.

(** X2. A relation that is broken anywhere along a path of attributes
    makes the field's representation [None], whatever steps remain and
    whatever the field's [to_representation] is. *)
Theorem broken_relation_is_represented_as_None
    (to_representation : object -> lookup object) instance pre attr rest v msg :
  is_None py_None = true ->
  attr_walk getattr instance pre = Some v ->
  getattr v attr = Raised (ObjectDoesNotExist msg) ->
  get_field_representation py_None getattr getitem is_None to_representation
    (pre ++ attr :: rest) instance
  = Found py_None.
Proof.
  intros Hnone Hwalk Hbroken. unfold get_field_representation.
  rewrite (get_attribute_after_attributes instance pre (attr :: rest) v Hwalk).
  simpl. rewrite Hbroken. now rewrite Hnone.
Qed.

(** X3. On a path all of whose steps are attribute lookups that succeed,
    and on any path of at most one step, [get_attribute] returns what
    walking every step returns: the early return after a key lookup
    matters only for a key that is followed by further steps. *)
Theorem get_attribute_agrees_on_attributes_and_single_steps instance :
  (forall attrs v,
     attr_walk getattr instance attrs = Some v ->
     get_attribute py_None getattr getitem instance attrs = Found v /\
     get_attribute_walking py_None getattr getitem instance attrs = Found v) /\
  (forall attr,
     get_attribute py_None getattr getitem instance [attr]
     = get_attribute_walking py_None getattr getitem instance [attr]).
Proof.
  split.
  - intros attrs. revert instance.
    induction attrs as [|attr attrs IH]; intros instance v Hwalk; simpl in *.
    + inversion Hwalk. split; reflexivity.
    + destruct (getattr instance attr) as [w|e]; [|discriminate].
      now apply IH.
  - intros attr. simpl.
    destruct (getattr instance attr) as [w|[]]; reflexivity.
Qed.
End WalkFacts.

(** The author of the book is reached by an attribute; the author's
    name is then resolved from the author. *)
Lemma get_attribute_after_attributes_witness :
  Attr.resolve Representation.book ["author"; "name"]
  = Attr.resolve Representation.orphan_author ["name"].
Proof.
  exact (get_attribute_after_attributes Attr.ONone Attr.pyobj_getattr
           Attr.pyobj_getitem Representation.book ["author"] ["name"]
           Representation.orphan_author eq_refl).
Defined.

(** The publisher of the book's author is a broken relation. *)
Lemma broken_relation_is_represented_as_None_witness :
  Representation.get_field_representation Attr.ONone Attr.pyobj_getattr
    Attr.pyobj_getitem Representation.pyobj_is_None
    (fun o => Attr.Found o) ["author"; "publisher"; "name"]
    Representation.book
  = Attr.Found Attr.ONone.
Proof.
  exact (broken_relation_is_represented_as_None Attr.ONone Attr.pyobj_getattr
           Attr.pyobj_getitem Representation.pyobj_is_None
           (fun o => Attr.Found o) Representation.book ["author"]
           "publisher" ["name"] Representation.orphan_author "publisher"
           eq_refl eq_refl eq_refl).
Defined.

(** ** Storing values under nested keys *)

Section SetValueFacts.
Import Py Core SetValue Paths.

Lemma dict_get_set_same d k v : dict_get (dict_set d k v) k = Some v.
Proof.
  induction d as [|[k' x] d IH]; simpl.
  - now rewrite String.eqb_refl.
  - destruct (String.eqb_spec k' k) as [->|Hne]; simpl.
    + now rewrite String.eqb_refl.
    + destruct (String.eqb_spec k' k); [contradiction|exact IH].
Qed.

Lemma dict_get_set_other d k k' v :
  k' <> k -> dict_get (dict_set d k v) k' = dict_get d k'.
Proof.
  intros Hne. induction d as [|[j x] d IH]; simpl.
  - destruct (String.eqb_spec k k'); [congruence|reflexivity].
  - destruct (String.eqb_spec j k) as [->|Hjk]; simpl.
    + destruct (String.eqb_spec k k'); [congruence|reflexivity].
    + destruct (String.eqb_spec j k'); [reflexivity|exact IH].
Qed.

Lemma dict_set_new d k v :
  dict_get d k = None -> dict_set d k v = d ++ [(k, v)].
Proof.
  induction d as [|[j x] d IH]; simpl; intros H; [reflexivity|].
  destruct (String.eqb_spec j k); [discriminate|]. now rewrite IH.
Qed.

Lemma set_path_inv d key keys v d' :
  set_path d key keys v = Returns d' ->
  match keys with
  | [] => d' = dict_set d key v
  | key' :: keys' =>
      exists inner inner',
        from_option id (VDict []) (dict_get d key) = VDict inner /\
        set_path inner key' keys' v = Returns inner' /\
        d' = dict_set d key (VDict inner')
  end.
Proof.
  destruct keys as [|key' keys']; simpl.
  - intros H. now inversion H.
  - destruct (from_option id (VDict []) (dict_get d key)); try discriminate.
    destruct (set_path entries key' keys' v) as [inner'|e] eqn:Hin;
      [|discriminate].
    intros H. inversion H. eauto.
Qed.

(** X4. After [set_value(dictionary, keys, value)] has succeeded for a
    non-empty list of keys, reading the keys back from the dictionary
    gives the value. *)
Theorem set_value_then_read d keys v d' :
  keys <> [] ->
  set_value d keys v = Returns d' ->
  read d' keys = Some v.
Proof.
  destruct keys as [|key keys]; [congruence|]. intros _. simpl.
  revert d d' key. induction keys as [|key' keys IH]; intros d d' key H.
  - apply set_path_inv in H. subst d'. simpl. apply dict_get_set_same.
  - apply set_path_inv in H. destruct H as (inner & inner' & _ & Hin & ->).
    cbn [get_path]. rewrite dict_get_set_same. now apply (IH inner).
Qed.

(** X5. [set_value] changes nothing beside the path it writes: any path
    that parts ways with the keys reads the same before and after. *)
Theorem set_value_keeps_other_paths d keys v d' other :
  set_value d keys v = Returns d' ->
  diverge keys other = true ->
  read d' other = read d other.
Proof.
  destruct keys as [|key keys]; [discriminate|].
  destruct other as [|b other]; [discriminate|]. simpl.
  revert d d' key b other.
  induction keys as [|key' keys IH]; intros d d' key b other H Hdiv.
  - apply set_path_inv in H. subst d'.
    destruct (String.eqb_spec key b) as [->|Hne];
      [destruct other; discriminate|].
    assert (Hget : dict_get (dict_set d key v) b = dict_get d b)
      by (apply dict_get_set_other; congruence).
    destruct other; simpl; now rewrite Hget.
  - apply set_path_inv in H.
    destruct H as (inner & inner' & Hinner & Hin & ->).
    destruct (String.eqb_spec key b) as [->|Hne].
    + destruct other as [|b' other]; [discriminate|].
      cbn [get_path]. rewrite dict_get_set_same.
      rewrite (IH inner inner' key' b' other Hin Hdiv).
      destruct (dict_get d b) as [x|] eqn:Hd; simpl in Hinner.
      * now subst x.
      * inversion Hinner; subst inner. now destruct other.
    + assert (Hget : dict_get (dict_set d key (VDict inner')) b = dict_get d b)
        by (apply dict_get_set_other; congruence).
      destruct other; simpl; now rewrite Hget.
Qed.

Lemma dict_get_absent (e : list (string * value)) k :
  ~ In k (map fst e) -> dict_get e k = None.
Proof.
  induction e as [|[j x] e IH]; simpl; intros H; [reflexivity|].
  destruct (String.eqb_spec j k); [tauto|]. apply IH. tauto.
Qed.

(** X6. With no keys, [set_value] merges a dictionary into the
    dictionary: afterwards a key reads as in the merged value when that
    has it, and as before otherwise. *)
Theorem set_value_without_keys_merges d entries :
  NoDup (map fst entries) ->
  exists d',
    set_value d [] (VDict entries) = Returns d' /\
    forall k, dict_get d' k
              = match dict_get entries k with
                | Some v => Some v
                | None => dict_get d k
                end.
Proof.
  intros Hnodup. eexists. split; [reflexivity|]. unfold dict_update.
  revert d. induction entries as [|[k1 v1] entries IH]; intros d k; simpl.
  - reflexivity.
  - inversion Hnodup as [|? ? Hnotin Hnodup']; subst.
    rewrite (IH Hnodup').
    destruct (String.eqb_spec k1 k) as [->|Hne].
    + rewrite list_elem_of_In in Hnotin.
      rewrite (dict_get_absent entries k Hnotin). apply dict_get_set_same.
    + destruct (dict_get entries k); [reflexivity|].
      apply dict_get_set_other. congruence.
Qed.

(** X7. When the first key is new to the dictionary, [set_value] always
    succeeds: it keeps every entry and adds one, whose value is the
    chain of new dictionaries that ends in the value. *)
Theorem set_value_creates_levels d key keys v :
  dict_get d key = None ->
  set_value d (key :: keys) v = Returns (d ++ [(key, nest keys v)]).
Proof.
  intros Hnew. simpl.
  assert (Hfresh : forall keys key,
            set_path [] key keys v = Returns [(key, nest keys v)]).
  { induction keys0 as [|key' keys0 IH]; intros key0; simpl; [reflexivity|].
    now rewrite IH. }
  destruct keys as [|key' keys]; simpl.
  - now rewrite dict_set_new.
  - rewrite Hnew. simpl. rewrite Hfresh. now rewrite dict_set_new.
Qed.
End SetValueFacts.

(** Storing under [['user', 'email']] in the sample record, then reading
    it back. *)
Lemma set_value_then_read_witness :
  Paths.read
    [("user", Py.VDict [("name", Py.VStr "ann"); ("email", Py.VStr "a@b")]);
     ("age", Py.VInt 3)] ["user"; "email"]
  = Some (Py.VStr "a@b").
Proof.
  apply (set_value_then_read Samples.record ["user"; "email"]
           (Py.VStr "a@b")); [discriminate | reflexivity].
Defined.

(** The user's name is untouched by it. *)
Lemma set_value_keeps_other_paths_witness :
  Paths.read
    [("user", Py.VDict [("name", Py.VStr "ann"); ("email", Py.VStr "a@b")]);
     ("age", Py.VInt 3)] ["user"; "name"]
  = Paths.read Samples.record ["user"; "name"].
Proof.
  apply (set_value_keeps_other_paths Samples.record ["user"; "email"]
           (Py.VStr "a@b")); reflexivity.
Defined.

(** Merging [{'age': 4, 'city': 'x'}] into the sample record. *)
Lemma set_value_without_keys_merges_witness :
  exists d',
    SetValue.set_value Samples.record []
      (Py.VDict [("age", Py.VInt 4); ("city", Py.VStr "x")])
    = Core.Returns d' /\
    forall k, SetValue.dict_get d' k
              = match SetValue.dict_get
                        [("age", Py.VInt 4); ("city", Py.VStr "x")] k with
                | Some v => Some v
                | None => SetValue.dict_get Samples.record k
                end.
Proof.
  apply (set_value_without_keys_merges Samples.record
           [("age", Py.VInt 4); ("city", Py.VStr "x")]).
  apply (bool_decide_unpack _). reflexivity.
Defined.

(** A new key [x] in the sample record. *)
Lemma set_value_creates_levels_witness :
  SetValue.set_value Samples.record ["x"; "y"] (Py.VInt 2)
  = Core.Returns
      (Samples.record ++ [("x", Py.VDict [("y", Py.VInt 2)])]).
Proof.
  apply (set_value_creates_levels Samples.record "x" ["y"] (Py.VInt 2)).
  reflexivity.
Defined.

(** ** Error messages and construction *)

Section MessageFacts.
Import Py Core Statements.




End MessageFacts.

Section ReadOnlyFacts.
Import Py Core Classes Statements.

(** The description of an enumerated class gives back
    [Field.__init__]. *)
Lemma init_of_info cls kw :
  Classes.__init__ (info_of cls) kw = Field.__init__ cls kw.
Proof.
  unfold Classes.__init__, Field.__init__, Classes.collect_error_messages,
    Field.collect_error_messages, info_of. simpl.
  assert (E : forall l (m : gmap string string),
            fold_left (fun m entries => update m entries)
              (map default_error_messages l) m
            = fold_left (fun m c => update m (default_error_messages c)) l m).
  { induction l as [|c l IH]; intros m; simpl; [reflexivity|apply IH]. }
  rewrite <- map_rev, E. reflexivity.
Qed.

(** X9. [ReadOnlyField] and [SerializerMethodField] force [read_only]:
    a constructed one is read-only, not write-only, not required and
    has no default, and a method field has the source ['*']. The
    construction fails with an assertion error exactly when
    [write_only=True], [required=True] or a default is passed. *)
Theorem read_only_fields_are_never_required kw :
  (if read_only_allowed kw
   then exists b, ReadOnlyField__init__ kw = Returns b /\
                  read_only b = true /\ write_only b = false /\
                  required b = false /\ default b = NoDefault /\
                  source b = Field.kw_source kw
   else exists msg, ReadOnlyField__init__ kw = Raises (AssertionError msg)) /\
  (forall name,
     if read_only_allowed kw
     then exists f, SerializerMethodField__init__ name kw = Returns f /\
                    method_name f = name /\
                    read_only (smf_base f) = true /\
                    write_only (smf_base f) = false /\
                    required (smf_base f) = false /\
                    default (smf_base f) = NoDefault /\
                    source (smf_base f) = Some "*"
     else exists msg,
         SerializerMethodField__init__ name kw = Raises (AssertionError msg)).
Proof.
  destruct kw as [ro wo req dflt ini src lbl help sty msgs vals nul].
  unfold read_only_allowed, ReadOnlyField__init__,
    SerializerMethodField__init__, Classes.__init__, with_read_only,
    Field.derived_required. simpl.
  split; [|intros name];
    destruct wo, req as [[|]|], dflt; simpl; eauto 10.
Qed.
End ReadOnlyFacts.

(** ** Binding *)

Section BindMoreFacts.
Import Py Core.






(** X11. Binding a method field whose source is ['*']: a [method_name]
    equal to the conventional ['get_' + field_name] is rejected with an
    assertion error; otherwise, when the bind succeeds, the method name
    is the one given or else the conventional one, and there are no
    source steps: the method receives the whole instance. *)
Theorem SerializerMethodField_bind_names
    (f : Classes.SerializerMethodField) name p :
  source (Classes.smf_base f) = Some "*" ->
  (Classes.method_name f = Some ("get_" +:+ name) ->
   exists msg,
     Classes.SerializerMethodField_bind f name p
     = Raises (AssertionError msg)) /\
  (forall f',
     Classes.SerializerMethodField_bind f name p = Returns f' ->
     Classes.method_name f'
     = Some (from_option id ("get_" +:+ name) (Classes.method_name f)) /\
     field_name (Classes.smf_base f') = Some name /\
     source_attrs (Classes.smf_base f') = Some []) /\
  (Classes.method_name f <> Some ("get_" +:+ name) -> name <> "*" ->
   exists f', Classes.SerializerMethodField_bind f name p = Returns f').
Proof.
  intros Hsrc. unfold Classes.SerializerMethodField_bind.
  split; [|split].
  - intros Hm. rewrite Hm. unfold Field.option_string_eqb.
    rewrite String.eqb_refl. eauto.
  - intros f'.
    destruct (Field.option_string_eqb (Classes.method_name f) _);
      [intros H; discriminate H|].
    unfold Classes.bind, Field.option_string_eqb. rewrite Hsrc.
    cbv beta iota.
    destruct (String.eqb "*" name); [intros H; discriminate H|].
    intros H. inversion H; subst; clear H. simpl.
    split; [now destruct (Classes.method_name f)|]. split; reflexivity.
  - intros Hm Hname.
    destruct (Field.option_string_eqb (Classes.method_name f) _) eqn:E.
    + destruct (Classes.method_name f) as [m|]; simpl in E; [|discriminate].
      apply String.eqb_eq in E. congruence.
    + unfold Classes.bind, Field.option_string_eqb. rewrite Hsrc.
      cbv beta iota.
      destruct (String.eqb_spec "*" name); [congruence|]. eauto.
Qed.

(** A [SerializerMethodField()] bound as ['full_name'] calls
    [get_full_name]. *)
Lemma SerializerMethodField_bind_names_witness :
  exists f',
    Classes.SerializerMethodField_bind Samples.method_field "full_name"
      Examples.serializer = Returns f' /\
    Classes.method_name f' = Some "get_full_name".
Proof.
  eexists. split; [reflexivity|].
  destruct (SerializerMethodField_bind_names Samples.method_field "full_name"
              Examples.serializer eq_refl) as (_ & Hok & _).
  exact (proj1 (Hok _ eq_refl)).
Defined.
End BindMoreFacts.

(** ** The stages of a validation *)

Section PipelineFacts.
Import Py Core Fields Statements.
Context (is_html_input : value -> bool) (parse_html_list : value -> value).

Let run_validation_in := Fields.run_validation_in is_html_input parse_html_list.

Lemma run_validators_result self v :
  Forall (Field.passes_or_invalidates self v) (validators self) ->
  Field.run_validators self v
  = (validators_trace self v,
     match validators_errors self v with
     | [] => Returns tt
     | m :: l => Raises (ValidationError (m :: l))
     end).
Proof.
  intros Hall. unfold Field.run_validators, validators_trace,
    validators_errors.
  rewrite run_validators_loop_all by exact Hall. simpl.
  destruct (flat_map _ _); simpl; now rewrite app_nil_r.
Qed.

(** X12. The stages of [Field.run_validation] on data that is present
    and not null, for any [to_internal_value]. When the parse raises,
    the exception leaves the method and no validator runs. When it
    returns a value, the validators are called on that value (not on the
    raw data); if one of them fails their messages are raised and
    [validate] is not called; otherwise [validate] is called and the
    parsed value is returned. *)
Theorem run_validation_stages cls up self
    (to_internal_value : value -> M value) data :
  Field.is_empty data = false ->
  Field.null_input cls data = false ->
  (forall t e,
     to_internal_value data = (t, Raises e) ->
     Field.run_validation cls up self to_internal_value data
     = (RunValidation cls data :: ToInternalValue cls data :: t, Raises e)) /\
  (forall t v,
     to_internal_value data = (t, Returns v) ->
     Forall (Field.passes_or_invalidates self v) (validators self) ->
     Field.run_validation cls up self to_internal_value data
     = match validators_errors self v with
       | [] =>
           (RunValidation cls data :: ToInternalValue cls data :: t
            ++ validators_trace self v ++ [ValidateCalled cls v],
            Returns v)
       | m :: l =>
           (RunValidation cls data :: ToInternalValue cls data :: t
            ++ validators_trace self v,
            Raises (ValidationError (m :: l)))
       end).
Proof.
  intros Hpresent Hnull.
  assert (Hshape : Field.run_validation cls up self to_internal_value data
    = (let* _ := emit (RunValidation cls data) in
       let* v := (let* _ := emit (ToInternalValue cls data) in
                  to_internal_value data) in
       let* _ := Field.run_validators self v in
       let* _ := Field.validate cls v in
       ret v)).
  { unfold Field.run_validation, Field.null_input in *. rewrite Hpresent.
    destruct (is_blank data && coerce_blank_to_null cls) eqn:Hb.
    - rewrite orb_true_r in Hnull. discriminate.
    - rewrite orb_false_r in Hnull. now rewrite Hnull. }
  rewrite Hshape. split.
  - intros t e Htiv. rewrite Htiv. reflexivity.
  - intros t v Htiv Hall. rewrite Htiv.
    cbv beta iota delta [Core.bind emit ret Field.validate].
    rewrite (run_validators_result self v Hall).
    destruct (validators_errors self v); simpl; reflexivity.
Qed.

(** X13. A default is returned as it is, without validation: for a field
    that is not required, absent data (outside partial mode) gives the
    default value with neither [to_internal_value] nor a validator
    called, a callable default being called once; without a default the
    field is skipped. *)
Theorem default_is_not_validated up (f : field) :
  Field.root_partial up = false ->
  required (base_of f) = false ->
  run_validation_in up f VEmpty
  = match default (base_of f) with
    | NoDefault => ([RunValidation (class_of f) VEmpty], Raises SkipField)
    | DefaultValue v => ([RunValidation (class_of f) VEmpty], Returns v)
    | DefaultCallable v =>
        ([RunValidation (class_of f) VEmpty; DefaultCalled], Returns v)
    end.
Proof.
  intros Hp Hr. unfold run_validation_in.
  rewrite (run_validation_in_base is_html_input parse_html_list up f VEmpty
             eq_refl).
  unfold Field.run_validation. simpl. rewrite Hp, Hr.
  unfold Field.get_default. now destruct (default (base_of f)).
Qed.
End PipelineFacts.

(** ['7'] on an integer field with the two example validators: the
    parse returns 7, the first validator passes and the second
    fails. *)
Lemma run_validation_stages_witness :
  Field.run_validation Core.IntegerField_ None Examples.two_validators
    (IntegerField.to_internal_value Examples.two_validators) (Py.VStr "7")
  = ([Core.RunValidation Core.IntegerField_ (Py.VStr "7");
      Core.ToInternalValue Core.IntegerField_ (Py.VStr "7");
      Core.ValidatorCalled "MaxValueValidator(10)" None (Py.VInt 7);
      Core.ValidatorCalled "MinValueValidator(20)" (Some None) (Py.VInt 7)],
     Core.Raises
       (Core.ValidationError
          [Core.Msg "Ensure this value is greater than or equal to 20." []])).
Proof.
  destruct (run_validation_stages Core.IntegerField_ None
              Examples.two_validators
              (IntegerField.to_internal_value Examples.two_validators)
              (Py.VStr "7") eq_refl eq_refl) as [_ Hok].
  apply (Hok [] (Py.VInt 7) eq_refl). repeat constructor.
Defined.

(** [IntegerField(default=5)] with a validator: absent data gives 5 and
    the validator is not called. *)
Lemma default_is_not_validated_witness :
  Fields.run_validation_in Examples.never_html Examples.no_html_list
    (Some Examples.serializer) (Fields.IsIntegerField Samples.default_5)
    Py.VEmpty
  = ([Core.RunValidation Core.IntegerField_ Py.VEmpty],
     Core.Returns (Py.VInt 5)).
Proof.
  apply (default_is_not_validated Examples.never_html Examples.no_html_list
           (Some Examples.serializer)
           (Fields.IsIntegerField Samples.default_5)); reflexivity.
Defined.

(** ** From the submitted data to the field's input *)

Section GetValueFacts.
Import Py Core Fields.
Context (is_html_input : value -> bool) (parse_html_list : value -> value).
Context (is_html_data : list (string * value) -> bool).
Context (parse_html_data : list (string * value) -> option string -> value).

Let run_validation_in := Fields.run_validation_in is_html_input parse_html_list.
Let get_value := GetValue.get_value is_html_data parse_html_data.


End GetValueFacts.


(** ** Integer fields *)

Section IntegerFacts.
Import Py Core.

Lemma digits_to_Z_acc ds acc :
  fold_left (fun acc d => (10 * acc + Z.of_nat d)%Z) ds acc
  = (acc * 10 ^ Z.of_nat (length ds) + digits_to_Z ds)%Z.
Proof.
  unfold digits_to_Z. revert acc.
  induction ds as [|d ds IH]; intros acc; simpl fold_left.
  - simpl. lia.
  - rewrite IH. rewrite (IH (10 * 0 + Z.of_nat d)%Z).
    replace (Z.of_nat (length (d :: ds))) with (1 + Z.of_nat (length ds))%Z
      by (simpl length; lia).
    rewrite Z.pow_add_r by lia. lia.
Qed.

Lemma digits_to_Z_cons d ds :
  digits_to_Z (d :: ds)
  = (Z.of_nat d * 10 ^ Z.of_nat (length ds) + digits_to_Z ds)%Z.
Proof.
  unfold digits_to_Z at 1. simpl fold_left. rewrite digits_to_Z_acc. lia.
Qed.

Lemma is_digit_pretty_N_char x :
  (x < 10)%N ->
  is_digit (pretty_N_char x) = true /\
  digit_value (pretty_N_char x) = N.to_nat x.
Proof.
  intros H.
  assert (x = 0 \/ x = 1 \/ x = 2 \/ x = 3 \/ x = 4 \/ x = 5 \/ x = 6
          \/ x = 7 \/ x = 8 \/ x = 9)%N as Hx by lia.
  repeat destruct Hx as [->|Hx]; try subst x; split; reflexivity.
Qed.

(** The digits [pretty_N_go x s] puts in front of a string of digits
    [s] are the decimal digits of [x]. *)
Lemma span_digits_pretty_N_go x :
  forall s ds,
    span_digits s = (ds, EmptyString) ->
    exists ds',
      span_digits (pretty_N_go x s) = (ds' ++ ds, EmptyString) /\
      digits_to_Z (ds' ++ ds)
      = (Z.of_N x * 10 ^ Z.of_nat (length ds) + digits_to_Z ds)%Z /\
      ((0 < x)%N -> ds' <> []).
Proof.
  induction (N.lt_wf_0 x) as [x _ IH]. intros s ds Hs.
  destruct (N.eq_dec x 0%N) as [->|Hpos].
  - exists []. rewrite pretty_N_go_0. split; [exact Hs|]. split; [simpl; lia|lia].
  - assert (Hx : (0 < x)%N) by lia.
    rewrite pretty_N_go_step by exact Hx.
    destruct (is_digit_pretty_N_char (x `mod` 10)%N) as [Hd Hv];
      [apply N.mod_lt; lia|].
    assert (Hs' : span_digits (String (pretty_N_char (x `mod` 10)) s)
                  = (N.to_nat (x `mod` 10) :: ds, EmptyString)).
    { simpl. rewrite Hd, Hs, Hv. reflexivity. }
    destruct (IH (x `div` 10)%N (N.div_lt x 10 Hx eq_refl) _ _ Hs')
      as (ds'' & Hspan & Hval & _).
    exists (ds'' ++ [N.to_nat (x `mod` 10)]).
    rewrite <- app_assoc. simpl app. split; [exact Hspan|]. split.
    + rewrite Hval. rewrite digits_to_Z_cons.
      replace (Z.of_nat (length (N.to_nat (x `mod` 10) :: ds)))
        with (1 + Z.of_nat (length ds))%Z by (simpl length; lia).
      rewrite Z.pow_add_r by lia.
      rewrite N_nat_Z.
      pose proof (N.div_mod x 10 ltac:(lia)) as Hdm.
      assert (Hz : Z.of_N x
                   = (10 * Z.of_N (x `div` 10) + Z.of_N (x `mod` 10))%Z)
        by lia.
      rewrite Hz. lia.
    + intros _. destruct ds''; discriminate.
Qed.

Lemma digit_is_not_int_space c :
  is_digit c = true -> is_int_space c = false.
Proof.
  unfold is_digit, is_int_space. intros H.
  apply andb_true_iff in H. destruct H as [H1 H2].
  apply Nat.leb_le in H1.
  destruct (Nat.leb_spec 9 (nat_of_ascii c)), (Nat.leb_spec (nat_of_ascii c) 13),
    (Nat.eqb_spec (nat_of_ascii c) 32); simpl; try reflexivity; lia.
Qed.

(** A non-empty string of digits is left as it is by the stripping
    [int] does, and has no sign. *)
Lemma digits_have_no_space s ds :
  span_digits s = (ds, EmptyString) ->
  int_rstrip s = s /\ int_lstrip s = s /\ split_sign s = (false, s).
Proof.
  revert ds. induction s as [|c s IH]; intros ds H; [now repeat split|].
  simpl in H. destruct (is_digit c) eqn:Hd; [|discriminate].
  destruct (span_digits s) as [ds0 rest] eqn:Hs. inversion H; subst.
  destruct (IH ds0 eq_refl) as (Hr & _ & _).
  pose proof (digit_is_not_int_space c Hd) as Hsp.
  split; [|split].
  - simpl. rewrite Hr, Hsp. now destruct s.
  - simpl. now rewrite Hsp.
  - unfold split_sign.
    destruct (Ascii.eqb_spec c "-") as [->|]; [discriminate|].
    destruct (Ascii.eqb_spec c "+") as [->|]; [discriminate|].
    destruct c as [[] [] [] [] [] [] [] []]; try reflexivity; congruence.
Qed.

Lemma minus_sign_is_kept s :
  int_rstrip s = s ->
  int_rstrip (int_lstrip (String "-" s)) = String "-" s.
Proof.
  intros H.
  change (int_lstrip (String "-" s)) with (String "-" s).
  change (int_rstrip (String "-" s))
    with (match int_rstrip s with
          | EmptyString => if is_int_space "-" then EmptyString
                           else String "-" EmptyString
          | r => String "-" r
          end).
  rewrite H. now destruct s.
Qed.

Lemma int_of_string_pretty_pos p :
  int_of_string (pretty (N.pos p)) = Some (Z.pos p) /\
  int_of_string ("-" +:+ pretty (N.pos p)) = Some (Z.neg p).
Proof.
  unfold pretty, pretty_N. destruct (decide (N.pos p = 0%N)); [discriminate|].
  destruct (span_digits_pretty_N_go (N.pos p) "" [] eq_refl)
    as (ds & Hspan & Hval & Hne).
  rewrite app_nil_r in Hspan, Hval. simpl in Hval.
  destruct (digits_have_no_space _ _ Hspan) as (Hr & Hl & Hsign).
  destruct ds as [|d ds]; [now elim Hne|].
  assert (Hval' : digits_to_Z (d :: ds) = Z.pos p).
  { rewrite Hval. unfold digits_to_Z. simpl fold_left. simpl Z.of_nat.
    rewrite Z.pow_0_r. lia. }
  split.
  - unfold int_of_string. rewrite Hl, Hr, Hsign, Hspan. now rewrite Hval'.
  - unfold int_of_string.
    change ("-" +:+ pretty_N_go (N.pos p) "")
      with (String "-" (pretty_N_go (N.pos p) "")).
    rewrite (minus_sign_is_kept _ Hr). cbn [split_sign].
    rewrite Hspan. now rewrite Hval'.
Qed.

(** The text of an integer parses back to the integer. *)
Lemma int_of_string_pretty z : int_of_string (pretty z) = Some z.
Proof.
  destruct z as [|p|p]; [reflexivity| |].
  - apply (int_of_string_pretty_pos p).
  - apply (int_of_string_pretty_pos p).
Qed.

(** X15. An integer, and its decimal text, are parsed by an
    [IntegerField] to that integer: parsing undoes printing. *)
Theorem IntegerField_parses_printed_integers (self : base) (z : Z) :
  IntegerField.to_internal_value self (VInt z) = ([], Returns (VInt z)) /\
  IntegerField.to_internal_value self (VStr (text_type (VInt z)))
  = ([], Returns (VInt z)).
Proof.
  unfold IntegerField.to_internal_value. simpl text_type.
  now rewrite int_of_string_pretty.
Qed.

(** X16. Whatever an [IntegerField] parses is an integer that both
    [to_representation] and a second parse leave unchanged. *)
Theorem IntegerField_output_is_stable (self : base) data t v :
  IntegerField.to_internal_value self data = (t, Returns v) ->
  (exists z, v = VInt z) /\
  IntegerFieldMore.to_representation v = ([], Returns v) /\
  IntegerField.to_internal_value self v = ([], Returns v).
Proof.
  unfold IntegerField.to_internal_value at 1.
  destruct (int_of_string (text_type data)) as [z|].
  - intros H. inversion H; subst. split; [eauto|]. split; [reflexivity|].
    unfold IntegerField.to_internal_value. simpl text_type.
    now rewrite int_of_string_pretty.
  - unfold Field.fail. destruct (_ !! _); discriminate.
Qed.
End IntegerFacts.

(** ['  42 '] parses to 42, which is then stable. *)
Lemma IntegerField_output_is_stable_witness :
  IntegerFieldMore.to_representation (Py.VInt 42)
  = ([], Core.Returns (Py.VInt 42)) /\
  IntegerField.to_internal_value (Examples.fresh Core.IntegerField_)
    (Py.VInt 42)
  = ([], Core.Returns (Py.VInt 42)).
Proof.
  exact (proj2 (IntegerField_output_is_stable
                  (Examples.fresh Core.IntegerField_) (Py.VStr "  42 ") []
                  (Py.VInt 42) eq_refl)).
Defined.

Section IntegerLimitFacts.
Import Py Core Fields.
Context (is_html_input : value -> bool) (parse_html_list : value -> value).

Let run_validation_in := Fields.run_validation_in is_html_input parse_html_list.

Lemma py_gt_int a b :
  IntegerFieldMore.py_gt (VInt a) (VInt b) = Some (b <? a)%Z.
Proof.
  unfold IntegerFieldMore.py_gt. simpl.
  now rewrite !Z.mul_1_r.
Qed.

(** Text that parses as an integer is neither absent nor null. *)
Lemma parsed_text_is_present cls data z :
  int_of_string (text_type data) = Some z ->
  Field.is_empty data = false /\ Field.null_input cls data = false.
Proof.
  intros H. destruct data; try (vm_compute in H; discriminate);
    try (split; reflexivity).
  destruct s; [vm_compute in H; discriminate|]. split; reflexivity.
Qed.

(** X17. An [IntegerField] constructed with [max_value] and
    [min_value], and no other validator, on data that parses to the
    integer [z]: it returns [z] exactly when [min_value <= z <=
    max_value]; otherwise it raises the [max_value] message, the
    [min_value] message, or both in that order. *)
Theorem IntegerField_enforces_limits up kw hi lo b data z :
  IntegerFieldMore.__init__ (Some hi) (Some lo) kw = Returns b ->
  Field.kw_validators kw = [] ->
  int_of_string (text_type data) = Some z ->
  exists too_big too_small,
    error_messages b !! "max_value" = Some too_big /\
    error_messages b !! "min_value" = Some too_small /\
    snd (run_validation_in up (IsIntegerField b) data)
    = match (hi <? z)%Z, (z <? lo)%Z with
      | false, false => Returns (VInt z)
      | true, false =>
          Raises (ValidationError [Msg too_big [("max_value", VInt hi)]])
      | false, true =>
          Raises (ValidationError [Msg too_small [("min_value", VInt lo)]])
      | true, true =>
          Raises (ValidationError [Msg too_big [("max_value", VInt hi)];
                                   Msg too_small [("min_value", VInt lo)]])
      end.
Proof.
  intros Hinit Hvals Hparse.
  unfold IntegerFieldMore.__init__ in Hinit.
  destruct (Field.__init__ IntegerField_ kw) as [b0|e] eqn:H0; [|discriminate].
  pose proof (init_messages_complete _ _ _ H0) as Hm.
  destruct (Hm IntegerField_ "max_value" _ ltac:(simpl; auto)
              ltac:(simpl; eauto)) as [too_big Hbig].
  destruct (Hm IntegerField_ "min_value" _ ltac:(simpl; auto)
              ltac:(simpl; eauto)) as [too_small Hsmall].
  assert (Hv0 : validators b0 = []).
  { unfold Field.__init__ in H0.
    repeat match type of H0 with
           | (if ?c then _ else _) = _ => destruct c; [discriminate|]
           end.
    inversion H0; subst. exact Hvals. }
  unfold IntegerFieldMore.add_limit in Hinit. rewrite Hbig in Hinit.
  simpl in Hinit. rewrite Hsmall in Hinit. inversion Hinit; subst b; clear Hinit.
  exists too_big, too_small. split; [exact Hbig|]. split; [exact Hsmall|].
  destruct (parsed_text_is_present IntegerField_ data z Hparse)
    as [Hpresent Hnull].
  unfold run_validation_in. cbn [Fields.run_validation_in].
  unfold Field.run_validation, Field.null_input in *. rewrite Hpresent.
  destruct (is_blank data && coerce_blank_to_null IntegerField_) eqn:Hb;
    [rewrite orb_true_r in Hnull; discriminate|].
  rewrite orb_false_r in Hnull. rewrite Hnull.
  unfold IntegerField.to_internal_value. rewrite Hparse.
  cbv beta iota delta [Core.bind emit ret Field.run_validators
                         Field.validate].
  simpl validators. rewrite Hv0.
  cbn [app Field.run_validators_loop].
  cbv beta iota delta [Core.bind emit ret raise Field.serializer_field
                         IntegerFieldMore.MaxValueValidator
                         IntegerFieldMore.MinValueValidator
                         requires_context call validator_name].
  rewrite !py_gt_int.
  destruct (hi <? z)%Z, (z <? lo)%Z; reflexivity.
Qed.
End IntegerLimitFacts.

(** [IntegerField(min_value=1, max_value=10)] on ['11']. *)
Lemma IntegerField_enforces_limits_witness :
  exists too_big too_small,
    Core.error_messages Samples.one_to_ten !! "max_value" = Some too_big /\
    Core.error_messages Samples.one_to_ten !! "min_value" = Some too_small /\
    snd (Fields.run_validation_in Examples.never_html Examples.no_html_list
           None (Fields.IsIntegerField Samples.one_to_ten) (Py.VStr "11"))
    = Core.Raises
        (Core.ValidationError
           [Core.Msg too_big [("max_value", Py.VInt 10)]]).
Proof.
  exact (IntegerField_enforces_limits Examples.never_html
           Examples.no_html_list None Field.no_kwargs 10 1
           Samples.one_to_ten (Py.VStr "11") 11 eq_refl eq_refl eq_refl).
Defined.

(** ** What a decimal field lets through *)

Section DecimalSoundness.
Import Py Core.

(** [fail] never returns. *)
Lemma fail_does_not_return {A : Type} cls b key args t (a : A) :
  Field.fail cls b key args <> (t, Returns a).
Proof. unfold Field.fail. destruct (_ !! _); discriminate. Qed.

End DecimalSoundness.


(** ** Choice fields, once more *)

Section ChoiceMoreFacts.
Import Py Core Statements.

(** X19. Parsing with a [ChoiceField] is idempotent, and its output is
    stable: a value it returns is one of the choice values, and both
    [to_representation] and a second parse give that same value. *)
Theorem ChoiceField_output_is_stable items kw b o data t v :
  ChoiceField.__init__ items kw = Returns (b, o) ->
  ChoiceField.to_internal_value o b data = (t, Returns v) ->
  In v (map fst (ChoiceField.choices o)) /\
  ChoiceField.to_representation o v = ([], Returns v) /\
  ChoiceField.to_internal_value o b v = ([], Returns v).
Proof.
  intros Hinit Hparse.
  destruct (ChoiceField_init_inv _ _ _ _ Hinit) as [_ Hmap].
  unfold ChoiceField.to_internal_value in Hparse.
  destruct (ChoiceField.choice_strings_to_values o !! text_type data)
    as [w|] eqn:Hlook;
    [|now apply fail_does_not_return in Hparse].
  inversion Hparse; subst; clear Hparse.
  pose proof Hlook as Hlook'. rewrite Hmap in Hlook'.
  apply strings_to_values_lookup in Hlook'. destruct Hlook' as [Htext Hin].
  split; [exact Hin|].
  unfold ChoiceField.to_representation, ChoiceField.to_internal_value.
  rewrite Htext, Hlook. split; reflexivity.
Qed.

Lemma strings_to_values_snoc keys k :
  ChoiceField.strings_to_values (keys ++ [k])
  = <[text_type k := k]> (ChoiceField.strings_to_values keys).
Proof.
  unfold ChoiceField.strings_to_values. now rewrite fold_left_app.
Qed.

(** When the choice values have different texts, each is found under its
    own text. *)
Lemma strings_to_values_hit keys k :
  NoDup (map text_type keys) -> In k keys ->
  ChoiceField.strings_to_values keys !! text_type k = Some k.
Proof.
  induction keys as [|k' keys IH] using rev_ind; intros Hnd Hin;
    [contradiction|].
  rewrite strings_to_values_snoc.
  rewrite map_app in Hnd. apply NoDup_app in Hnd.
  destruct Hnd as (Hnd & Hdisj & _).
  apply in_app_or in Hin. destruct Hin as [Hin | [-> | []]].
  - rewrite lookup_insert_ne; [now apply IH|].
    intros E. apply (Hdisj (text_type k)).
    + apply list_elem_of_In. apply in_map. exact Hin.
    + simpl. rewrite E. apply list_elem_of_In. now left.
  - apply lookup_insert_eq.
Qed.

(** X20. In a [ChoiceField] whose choice values have pairwise different
    texts, every choice value is accepted as itself, from the value and
    from its text, and is represented as itself. *)
Theorem ChoiceField_accepts_every_choice items kw b o k :
  ChoiceField.__init__ items kw = Returns (b, o) ->
  NoDup (map text_type (map fst (ChoiceField.choices o))) ->
  In k (map fst (ChoiceField.choices o)) ->
  ChoiceField.to_internal_value o b k = ([], Returns k) /\
  ChoiceField.to_internal_value o b (VStr (text_type k)) = ([], Returns k) /\
  ChoiceField.to_representation o k = ([], Returns k).
Proof.
  intros Hinit Hnd Hin.
  destruct (ChoiceField_init_inv _ _ _ _ Hinit) as [_ Hmap].
  pose proof (strings_to_values_hit _ k Hnd Hin) as Hhit.
  rewrite <- Hmap in Hhit.
  unfold ChoiceField.to_internal_value, ChoiceField.to_representation.
  simpl text_type. rewrite Hhit. repeat split; reflexivity.
Qed.
End ChoiceMoreFacts.

(** The choices [[(1, 'One'), (2, 'Two')]]: ['2'] parses to 2, and 2 is
    accepted and represented as itself. *)
Lemma ChoiceField_output_is_stable_witness :
  In (Py.VInt 2) (map fst (ChoiceField.choices Examples.one_two_options)) /\
  ChoiceField.to_representation Examples.one_two_options (Py.VInt 2)
  = ([], Core.Returns (Py.VInt 2)) /\
  ChoiceField.to_internal_value Examples.one_two_options
    (Examples.fresh Core.ChoiceField_) (Py.VInt 2)
  = ([], Core.Returns (Py.VInt 2)).
Proof.
  exact (ChoiceField_output_is_stable Examples.one_two Field.no_kwargs
           (Examples.fresh Core.ChoiceField_) Examples.one_two_options
           (Py.VStr "2") [] (Py.VInt 2) eq_refl eq_refl).
Defined.

Lemma ChoiceField_accepts_every_choice_witness :
  ChoiceField.to_internal_value Examples.one_two_options
    (Examples.fresh Core.ChoiceField_) (Py.VInt 1)
  = ([], Core.Returns (Py.VInt 1)) /\
  ChoiceField.to_internal_value Examples.one_two_options
    (Examples.fresh Core.ChoiceField_) (Py.VStr (Py.text_type (Py.VInt 1)))
  = ([], Core.Returns (Py.VInt 1)) /\
  ChoiceField.to_representation Examples.one_two_options (Py.VInt 1)
  = ([], Core.Returns (Py.VInt 1)).
Proof.
  apply (ChoiceField_accepts_every_choice Examples.one_two Field.no_kwargs
           (Examples.fresh Core.ChoiceField_) Examples.one_two_options
           (Py.VInt 1) eq_refl).
  - apply (bool_decide_unpack _). reflexivity.
  - left. reflexivity.
Defined.

(** ** Multiple choice fields *)

Section MultipleChoiceFacts.
Import Py Core Statements.

(** A field constructed for a described class has a message for every
    key of the class's and its bases' [default_error_messages]. *)
Lemma classes_init_messages info kw b entries key msg :
  Classes.__init__ info kw = Returns b ->
  In entries (Classes.mro_messages info) -> In (key, msg) entries ->
  is_Some (error_messages b !! key).
Proof.
  intros Hinit Hentries Hkey.
  assert (Hb : error_messages b
               = Classes.collect_error_messages info
                   (Field.kw_error_messages kw)).
  { unfold Classes.__init__ in Hinit.
    repeat match type of Hinit with
           | (if ?c then _ else _) = _ => destruct c; [discriminate|]
           end.
    now inversion Hinit. }
  rewrite Hb. unfold Classes.collect_error_messages.
  apply lookup_update_keep.
  assert (Hin : In entries (rev (Classes.mro_messages info)))
    by (apply in_rev in Hentries; exact Hentries).
  revert Hin. generalize (rev (Classes.mro_messages info)).
  generalize (∅ : gmap string string).
  intros m l. revert m.
  induction l as [|entries' l IH]; intros m Hin; simpl in *; [contradiction|].
  destruct Hin as [-> | Hin].
  - assert (Hs : is_Some (update m entries !! key))
      by (apply lookup_update_in; eauto).
    revert Hs. generalize (update m entries).
    clear. induction l as [|c l IH]; intros m Hs; simpl; [exact Hs|].
    apply IH. now apply lookup_update_keep.
  - now apply IH.
Qed.

Lemma py_set_subset values v :
  In v (MultipleChoiceField.py_set values) -> In v values.
Proof.
  induction values as [|w values IH]; simpl; [tauto|].
  destruct (existsb (ChoiceField.key_eqb w) values); simpl; tauto.
Qed.

Lemma existsb_false_on_subset (p : value -> bool) l l' :
  (forall v, In v l' -> In v l) -> existsb p l = false -> existsb p l' = false.
Proof.
  intros Hsub Hl. destruct (existsb p l') eqn:E; [|reflexivity].
  apply existsb_exists in E. destruct E as (v & Hv & Hp).
  assert (existsb p l = true) by (apply existsb_exists; eauto). congruence.
Qed.

Lemma py_set_distinct values : distinct (MultipleChoiceField.py_set values).
Proof.
  induction values as [|w values IH]; simpl; [exact I|].
  destruct (existsb (ChoiceField.key_eqb w) values) eqn:E; [exact IH|].
  simpl. split; [|exact IH].
  apply (existsb_false_on_subset _ values); [|exact E].
  intros v. apply py_set_subset.
Qed.

Lemma py_set_length values :
  (length (MultipleChoiceField.py_set values) <= length values)%nat.
Proof.
  induction values as [|w values IH]; simpl; [lia|].
  destruct (existsb (ChoiceField.key_eqb w) values); simpl; lia.
Qed.

(** The comprehension over items that are all choices. *)
Lemma choose_all_hits o b items :
  (forall item, In item items ->
     is_Some (ChoiceField.choice_strings_to_values o !! text_type item)) ->
  exists vs,
    MultipleChoiceField.choose_all o b items = ([], Returns vs) /\
    length vs = length items /\
    forall v, In v vs ->
      exists item, In item items /\
        ChoiceField.choice_strings_to_values o !! text_type item = Some v.
Proof.
  induction items as [|item items IH]; intros Hall.
  - exists []. repeat split. intros v [].
  - destruct (Hall item (or_introl eq_refl)) as [v Hv].
    destruct IH as (vs & Hvs & Hlen & Hfrom);
      [intros i Hi; apply Hall; now right|].
    exists (v :: vs). cbn [MultipleChoiceField.choose_all].
    unfold MultipleChoiceField.choose at 1. rewrite Hv, Hvs.
    split; [reflexivity|]. split; [simpl; lia|].
    intros w [<-|Hw].
    + exists item. split; [now left|exact Hv].
    + destruct (Hfrom w Hw) as (i & Hi & Hiv). exists i. split; [now right|exact Hiv].
Qed.

Lemma MultipleChoiceField_init_inv items kw b o :
  MultipleChoiceField.__init__ items kw = Returns (b, o) ->
  (forall key,
     key = "invalid_choice" \/ key = "not_a_list" ->
     is_Some (error_messages b !! key)) /\
  ChoiceField.choice_strings_to_values o
  = ChoiceField.strings_to_values (map fst (ChoiceField.choices o)).
Proof.
  unfold MultipleChoiceField.__init__, ChoiceField.init_choices.
  destruct (ChoiceField.SortedDict _) as [d|e]; [|discriminate].
  destruct (Classes.__init__ MultipleChoiceField.info kw) as [b'|e] eqn:Hinit;
    [|discriminate].
  intros H; inversion H; subst; clear H. split; [|reflexivity].
  intros key [-> | ->].
  - eapply (classes_init_messages _ _ _ _ _ _ Hinit).
    + left; reflexivity.
    + left; reflexivity.
  - eapply (classes_init_messages _ _ _ _ _ _ Hinit).
    + left; reflexivity.
    + right; left; reflexivity.
Qed.

(** X21. A [MultipleChoiceField] given an iterable all of whose items
    are choices returns a set: no two of its elements are equal, each
    element is a choice value and the value of one of the items, and
    there are at most as many elements as items. *)
Theorem MultipleChoiceField_returns_a_set items kw b o data elems :
  MultipleChoiceField.__init__ items kw = Returns (b, o) ->
  iterate data = Some elems ->
  (forall item, In item elems ->
     is_Some (ChoiceField.choice_strings_to_values o !! text_type item)) ->
  exists s,
    MultipleChoiceField.to_internal_value o b data = ([], Returns s) /\
    distinct s /\
    (forall v, In v s ->
       In v (map fst (ChoiceField.choices o)) /\
       exists item, In item elems /\
         ChoiceField.choice_strings_to_values o !! text_type item = Some v) /\
    (length s <= length elems)%nat.
Proof.
  intros Hinit Hiter Hall.
  destruct (MultipleChoiceField_init_inv _ _ _ _ Hinit) as [_ Hmap].
  destruct (choose_all_hits o b elems Hall) as (vs & Hvs & Hlen & Hfrom).
  exists (MultipleChoiceField.py_set vs).
  unfold MultipleChoiceField.to_internal_value. rewrite Hiter, Hvs.
  split; [reflexivity|]. split; [apply py_set_distinct|]. split.
  - intros v Hv. apply py_set_subset in Hv.
    destruct (Hfrom v Hv) as (item & Hitem & Hlook). split; [|eauto].
    rewrite Hmap in Hlook. now apply strings_to_values_lookup in Hlook.
  - rewrite <- Hlen. apply py_set_length.
Qed.

Lemma choose_all_first_miss o b pre bad post :
  (forall item, In item pre ->
     is_Some (ChoiceField.choice_strings_to_values o !! text_type item)) ->
  ChoiceField.choice_strings_to_values o !! text_type bad = None ->
  MultipleChoiceField.choose_all o b (pre ++ bad :: post)
  = (let* _ := Classes.fail (A:=value) "MultipleChoiceField" b
                 "invalid_choice" [("input", bad)] in ret []).
Proof.
  intros Hpre Hbad. induction pre as [|item pre IH];
    cbn [app MultipleChoiceField.choose_all].
  - unfold MultipleChoiceField.choose. rewrite Hbad.
    unfold Classes.fail.
    now destruct (error_messages b !! "invalid_choice").
  - destruct (Hpre item (or_introl eq_refl)) as [v Hv].
    unfold MultipleChoiceField.choose at 1. rewrite Hv.
    rewrite IH by (intros i Hi; apply Hpre; now right).
    unfold Classes.fail.
    now destruct (error_messages b !! "invalid_choice").
Qed.

(** X22. The failures of a [MultipleChoiceField]: a string, like any
    value that is not iterable, fails with [not_a_list] and the name of
    its type; an iterable fails with [invalid_choice] for its first item
    that is not a choice. *)
Theorem MultipleChoiceField_failures items kw b o data :
  MultipleChoiceField.__init__ items kw = Returns (b, o) ->
  (iterate data = None ->
   Field.fails_with b "not_a_list" [("input_type", VStr (type_name data))]
     (MultipleChoiceField.to_internal_value o b data)) /\
  (forall pre bad post,
     iterate data = Some (pre ++ bad :: post) ->
     (forall item, In item pre ->
        is_Some (ChoiceField.choice_strings_to_values o !! text_type item)) ->
     ChoiceField.choice_strings_to_values o !! text_type bad = None ->
     Field.fails_with b "invalid_choice" [("input", bad)]
       (MultipleChoiceField.to_internal_value o b data)).
Proof.
  intros Hinit.
  destruct (MultipleChoiceField_init_inv _ _ _ _ Hinit) as [Hmsg _].
  split.
  - intros Hiter. unfold MultipleChoiceField.to_internal_value.
    rewrite Hiter. destruct (Hmsg "not_a_list") as [msg Hm]; [auto|].
    unfold Field.fails_with, Classes.fail. rewrite Hm. simpl. eauto.
  - intros pre bad post Hiter Hpre Hbad.
    unfold MultipleChoiceField.to_internal_value. rewrite Hiter.
    rewrite (choose_all_first_miss o b pre bad post Hpre Hbad).
    destruct (Hmsg "invalid_choice") as [msg Hm]; [auto|].
    unfold Field.fails_with, Classes.fail. rewrite Hm. simpl. eauto.
Qed.
End MultipleChoiceFacts.

Lemma MultipleChoiceField_returns_a_set_witness :
  exists s,
    MultipleChoiceField.to_internal_value Examples.one_two_options
      (Samples.fresh_as MultipleChoiceField.info)
      (Py.VList [Py.VStr "1"; Py.VInt 2; Py.VInt 1])
    = ([], Core.Returns s) /\
    Statements.distinct s /\
    (forall v, In v s ->
       In v (map fst (ChoiceField.choices Examples.one_two_options)) /\
       exists item,
         In item [Py.VStr "1"; Py.VInt 2; Py.VInt 1] /\
         ChoiceField.choice_strings_to_values Examples.one_two_options
           !! Py.text_type item = Some v) /\
    (length s <= 3)%nat.
Proof.
  apply (MultipleChoiceField_returns_a_set Examples.one_two Field.no_kwargs
           (Samples.fresh_as MultipleChoiceField.info)
           Examples.one_two_options
           (Py.VList [Py.VStr "1"; Py.VInt 2; Py.VInt 1])
           [Py.VStr "1"; Py.VInt 2; Py.VInt 1] eq_refl eq_refl).
  intros item [<- | [<- | [<- | []]]]; vm_compute; eauto.
Defined.

Lemma MultipleChoiceField_failures_witness :
  Field.fails_with (Samples.fresh_as MultipleChoiceField.info) "not_a_list"
    [("input_type", Py.VStr "str")]
    (MultipleChoiceField.to_internal_value Examples.one_two_options
       (Samples.fresh_as MultipleChoiceField.info) (Py.VStr "1")) /\
  Field.fails_with (Samples.fresh_as MultipleChoiceField.info)
    "invalid_choice" [("input", Py.VInt 3)]
    (MultipleChoiceField.to_internal_value Examples.one_two_options
       (Samples.fresh_as MultipleChoiceField.info)
       (Py.VList [Py.VInt 1; Py.VInt 3; Py.VInt 4])).
Proof.
  destruct (MultipleChoiceField_failures Examples.one_two Field.no_kwargs
              (Samples.fresh_as MultipleChoiceField.info)
              Examples.one_two_options (Py.VStr "1") eq_refl)
    as [Hnot _].
  destruct (MultipleChoiceField_failures Examples.one_two Field.no_kwargs
              (Samples.fresh_as MultipleChoiceField.info)
              Examples.one_two_options
              (Py.VList [Py.VInt 1; Py.VInt 3; Py.VInt 4]) eq_refl)
    as [_ Hbad].
  split.
  - exact (Hnot eq_refl).
  - apply (Hbad [Py.VInt 1] (Py.VInt 3) [Py.VInt 4] eq_refl).
    + intros item [<- | []]. vm_compute. eauto.
    + reflexivity.
Defined.

(** ** Boolean fields *)

Section BooleanFacts.
Import Py Core.



Lemma key_eqb_number_text a m e s :
  ChoiceField.numeric a = Some (m, e) ->
  ChoiceField.key_eqb a (VStr s) = false.
Proof.
  intros H. unfold ChoiceField.key_eqb. rewrite H.
  destruct a as [| | | | | | |[]]; try discriminate; reflexivity.
Qed.

Lemma key_eqb_not_number a z :
  ChoiceField.numeric a = None -> ChoiceField.key_eqb a (VInt z) = false.
Proof.
  intros H. unfold ChoiceField.key_eqb. rewrite H.
  destruct a as [| | | | | | |[]]; reflexivity.
Qed.


(** No value is both a null token and a true or false one. *)
Lemma null_is_neither data :
  existsb (ChoiceField.key_eqb data) BooleanField.NULL_VALUES = true ->
  existsb (ChoiceField.key_eqb data) BooleanField.TRUE_VALUES = false /\
  existsb (ChoiceField.key_eqb data) BooleanField.FALSE_VALUES = false.
Proof.
  destruct (ChoiceField.numeric data) as [[m e]|] eqn:Hn.
  - unfold BooleanField.NULL_VALUES. cbn [existsb].
    rewrite !(key_eqb_number_text data m e _ Hn).
    destruct data as [| |b|z|s| | |[]]; try discriminate Hn;
      intros H; discriminate H.
  - destruct data as [| |b|z|s| | |d]; try discriminate Hn;
      try (intros H; discriminate H); try (split; reflexivity).
    + unfold BooleanField.NULL_VALUES, BooleanField.TRUE_VALUES,
        BooleanField.FALSE_VALUES.
      cbn [existsb ChoiceField.key_eqb ChoiceField.numeric].
      rewrite !orb_false_r. intros H.
      repeat (apply orb_prop in H; destruct H as [H|H]);
        apply String.eqb_eq in H; subst s; split; reflexivity.
    + destruct d as [| |]; try discriminate Hn;
        try (intros H; discriminate H); split; reflexivity.
Qed.

Lemma classes_fail_does_not_return {A : Type} cls self key kwargs t (r : A) :
  Classes.fail cls self key kwargs = (t, Returns r) -> False.
Proof.
  unfold Classes.fail. destruct (error_messages self !! key); discriminate.
Qed.

(** X23. What a [BooleanField] parses it also renders: when
    [to_internal_value] returns, its result is a boolean,
    [to_representation] gives the same boolean for the same value, and
    both methods leave that boolean as it is. *)
Theorem BooleanField_parses_what_it_renders self data t v :
  BooleanField.to_internal_value self data = (t, Returns v) ->
  (exists b, v = VBool b) /\
  BooleanField.to_representation data = ([], Returns v) /\
  BooleanField.to_internal_value self v = ([], Returns v) /\
  BooleanField.to_representation v = ([], Returns v).
Proof.
  unfold BooleanField.to_internal_value at 1.
  unfold BooleanField.to_representation at 1.
  destruct (BooleanField.py_in data BooleanField.TRUE_VALUES) as [[]|];
    [| |discriminate].
  - intros H; inversion H; subst. repeat split; eauto.
  - destruct (BooleanField.py_in data BooleanField.FALSE_VALUES) as [[]|];
      [| |discriminate].
    + intros H; inversion H; subst. repeat split; eauto.
    + intros H. now apply classes_fail_does_not_return in H.
Qed.

(** X24. A [NullBooleanField] tests the null tokens last when it parses
    and first when it renders; as no value is a token of two kinds, the
    two agree: what [to_internal_value] returns, [True], [False] or
    [None], is what [to_representation] gives for the same value, and
    both methods leave it as it is. *)
Theorem NullBooleanField_parses_what_it_renders self data t v :
  BooleanField.Null_to_internal_value self data = (t, Returns v) ->
  (v = VNone \/ exists b, v = VBool b) /\
  BooleanField.Null_to_representation data = ([], Returns v) /\
  BooleanField.Null_to_internal_value self v = ([], Returns v) /\
  BooleanField.Null_to_representation v = ([], Returns v).
Proof.
  unfold BooleanField.Null_to_internal_value at 1.
  unfold BooleanField.Null_to_representation at 1.
  unfold BooleanField.to_representation at 1.
  unfold BooleanField.py_in.
  destruct (ChoiceField.hashable data); [|discriminate].
  destruct (existsb _ BooleanField.TRUE_VALUES) eqn:Ht.
  - intros H; inversion H; subst.
    destruct (existsb _ BooleanField.NULL_VALUES) eqn:Hnull.
    + apply null_is_neither in Hnull. destruct Hnull; congruence.
    + repeat split; eauto.
  - destruct (existsb _ BooleanField.FALSE_VALUES) eqn:Hf.
    + intros H; inversion H; subst.
      destruct (existsb _ BooleanField.NULL_VALUES) eqn:Hnull.
      * apply null_is_neither in Hnull. destruct Hnull; congruence.
      * repeat split; eauto.
    + destruct (existsb _ BooleanField.NULL_VALUES) eqn:Hnull.
      * intros H; inversion H; subst. repeat split; eauto.
      * intros H. now apply classes_fail_does_not_return in H.
Qed.

End BooleanFacts.

Lemma BooleanField_parses_what_it_renders_witness :
  (exists b, Py.VBool true = Py.VBool b) /\
  BooleanField.to_representation (Py.VStr "True")
  = ([], Core.Returns (Py.VBool true)) /\
  BooleanField.to_internal_value (Samples.fresh_as BooleanField.info)
    (Py.VBool true) = ([], Core.Returns (Py.VBool true)) /\
  BooleanField.to_representation (Py.VBool true)
  = ([], Core.Returns (Py.VBool true)).
Proof.
  apply (BooleanField_parses_what_it_renders
           (Samples.fresh_as BooleanField.info) (Py.VStr "True") []
           (Py.VBool true)).
  reflexivity.
Defined.

Lemma NullBooleanField_parses_what_it_renders_witness :
  (Py.VNone = Py.VNone \/ exists b, Py.VNone = Py.VBool b) /\
  BooleanField.Null_to_representation (Py.VStr "null")
  = ([], Core.Returns Py.VNone) /\
  BooleanField.Null_to_internal_value Samples.null_boolean
    Py.VNone = ([], Core.Returns Py.VNone) /\
  BooleanField.Null_to_representation Py.VNone = ([], Core.Returns Py.VNone).
Proof.
  apply (NullBooleanField_parses_what_it_renders
           Samples.null_boolean (Py.VStr "null") []
           Py.VNone).
  reflexivity.
Defined.


(** ** File fields *)

Section FileFacts.
Import Py Core.

(** X26. What a [FileField] lets through: it returns the upload it was
    given, which has a name that is not empty, a size that is not zero
    unless empty files are allowed, and, when [max_length] is set and
    not zero, a name of at most that many characters. *)
Theorem FileField_returns_only_acceptable_uploads o self data t r :
  FileField.to_internal_value o self data = (t, Returns r) ->
  t = [] /\ r = data /\
  exists file_name file_size,
    data = FileField.UploadedFile (Some file_name) file_size /\
    file_name <> "" /\
    (FileField.allow_empty_file o = false ->
     exists size, file_size = Some size /\ size <> 0%Z) /\
    (forall m, FileField.max_length o = Some m -> m <> 0%Z ->
       (Z.of_nat (String.length file_name) <= m)%Z).
Proof.
  unfold FileField.to_internal_value.
  destruct data as [file_name file_size|v];
    [|intros H; now apply classes_fail_does_not_return in H].
  destruct (FileField.no_name file_name) eqn:Hname;
    [intros H; now apply classes_fail_does_not_return in H|].
  destruct (negb (FileField.allow_empty_file o)
            && FileField.no_size file_size) eqn:Hsize;
    [intros H; now apply classes_fail_does_not_return in H|].
  destruct (FileField.too_long _ _) eqn:Hlong;
    [intros H; now apply classes_fail_does_not_return in H|].
  intros H; inversion H; subst. split; [reflexivity|]. split; [reflexivity|].
  destruct file_name as [file_name|]; [|discriminate Hname].
  exists file_name, file_size. split; [reflexivity|]. split; [|split].
  - intros ->. discriminate Hname.
  - intros Hallow. rewrite Hallow in Hsize. simpl in Hsize.
    destruct file_size as [size|]; [|discriminate Hsize].
    exists size. split; [reflexivity|]. simpl in Hsize.
    now apply Z.eqb_neq.
  - intros m Hm Hm0. simpl in Hlong. unfold FileField.too_long in Hlong.
    rewrite Hm in Hlong. apply Z.eqb_neq in Hm0. rewrite Hm0 in Hlong.
    simpl in Hlong. now apply Z.ltb_ge in Hlong.
Qed.

(** X27. A constructed [FileField] reports the first check that fails,
    with a message of its class: [invalid] for data without [name] and
    [size]; [no_name] for a missing or empty name, whatever the size;
    [empty] for a named upload of no size when empty files are not
    allowed, whatever the length of the name. With [max_length] absent
    or zero the length of the name is not checked. *)
Theorem FileField_reports_the_first_failure max_length allow_empty kw self o :
  FileField.__init__ max_length allow_empty kw = Returns (self, o) ->
  (forall v,
     Field.fails_with self "invalid" []
       (FileField.to_internal_value o self (FileField.NotAFile v))) /\
  (forall file_name file_size,
     FileField.no_name file_name = true ->
     Field.fails_with self "no_name" []
       (FileField.to_internal_value o self
          (FileField.UploadedFile file_name file_size))) /\
  (forall file_name file_size,
     file_name <> "" -> allow_empty <> Some true ->
     FileField.no_size file_size = true ->
     Field.fails_with self "empty" []
       (FileField.to_internal_value o self
          (FileField.UploadedFile (Some file_name) file_size))) /\
  (forall file_name size,
     file_name <> "" -> size <> 0%Z ->
     max_length = None \/ max_length = Some 0%Z ->
     FileField.to_internal_value o self
       (FileField.UploadedFile (Some file_name) (Some size))
     = ([], Returns (FileField.UploadedFile (Some file_name) (Some size)))).
Proof.
  unfold FileField.__init__.
  destruct (Classes.__init__ FileField.info kw) as [b|e] eqn:Hinit;
    [|discriminate].
  intros H; inversion H; subst; clear H.
  assert (Hmsg : forall key msg,
             In (key, msg) (hd [] (Classes.mro_messages FileField.info)) ->
             is_Some (error_messages self !! key)).
  { intros key msg Hin.
    eapply (classes_init_messages _ _ _ _ key msg Hinit); [|exact Hin].
    left; reflexivity. }
  split; [|split; [|split]].
  - intros v. destruct (Hmsg "invalid" _ (or_intror (or_introl eq_refl)))
      as [msg Hm].
    unfold Field.fails_with, FileField.to_internal_value, Classes.fail.
    rewrite Hm. simpl. eauto.
  - intros file_name file_size Hname.
    destruct (Hmsg "no_name" _
                (or_intror (or_intror (or_introl eq_refl)))) as [msg Hm].
    unfold Field.fails_with, FileField.to_internal_value, Classes.fail.
    rewrite Hname, Hm. simpl. eauto.
  - intros file_name file_size Hname Hallow Hsize.
    destruct (Hmsg "empty" _
                (or_intror (or_intror (or_intror (or_introl eq_refl)))))
      as [msg Hm].
    unfold Field.fails_with, FileField.to_internal_value, Classes.fail.
    assert (FileField.no_name (Some file_name) = false) as ->
      by (destruct file_name; [contradiction|reflexivity]).
    cbn [FileField.allow_empty_file].
    assert (from_option id false allow_empty = false) as ->
      by (destruct allow_empty as [[]|]; [contradiction| |]; reflexivity).
    rewrite Hsize, Hm. simpl. eauto.
  - intros file_name size Hname Hsize Hmax.
    unfold FileField.to_internal_value.
    assert (FileField.no_name (Some file_name) = false) as ->
      by (destruct file_name; [contradiction|reflexivity]).
    assert (FileField.no_size (Some size) = false) as ->
      by (now apply Z.eqb_neq).
    rewrite andb_false_r. cbn [FileField.max_length].
    destruct Hmax as [-> | ->]; reflexivity.
Qed.
End FileFacts.

Lemma FileField_returns_only_acceptable_uploads_witness :
  [] = ([] : list Core.event) /\ Samples.report = Samples.report /\
  exists file_name file_size,
    Samples.report = FileField.UploadedFile (Some file_name) file_size /\
    file_name <> "" /\
    (FileField.allow_empty_file (snd Samples.short_names_field) = false ->
     exists size, file_size = Some size /\ size <> 0%Z) /\
    (forall m, FileField.max_length (snd Samples.short_names_field) = Some m ->
       m <> 0%Z -> (Z.of_nat (String.length file_name) <= m)%Z).
Proof.
  apply (FileField_returns_only_acceptable_uploads
           (snd Samples.short_names_field) (fst Samples.short_names_field)
           Samples.report [] Samples.report).
  reflexivity.
Defined.

Lemma FileField_reports_the_first_failure_witness :
  Field.fails_with (fst Samples.short_names_field) "no_name" []
    (FileField.to_internal_value (snd Samples.short_names_field)
       (fst Samples.short_names_field) Samples.nameless).
Proof.
  destruct (FileField_reports_the_first_failure (Some 8%Z) None
              Field.no_kwargs (fst Samples.short_names_field)
              (snd Samples.short_names_field) eq_refl)
    as (_ & Hname & _).
  apply (Hname None (Some 0%Z)). reflexivity.
Defined.

(** ** Date and time fields, once more *)

Section TemporalMoreFacts.
Import Py Core Temporal.
Context {date time datetime tzinfo : Type}.
Context (parse_datetime : input date time datetime -> attempt (option datetime)).
Context (parse_date : input date time datetime -> attempt (option date)).
Context (parse_time : input date time datetime -> attempt (option time)).
Context (strptime : input date time datetime -> string -> attempt datetime).
Context (date_of : datetime -> date) (time_of : datetime -> time).
Context (is_aware : datetime -> bool).
Context (make_aware : datetime -> tzinfo -> datetime).
Context (make_naive_utc : datetime -> datetime).
Context (ISO_8601 : string).
Context (datetime_formats date_formats time_formats : list string -> string).

Let try {A : Type} := @try_format date time datetime strptime ISO_8601 A.
Let first {A : Type} := @first_format date time datetime strptime ISO_8601 A.
Let enforce :=
  enforce_timezone datetime tzinfo is_aware make_aware make_naive_utc.

(** An exception the loop does not catch ends it at the format that
    raised it. *)
Lemma first_format_propagates {A : Type} iso (post : datetime -> A)
    before format after v e :
  Forall (fun f => try iso post v f = NextFormat) before ->
  try iso post v format = Propagated e ->
  first iso post (before ++ format :: after) v
  = (map FormatTried (before ++ [format]), Raises e).
Proof.
  intros Hbefore Hraise. unfold first, try in *.
  induction Hbefore as [|f before Hf _ IH]; cbn [first_format app map].
  - rewrite Hraise. reflexivity.
  - rewrite Hf, IH. reflexivity.
Qed.

(** What the loop returns comes from one of the formats, or is nothing. *)
Lemma enforce_timezone_awareness (self : DateTimeField tzinfo) v :
  (forall v tz, is_aware (make_aware v tz) = true) ->
  (forall v, is_aware (make_naive_utc v) = false) ->
  is_aware (enforce self v) = Clock.has_timezone self /\
  enforce self (enforce self v) = enforce self v.
Proof.
  intros Haware Hnaive.
  unfold enforce, enforce_timezone, Clock.has_timezone.
  destruct (default_timezone self) as [tz|];
    destruct (is_aware v) eqn:Hv; cbn [negb].
  - rewrite Hv. auto.
  - rewrite (Haware v tz). auto.
  - rewrite (Hnaive v). auto.
  - rewrite Hv. auto.
Qed.

(** X28. With a time zone library whose [make_aware] gives aware
    date-times and whose [make_naive] gives naive ones, every date-time
    a [DateTimeField] returns, parsed or passed in, is aware when the
    field has a default time zone and naive when it has none, and
    enforcing the time zone again leaves it as it is. *)
Theorem DateTimeField_results_follow_the_time_zone
    (self : DateTimeField tzinfo) v t r :
  (forall v tz, is_aware (make_aware v tz) = true) ->
  (forall v, is_aware (make_naive_utc v) = false) ->
  DateTimeField_to_internal_value date time datetime tzinfo
    parse_datetime strptime is_aware make_aware make_naive_utc
    ISO_8601 datetime_formats self v = (t, Returns r) ->
  is_aware r = Clock.has_timezone self /\ enforce self r = r.
Proof.
  intros Haware Hnaive.
  assert (Hlaw : forall x, r = enforce self x ->
                 is_aware r = Clock.has_timezone self /\ enforce self r = r).
  { intros x ->. now apply enforce_timezone_awareness. }
  unfold DateTimeField_to_internal_value.
  destruct v as [dt|d|tm|o].
  - intros H. unfold ret in H. injection H as _ Hr.
    exact (Hlaw dt (eq_sym Hr)).
  - intros H. now apply fail_does_not_return in H.
  - destruct (first_format _ _ _ _ _ _ _ _ _) as [tr [[parsed|]|e]];
      unfold Core.bind, ret; cbn [fst snd].
    + intros H. injection H as _ Hr. exact (Hlaw parsed (eq_sym Hr)).
    + unfold Field.fail. destruct (_ !! _); intros H; discriminate H.
    + intros H; discriminate H.
  - destruct (first_format _ _ _ _ _ _ _ _ _) as [tr [[parsed|]|e]];
      unfold Core.bind, ret; cbn [fst snd].
    + intros H. injection H as _ Hr. exact (Hlaw parsed (eq_sym Hr)).
    + unfold Field.fail. destruct (_ !! _); intros H; discriminate H.
    + intros H; discriminate H.
Qed.

(** X29. An exception of a parser that is neither a [ValueError] nor a
    [TypeError] is not turned into a validation error: each temporal
    field, on input it hands to its parsers, lets it out at the format
    that raised it, and tries no format after it. *)
Theorem temporal_fields_let_other_exceptions_out before format after e :
  (forall (self : DateTimeField tzinfo) v,
     is_date v = false ->
     dt_input_formats self = before ++ format :: after ->
     Forall (fun f => try parse_datetime (fun parsed => parsed) v f
                      = NextFormat) before ->
     try parse_datetime (fun parsed => parsed) v format = Propagated e ->
     DateTimeField_to_internal_value date time datetime tzinfo
       parse_datetime strptime is_aware make_aware make_naive_utc
       ISO_8601 datetime_formats self v
     = (map FormatTried (before ++ [format]), Raises e)) /\
  (forall (self : DateField) v,
     is_date v = false ->
     d_input_formats self = before ++ format :: after ->
     Forall (fun f => try parse_date date_of v f = NextFormat) before ->
     try parse_date date_of v format = Propagated e ->
     DateField_to_internal_value date time datetime parse_date strptime
       date_of ISO_8601 date_formats self v
     = (map FormatTried (before ++ [format]), Raises e)) /\
  (forall (self : TimeField) v,
     is_time v = false ->
     t_input_formats self = before ++ format :: after ->
     Forall (fun f => try parse_time time_of v f = NextFormat) before ->
     try parse_time time_of v format = Propagated e ->
     TimeField_to_internal_value date time datetime parse_time strptime
       time_of ISO_8601 time_formats self v
     = (map FormatTried (before ++ [format]), Raises e)).
Proof.
  split; [|split]; intros self v Hv Hformats Hbefore Hraise.
  - unfold DateTimeField_to_internal_value.
    destruct v; try discriminate Hv; rewrite Hformats;
      refine (eq_trans
                (f_equal (fun m => Core.bind m _)
                   (first_format_propagates parse_datetime _ before format
                      after _ e Hbefore Hraise)) _);
      reflexivity.
  - unfold DateField_to_internal_value.
    destruct v; try discriminate Hv; rewrite Hformats;
      refine (eq_trans
                (f_equal (fun m => Core.bind m _)
                   (first_format_propagates parse_date _ before format
                      after _ e Hbefore Hraise)) _);
      reflexivity.
  - unfold TimeField_to_internal_value.
    destruct v; try discriminate Hv; rewrite Hformats;
      refine (eq_trans
                (f_equal (fun m => Core.bind m _)
                   (first_format_propagates parse_time _ before format
                      after _ e Hbefore Hraise)) _);
      reflexivity.
Qed.
End TemporalMoreFacts.

Lemma DateTimeField_results_follow_the_time_zone_witness :
  Clock.is_aware (0%Z, true) = Clock.has_timezone Clock.in_zone /\
  Temporal.enforce_timezone Clock.stamp unit Clock.is_aware Clock.make_aware
    Clock.make_naive_utc Clock.in_zone (0%Z, true) = (0%Z, true).
Proof.
  apply (DateTimeField_results_follow_the_time_zone
           Clock.parse_datetime Clock.strptime Clock.is_aware
           Clock.make_aware Clock.make_naive_utc "iso-8601"
           Examples.humanize Clock.in_zone (Temporal.Other (Py.VStr "0"))
           [Core.FormatTried "%s"] (0%Z, true)).
  - intros v tz. reflexivity.
  - intros v. reflexivity.
  - reflexivity.
Defined.

Lemma temporal_fields_let_other_exceptions_out_witness :
  Clock.DateTimeField_to_internal_value Clock.in_zone
    (Temporal.Other (Py.VInt 7))
  = ([Core.FormatTried "%s"; Core.FormatTried "iso-8601"],
     Core.Raises (Core.OtherError "OverflowError")).
Proof.
  destruct (temporal_fields_let_other_exceptions_out
              Clock.parse_datetime
              (fun _ => Temporal.Parsed None) (fun _ => Temporal.Parsed None)
              Clock.strptime (fun m => fst m) (fun m => fst m)
              Clock.is_aware Clock.make_aware Clock.make_naive_utc
              "iso-8601" Examples.humanize Examples.humanize
              Examples.humanize ["%s"] "iso-8601" []
              (Core.OtherError "OverflowError")) as (Hdt & _).
  apply (Hdt Clock.in_zone (Temporal.Other (Py.VInt 7)) eq_refl eq_refl).
  - repeat constructor.
  - reflexivity.
Defined.
